(* ===================================================================== *)
(* sacred_tools: the MongoDB ingestion client of mongo.py and the        *)
(* conversion script of main.py                                          *)
(*                                                                       *)
(* A shallow embedding of MongoDBClient (__init__, initialize,           *)
(* finished_event, insert, save, save_sources) and of storage2mongo      *)
(* over an explicit model of the document store they talk to: the runs   *)
(* collection, the metrics collection and the GridFS blob store.  The    *)
(* store is shared with other writers and may fail, so every round trip  *)
(* consults a schedule of events.                                        *)
(* ===================================================================== *)

From Stdlib Require Import ZArith String Ascii List Lia.
From stdpp Require Import gmap strings list fin_maps pretty.

Set Warnings "-register-all".

Open Scope string_scope.
Open Scope Z_scope.
Open Scope list_scope.

(* --------------------------------------------------------------------- *)
(* Values and documents                                                  *)
(* --------------------------------------------------------------------- *)

(** The values that travel through the client: what json.load produces,
    plus the datetime objects of strptime and the ObjectIds the store
    hands out.  Floats are never computed on; they are carried by their
    literal. *)
Inductive value : Type :=
| VNone
| VBool (b : bool)
| VInt (z : Z)
| VFloat (lit : string)
| VStr (s : string)
| VDate (t : Z)
| VOid (o : N)
| VList (l : list value)
| VDict (kv : list (string * value)).

(** A document is a Python dict keyed by field name. *)
Abbreviation doc := (gmap string value).

(** Truth value of a dict: it is true exactly when it has a key. *)
Definition dict_truthy (d : doc) : bool :=
  match map_to_list d with
  | [] => false
  | _ :: _ => true
  end.

(** One metric batch of metrics.json: three JSON arrays. *)
Record batch : Type := Batch {
  steps : list value;
  values : list value;
  timestamps : list value
}.

(** run['experiment']: the keys the client reads, and the others. *)
Record ex_info : Type := ExInfo {
  base_dir : string;
  sources : list (string * string);
  ex_other : list (string * value)
}.

(** The dict loaded from run.json. *)
Record run_record : Type := RunRecord {
  experiment : ex_info;
  command : value;
  host : value;
  start_time : string;
  stop_time : string;
  heartbeat : string;
  meta : value;
  status : value;
  result : value
}.

(** The snapshot directory: source file name to its bytes. *)
Abbreviation snapshot := (gmap string string).

(* --------------------------------------------------------------------- *)
(* The store                                                             *)
(* --------------------------------------------------------------------- *)

(** A document of the metrics collection. *)
Record metric_doc : Type := MetricDoc {
  m_id : N;
  m_run_id : Z;
  m_name : string;
  m_steps : list value;
  m_values : list value;
  m_timestamps : list value
}.

(** A GridFS file. *)
Record blob : Type := Blob {
  b_id : N;
  b_filename : string;
  b_md5 : string;
  b_data : string
}.

(** pymongo errors the code names, and any other failure of a round trip.
    DuplicateKeyError is not here: it is decided by the collection. *)
Inductive fault : Type :=
| InvalidDocument
| AutoReconnect
| OperationFailure.

(** What happens at one round trip to the store: nothing special, another
    writer inserts a run with the given id just before our operation is
    applied, or the operation fails. *)
Inductive event : Type :=
| Quiet
| Rival (z : Z)
| Fails (f : fault).

(** The operations the client issues, as they appear in the log. *)
Inductive op : Type :=
| RunsFindOne (z : Z)
| RunsCountDocuments
| RunsFindMax
| RunsInsertOne (d : doc)
| RunsUpdateOne (idv : value) (set : doc)
| MetricsUpdateOne (run_id : Z) (name : string) (push : batch)
| FsFindOne (filename md5 : string)
| FsPut (filename data : string)
| OpenFile (name : string).

(** The runs collection is keyed by _id; the stored body holds the other
    fields.  ObjectIds are drawn from a counter. *)
Record world : Type := World {
  runs : gmap Z doc;
  metrics : list metric_doc;
  fs : list blob;
  next_oid : N;
  sched : list event;
  log : list op
}.

Inductive error : Type :=
| PyMongo (f : fault)
| DuplicateKeyError
| RuntimeError (msg : string)
| NameError (name : string)
| FileNotFoundError (name : string)
| ValueError (msg : string)
| TypeError
| KeyError (key : string)
| StopIteration
| AttributeError
| OutOfFuel.

Inductive res (A : Type) : Type :=
| Ok (a : A)
| Raise (e : error).
Arguments Ok {A} a.
Arguments Raise {A} e.

(** The attributes of a MongoDBClient instance.  When overwrite is bound,
    run_entry (once bound) is the same dict object. *)
Record client : Type := Client {
  overwrite : option doc;
  run_entry : option doc;
  priority : Z;
  failure_dir : option string
}.

Record sys : Type := Sys {
  self : client;
  store : world
}.

(* --------------------------------------------------------------------- *)
(* A state and exception monad over the client and the store             *)
(* --------------------------------------------------------------------- *)

Definition M (A : Type) : Type := sys -> res A * sys.

Definition ret {A} (a : A) : M A := fun s => (Ok a, s).

Definition raise {A} (e : error) : M A := fun s => (Raise e, s).

Definition bind {A B} (m : M A) (k : A -> M B) : M B :=
  fun s =>
    match m s with
    | (Ok a, s') => k a s'
    | (Raise e, s') => (Raise e, s')
    end.

(** try: m ... except: hand the outcome to the handler. *)
Definition try {A} (m : M A) : M (res A) :=
  fun s => let '(r, s') := m s in (Ok r, s').

Declare Scope py_scope.
Delimit Scope py_scope with py.
Notation "x <- m ;; k" := (bind m (fun x => k))
  (at level 100, m at next level, right associativity) : py_scope.
Notation "m ;; k" := (bind m (fun _ => k))
  (at level 100, right associativity) : py_scope.
Open Scope py_scope.

Definition get_self : M client := fun s => (Ok (self s), s).

Definition put_self (c : client) : M unit :=
  fun s => (Ok tt, Sys c (store s)).

(** Lift a store operation. *)
Definition on_store {A} (f : world -> res A * world) : M A :=
  fun s => let '(r, w) := f (store s) in (r, Sys (self s) w).

(** Mutation of the run_entry dict; the overwrite attribute sees it too
    because it is the same object. *)
Definition mutate_entry (f : doc -> doc) : M unit :=
  fun s =>
    let c := self s in
    (Ok tt, Sys (Client (f <$> overwrite c) (f <$> run_entry c)
                        (priority c) (failure_dir c)) (store s)).

(* --------------------------------------------------------------------- *)
(* Store operations                                                      *)
(* --------------------------------------------------------------------- *)

Definition set_runs (r : gmap Z doc) (w : world) : world :=
  World r (metrics w) (fs w) (next_oid w) (sched w) (log w).

Definition set_metrics (m : list metric_doc) (o : N) (w : world) : world :=
  World (runs w) m (fs w) o (sched w) (log w).

Definition set_fs (f : list blob) (o : N) (w : world) : world :=
  World (runs w) (metrics w) f o (sched w) (log w).

Definition record_op (o : op) (w : world) : world :=
  World (runs w) (metrics w) (fs w) (next_oid w) (sched w) (log w ++ [o]).

(** Another writer inserts a bare run under id z, unless it is taken. *)
Definition rival_insert (z : Z) (r : gmap Z doc) : gmap Z doc :=
  match r !! z with
  | Some _ => r
  | None => <[z := ∅]> r
  end.

(** One round trip: log the operation, take the next event of the
    schedule and let the other writer move first.  An exhausted schedule
    is quiet. *)
Definition tick (o : op) (w : world) : option fault * world :=
  let w := record_op o w in
  match sched w with
  | [] => (None, w)
  | Quiet :: s =>
      (None, World (runs w) (metrics w) (fs w) (next_oid w) s (log w))
  | Rival z :: s =>
      (None, World (rival_insert z (runs w)) (metrics w) (fs w)
                   (next_oid w) s (log w))
  | Fails f :: s =>
      (Some f, World (runs w) (metrics w) (fs w) (next_oid w) s (log w))
  end.

Definition id_value (i : option Z) : value :=
  match i with
  | Some z => VInt z
  | None => VNone
  end.

(** runs.find_one({"_id": z}) *)
Definition runs_find_one (z : Z) (w : world) : res (option doc) * world :=
  match tick (RunsFindOne z) w with
  | (Some f, w) => (Raise (PyMongo f), w)
  | (None, w) => (Ok (<["_id" := VInt z]> <$> runs w !! z), w)
  end.

(** runs.count_documents({}, limit=1) *)
Definition runs_count_documents (w : world) : res Z * world :=
  match tick RunsCountDocuments w with
  | (Some f, w) => (Raise (PyMongo f), w)
  | (None, w) => (Ok (if decide (runs w = ∅) then 0 else 1), w)
  end.

(** The largest key of the collection. *)
Definition max_id (r : gmap Z doc) : option Z :=
  map_fold (fun k _ acc =>
              match acc with
              | Some m => Some (Z.max m k)
              | None => Some k
              end) None r.

(** runs.find({}, {"_id": 1}).sort("_id", DESCENDING).limit(1).next()["_id"] *)
Definition runs_find_max (w : world) : res Z * world :=
  match tick RunsFindMax w with
  | (Some f, w) => (Raise (PyMongo f), w)
  | (None, w) =>
      match max_id (runs w) with
      | Some m => (Ok m, w)
      | None => (Raise StopIteration, w)
      end
  end.

(** runs.insert_one(d): the _id of d must be free. *)
Definition runs_insert_one (d : doc) (w : world) : res unit * world :=
  match tick (RunsInsertOne d) w with
  | (Some f, w) => (Raise (PyMongo f), w)
  | (None, w) =>
      match d !! "_id" with
      | Some (VInt z) =>
          match runs w !! z with
          | Some _ => (Raise DuplicateKeyError, w)
          | None => (Ok tt, set_runs (<[z := delete "_id" d]> (runs w)) w)
          end
      | _ => (Raise (PyMongo OperationFailure), w)
      end
  end.

(** Does a $set payload try to change the _id of the run z? *)
Definition changes_id (z : Z) (set : doc) : bool :=
  match set !! "_id" with
  | None => false
  | Some (VInt z') => negb (Z.eqb z' z)
  | Some _ => true
  end.

(** runs.update_one({"_id": idv}, {"$set": set}): no upsert; the named
    fields replace the stored ones, the others stay. *)
Definition runs_update_one (idv : value) (set : doc) (w : world)
  : res unit * world :=
  match tick (RunsUpdateOne idv set) w with
  | (Some f, w) => (Raise (PyMongo f), w)
  | (None, w) =>
      match idv with
      | VInt z =>
          match runs w !! z with
          | Some old =>
              if changes_id z set then (Raise (PyMongo OperationFailure), w)
              else (Ok tt, set_runs (<[z := delete "_id" set ∪ old]> (runs w)) w)
          | None => (Ok tt, w)
          end
      | _ => (Ok tt, w)
      end
  end.

(** One $push with $each on a metric document. *)
Definition push_each (b : batch) (m : metric_doc) : metric_doc :=
  MetricDoc (m_id m) (m_run_id m) (m_name m)
            (m_steps m ++ steps b)
            (m_values m ++ values b)
            (m_timestamps m ++ timestamps b).

Definition metric_matches (run_id : Z) (name : string) (m : metric_doc) : bool :=
  Z.eqb (m_run_id m) run_id && String.eqb (m_name m) name.

(** Apply the push to the first document matching the query, if any. *)
Fixpoint push_first (run_id : Z) (name : string) (b : batch)
    (ms : list metric_doc) : option (list metric_doc) :=
  match ms with
  | [] => None
  | m :: ms' =>
      if metric_matches run_id name m then Some (push_each b m :: ms')
      else cons m <$> push_first run_id name b ms'
  end.

(** metrics.update_one({"run_id":..., "name":...}, {"$push": ...},
    upsert=True); the reply is result.upserted_id. *)
Definition metrics_update_one (run_id : Z) (name : string) (b : batch)
    (w : world) : res (option N) * world :=
  match tick (MetricsUpdateOne run_id name b) w with
  | (Some f, w) => (Raise (PyMongo f), w)
  | (None, w) =>
      match push_first run_id name b (metrics w) with
      | Some ms => (Ok None, set_metrics ms (next_oid w) w)
      | None =>
          let o := next_oid w in
          (Ok (Some o),
           set_metrics
             (metrics w ++ [MetricDoc o run_id name (steps b) (values b) (timestamps b)])
             (N.succ o) w)
      end
  end.

Definition blob_matches (filename md5 : string) (b : blob) : bool :=
  String.eqb (b_filename b) filename && String.eqb (b_md5 b) md5.

(** fs.find_one({"filename":..., "md5":...}) *)
Definition fs_find_one (filename md5 : string) (w : world)
  : res (option blob) * world :=
  match tick (FsFindOne filename md5) w with
  | (Some f, w) => (Raise (PyMongo f), w)
  | (None, w) => (Ok (List.find (blob_matches filename md5) (fs w)), w)
  end.

(** with (actual_base_dir / source_name).open('rb') as f *)
Definition open_rb (dir : snapshot) (name : string) (w : world)
  : res string * world :=
  let w := record_op (OpenFile name) w in
  match dir !! name with
  | Some data => (Ok data, w)
  | None => (Raise (FileNotFoundError name), w)
  end.

(* --------------------------------------------------------------------- *)
(* Paths and the marker of the captured output                           *)
(* --------------------------------------------------------------------- *)

Definition starts_with_sep (s : string) : bool :=
  match s with
  | String c _ => Ascii.eqb c "/"
  | EmptyString => false
  end.

Fixpoint ends_with_sep (s : string) : bool :=
  match s with
  | EmptyString => false
  | String c EmptyString => Ascii.eqb c "/"
  | String _ s' => ends_with_sep s'
  end.

(** os.path.join(a, b) on a POSIX host. *)
Definition path_join (a b : string) : string :=
  if starts_with_sep b then b
  else if String.eqb a "" || ends_with_sep a then String.append a b
  else String.append a (String "/" b).

Definition dquote : ascii := ascii_of_nat 34.

(** The literal part of the pattern, up to and including the opening
    quote. *)
Definition marker_prefix : string :=
  String.append "Started run with ID " (String dquote EmptyString).

(** f'Started run with ID "{_id}"' for an integer _id. *)
Definition marker (z : Z) : string :=
  String.append marker_prefix (String.append (pretty z) (String dquote EmptyString)).

Fixpoint strip_prefix (p s : string) : option string :=
  match p, s with
  | EmptyString, _ => Some s
  | String a p', String b s' =>
      if Ascii.eqb a b then strip_prefix p' s' else None
  | String _ _, EmptyString => None
  end.

(* --------------------------------------------------------------------- *)
(* The client                                                            *)
(* --------------------------------------------------------------------- *)

Definition VERSION : string := "FileStorageObserver-0.0.1".

Definition entry_of (name : string) (o : N) : value :=
  VDict [("name", VStr name); ("id", VStr (pretty o))].

(** The local dict info of finished_event: empty until setdefault creates
    its "metrics" list. *)
Definition info_value (registry : list value) : value :=
  match registry with
  | [] => VDict []
  | _ :: _ => VDict [("metrics", VList registry)]
  end.

Definition manifest_value (srcs : list (string * string)) : value :=
  VList (map (fun p => VList [VStr (fst p); VStr (snd p)]) srcs).

Definition source_info_value (info : list (string * N)) : value :=
  VList (map (fun p => VList [VStr (fst p); VOid (snd p)]) info).

(** The experiment dict with the given value under 'sources'. *)
Definition ex_value (ex : ex_info) (srcs : value) : value :=
  VDict (("base_dir", VStr (base_dir ex)) :: ("sources", srcs) :: ex_other ex).

Section Client.

(** Library functions the client calls and this file does not define:
    datetime.strptime with TIME_FORMAT (None when it raises ValueError),
    the digest GridFS records for the bytes it stores, and the class of
    characters the regular expression engine takes for \d. *)
Variable strptime : string -> option Z.
Variable md5sum : string -> string.
Variable re_digit : ascii -> bool.

(** fs.put(f, filename=...): the reply is the _id of the new file. *)
Definition fs_put (filename data : string) (w : world) : res N * world :=
  match tick (FsPut filename data) w with
  | (Some f, w) => (Raise (PyMongo f), w)
  | (None, w) =>
      let o := next_oid w in
      (Ok o, set_fs (fs w ++ [Blob o filename (md5sum data) data]) (N.succ o) w)
  end.

(** \d+ and the closing quote at the head of s, greedy with
    backtracking; the rest after the closing quote. *)
Fixpoint digits_quote (s : string) : option string :=
  match s with
  | EmptyString => None
  | String c s' =>
      if re_digit c then
        match digits_quote s' with
        | Some r => Some r
        | None =>
            match s' with
            | String q r => if Ascii.eqb q dquote then Some r else None
            | EmptyString => None
            end
        end
      else None
  end.

(** The pattern Started run with ID "\d+" at the head of s. *)
Definition match_marker (s : string) : option string :=
  match strip_prefix marker_prefix s with
  | Some t => digits_quote t
  | None => None
  end.

(** re.sub(pattern, repl, s, count=1) for a repl without escapes. *)
Fixpoint sub_first (repl s : string) : string :=
  match match_marker s with
  | Some rest => String.append repl rest
  | None =>
      match s with
      | EmptyString => EmptyString
      | String c s' => String c (sub_first repl s')
      end
  end.

Definition py_strptime (t : string) : M Z :=
  match strptime t with
  | Some d => ret d
  | None => raise (ValueError t)
  end.

(** self.run_entry as a dict. *)
Definition entry : M doc :=
  c <- get_self;;
  match run_entry c with
  | Some e => ret e
  | None => raise TypeError
  end.

(** self.run_entry['_id'].  Run ids are integers in this model. *)
Definition entry_id : M Z :=
  e <- entry;;
  match e !! "_id" with
  | Some (VInt z) => ret z
  | Some _ => raise TypeError
  | None => raise (KeyError "_id")
  end.

(** RuntimeError("Couldn't find run to overwrite with _id='{}'") *)
Definition NotFound (z : Z) : error :=
  RuntimeError
    (String.append "Couldn't find run to overwrite with _id='"
                   (String.append (pretty z) "'")).

(** RuntimeError("Cannot overwrite more than once!") *)
Definition DoubleOverwrite : error :=
  RuntimeError "Cannot overwrite more than once!".

(** MongoDBClient.initialize *)
Definition initialize (ov : option Z) (prio : Z) (fdir : option string)
    (w : world) : res client * world :=
  match ov with
  | Some z =>
      match runs_find_one z w with
      | (Ok None, w') => (Raise (NotFound z), w')
      | (Ok (Some run), w') => (Ok (Client (Some run) None prio fdir), w')
      | (Raise e, w') => (Raise e, w')
      end
  | None => (Ok (Client None None prio fdir), w)
  end.

(** MongoDBClient.save.  ObserverError is neither defined nor imported in
    mongo.py, so evaluating the raise statement raises NameError. *)
Definition save (new_data : doc) : M unit :=
  e <- entry;;
  match e !! "_id" with
  | None => raise (KeyError "_id")
  | Some idv =>
      r <- try (on_store
                  (runs_update_one idv (if dict_truthy new_data then new_data else e)));;
      match r with
      | Ok _ => ret tt
      | Raise (PyMongo AutoReconnect) => ret tt
      | Raise (PyMongo InvalidDocument) => raise (NameError "ObserverError")
      | Raise err => raise err
      end
  end.

(** The while True loop of insert; each turn that comes back here has
    seen another writer take the candidate id. *)
Fixpoint insert_loop (fuel : nat) (autoinc_key : bool) : M unit :=
  match fuel with
  | O => raise OutOfFuel
  | S fuel' =>
      (if autoinc_key then
         n <- on_store runs_count_documents;;
         cand <- (if Z.eqb n 0 then ret 1
                  else (m <- on_store runs_find_max;; ret (m + 1)));;
         mutate_entry <["_id" := VInt cand]>
       else ret tt);;
      e <- entry;;
      r <- try (on_store (runs_insert_one e));;
      match r with
      | Ok _ => ret tt
      | Raise (PyMongo InvalidDocument) => raise (NameError "ObserverError")
      | Raise DuplicateKeyError =>
          if autoinc_key then insert_loop fuel' autoinc_key
          else raise DuplicateKeyError
      | Raise err => raise err
      end
  end.

Definition is_none (v : option value) : bool :=
  match v with
  | None | Some VNone => true
  | Some _ => false
  end.

(** MongoDBClient.insert.  A turn of the loop is repeated only after a
    Rival event, so one more than the length of the schedule bounds it. *)
Definition insert : M unit :=
  c <- get_self;;
  if match overwrite c with
     | Some d => dict_truthy d
     | None => false
     end
  then save ∅
  else
    e <- entry;;
    fun s => insert_loop (S (length (sched (store s)))) (is_none (e !! "_id")) s.

(** MongoDBClient.save_sources, with source_info as accumulator. *)
Fixpoint save_sources_loop (base : string) (dir : snapshot)
    (srcs : list (string * string)) (source_info : list (string * N))
  : M (list (string * N)) :=
  match srcs with
  | [] => ret source_info
  | (source_name, md5) :: rest =>
      let abs_path := path_join base source_name in
      file <- on_store (fs_find_one abs_path md5);;
      _id <- match file with
             | Some f => ret (b_id f)
             | None =>
                 (data <- on_store (open_rb dir source_name);;
                  on_store (fs_put abs_path data))
             end;;
      save_sources_loop base dir rest (source_info ++ [(source_name, _id)])
  end.

Definition save_sources (ex : ex_info) (dir : snapshot) : M (list (string * N)) :=
  save_sources_loop (base_dir ex) dir (sources ex) [].

(** The dict passed to run_entry.update. *)
Definition running_info (run : run_record) (config : value)
    (start stop beat : Z) : doc :=
  list_to_map
    [("experiment", ex_value (experiment run) (manifest_value (sources (experiment run))));
     ("format", VStr VERSION);
     ("command", command run);
     ("host", host run);
     ("start_time", VDate start);
     ("stop_time", VDate stop);
     ("config", config);
     ("meta", meta run);
     ("status", status run);
     ("result", result run);
     ("resources", VList []);
     ("artifacts", VList []);
     ("captured_out", VStr "");
     ("info", VDict []);
     ("heartbeat", VDate beat)].
Arguments running_info : simpl never.

(** The for loop over the metrics dict, with the "metrics" list of info
    as accumulator. *)
Fixpoint log_metrics (_id : Z) (ms : list (string * batch))
    (registry : list value) : M (list value) :=
  match ms with
  | [] => ret registry
  | (key, b) :: rest =>
      upserted_id <- on_store (metrics_update_one _id key b);;
      log_metrics _id rest
        match upserted_id with
        | Some o => registry ++ [entry_of key o]
        | None => registry
        end
  end.

(** finished_event, lines 130-136: bind self.run_entry, to a fresh dict
    or to the run to overwrite. *)
Definition bind_run_entry (_id : option Z) : M unit :=
  c <- get_self;;
  match overwrite c with
  | None =>
      put_self (Client None (Some {["_id" := id_value _id]})
                       (priority c) (failure_dir c))
  | Some ov =>
      match run_entry c with
      | Some _ => raise DoubleOverwrite
      | None => put_self (Client (Some ov) (Some ov) (priority c) (failure_dir c))
      end
  end.

(** finished_event, lines 138-163: "Running info saving". *)
Definition running_info_saving (run : run_record) (config : value)
    (code_base_dir : option snapshot) : M unit :=
  start <- py_strptime (start_time run);;
  stop <- py_strptime (stop_time run);;
  beat <- py_strptime (heartbeat run);;
  mutate_entry (fun e => running_info run config start stop beat ∪ e);;
  match code_base_dir with
  | None => mutate_entry <["experiment" := ex_value (experiment run) (VList [])]>
  | Some dir =>
      (source_info <- save_sources (experiment run) dir;;
       mutate_entry
         <["experiment" := ex_value (experiment run) (source_info_value source_info)]>)
  end.

(** finished_event, lines 168-171: "insert captured output". *)
Definition insert_captured_output (cout : string) : M Z :=
  _id <- entry_id;;
  save {["captured_out" := VStr (sub_first (marker _id) cout)]};;
  ret _id.

(** finished_event, lines 173-190: "insert metrics". *)
Definition insert_metrics (_id : Z) (metrics : option (list (string * batch)))
  : M unit :=
  match metrics with
  | Some (m :: ms) =>
      (registry <- log_metrics _id (m :: ms) [];;
       save {["info" := info_value registry]})
  | _ => ret tt
  end.

(** MongoDBClient.finished_event *)
Definition finished_event (run : run_record) (cout : string) (config : value)
    (metrics : option (list (string * batch)))
    (code_base_dir : option snapshot) (_id : option Z) : M Z :=
  bind_run_entry _id;;
  running_info_saving run config code_base_dir;;
  insert;;
  _id <- insert_captured_output cout;;
  insert_metrics _id metrics;;
  ret _id.

End Client.

(* --------------------------------------------------------------------- *)
(* The constructor                                                       *)
(* --------------------------------------------------------------------- *)

Definition DEFAULT_MONGO_PRIORITY : Z := 30.

(** MongoDBClient.COLLECTION_NAME_BLACKLIST *)
Definition COLLECTION_NAME_BLACKLIST : gset string :=
  {[ "fs.files"; "fs.chunks"; "_properties"; "system.indexes";
     "search_space"; "search_spaces" ]}.

(** What a caller passes as client: a pymongo.MongoClient, or an object
    of another type, kept by the text of its type. *)
Inductive py_object : Type :=
| MongoClientObject
| OtherObject (type_repr : string).

(** ValueError("client needs to be a pymongo.MongoClient, but is ...") *)
Definition NotAClient (type_repr : string) : error :=
  ValueError
    ("client needs to be a pymongo.MongoClient, but is " +:+ type_repr
       +:+ " instead").

(** ValueError("Cannot pass both a client and a url.") *)
Definition ClientAndUrl : error :=
  ValueError "Cannot pass both a client and a url.".

(** KeyError('Collection name "..." is reserved. Please use a different
    one.') *)
Definition Reserved (name : string) : error :=
  KeyError
    ("Collection name " +:+ String dquote name +:+ String dquote
       " is reserved. Please use a different one.").

(** collection_prefix after lines 70-72: a prefix that is not empty is
    followed by an underscore. *)
Definition separated (collection_prefix : string) : string :=
  if String.eqb collection_prefix "" then "" else collection_prefix +:+ "_".

Definition runs_collection_name (collection_prefix : string) : string :=
  separated collection_prefix +:+ "runs".

Definition metrics_collection_name (collection_prefix : string) : string :=
  separated collection_prefix +:+ "metrics".

Section Constructor.

(** The handles of pymongo and gridfs are built without a round trip to
    the server; what building one can do is refuse its arguments.  Each
    function gives the error raised, None when the handle is built:
    pymongo.MongoClient(url, **kwargs), client[db_name], database[name]
    and gridfs.GridFS(database). *)
Variable MongoClient : option string -> option error.
Variable Database : string -> option error.
Variable Collection : string -> option error.
Variable GridFS : string -> option error.

(** Lines 57-66: the client passed, or the one made from the url. *)
Definition connect (url : option string) (cl : option py_object)
  : option error :=
  match cl with
  | Some MongoClientObject =>
      match url with
      | Some _ => Some ClientAndUrl
      | None => None
      end
  | Some (OtherObject t) => Some (NotAClient t)
  | None => MongoClient url
  end.

(** MongoDBClient.__init__.  The result names the two collections bound
    to self.runs and self.metrics; the world is the content of these
    collections and of the GridFS of the database. *)
Definition __init__ (url : option string) (db_name collection_prefix : string)
    (ov : option Z) (prio : Z) (cl : option py_object) (fdir : option string)
    (w : world) : res (string * string * client) * world :=
  match connect url cl with
  | Some e => (Raise e, w)
  | None =>
  match Database db_name with
  | Some e => (Raise e, w)
  | None =>
      let runs_name := runs_collection_name collection_prefix in
      let metrics_name := metrics_collection_name collection_prefix in
      if bool_decide (runs_name ∈ COLLECTION_NAME_BLACKLIST)
      then (Raise (Reserved runs_name), w)
      else if bool_decide (metrics_name ∈ COLLECTION_NAME_BLACKLIST)
      then (Raise (Reserved metrics_name), w)
      else
        match Collection runs_name with
        | Some e => (Raise e, w)
        | None =>
        match Collection metrics_name with
        | Some e => (Raise e, w)
        | None =>
        match GridFS db_name with
        | Some e => (Raise e, w)
        | None =>
            match initialize ov prio fdir w with
            | (Ok c, w') => (Ok (runs_name, metrics_name, c), w')
            | (Raise e, w') => (Raise e, w')
            end
        end
        end
        end
  end
  end.

End Constructor.

(* --------------------------------------------------------------------- *)
(* The script of main.py                                                 *)
(* --------------------------------------------------------------------- *)

(** A directory written by the FileStorageObserver, as storage2mongo
    reads it: the subdirectory source and four files, each there or not.
    A JSON file is kept as what json.load returns for it, in the shape
    the observer writes. *)
Record storage : Type := Storage {
  source : option snapshot;
  cout_txt : option string;
  config_json : option value;
  metrics_json : option (list (string * batch));
  run_json : option run_record
}.

(** The configuration of the script: host, port, database, src_dir and
    _id. *)
Record options : Type := Options {
  opt_host : string;
  opt_port : Z;
  opt_database : string;
  opt_src_dir : string;
  opt_id : option Z
}.

(** What the script leaves besides the database: the line it logs and
    the text it writes to _id.txt. *)
Record report : Type := Report {
  logged : string;
  id_txt : string
}.

(** FileNotFoundError(f'Cannot find the directory {storage_path}') *)
Definition NoDirectory (storage_path : string) : error :=
  FileNotFoundError ("Cannot find the directory " +:+ storage_path).

Section Script.

Variable strptime : string -> option Z.
Variable md5sum : string -> string.
Variable re_digit : ascii -> bool.
Variable MongoClient : option string -> option error.
Variable Database : string -> option error.
Variable Collection : string -> option error.
Variable GridFS : string -> option error.

(** str(Path(p)) of pathlib, which this file does not define: the path
    as pathlib writes it, without a separator at its end or a dot
    component. *)
Variable Path : string -> string.

(** Opening a file of the storage directory for reading. *)
Definition read {A} (name : string) (file : option A) (w : world)
  : res A * world :=
  match file with
  | Some content => (Ok content, w)
  | None => (Raise (FileNotFoundError name), w)
  end.

(** storage2mongo, over the directories of the disk by their path. *)
Definition storage2mongo (disk : gmap string storage) (opt : options)
    (w : world) : res report * world :=
  let storage_path := Path (opt_src_dir opt) in
  match disk !! storage_path with
  | None => (Raise (NoDirectory storage_path), w)
  | Some files =>
      let code_base_dir := source files in
      match __init__ MongoClient Database Collection GridFS
              (Some (opt_host opt +:+ ":" +:+ pretty (opt_port opt)))
              (opt_database opt) "" None DEFAULT_MONGO_PRIORITY None None w with
      | (Raise e, w) => (Raise e, w)
      | (Ok (_, _, mgo), w) =>
      match read "cout.txt" (cout_txt files) w with
      | (Raise e, w) => (Raise e, w)
      | (Ok cout, w) =>
      match read "config.json" (config_json files) w with
      | (Raise e, w) => (Raise e, w)
      | (Ok config, w) =>
      match read "metrics.json" (metrics_json files) w with
      | (Raise e, w) => (Raise e, w)
      | (Ok metrics, w) =>
      match read "run.json" (run_json files) w with
      | (Raise e, w) => (Raise e, w)
      | (Ok run, w) =>
          match finished_event strptime md5sum re_digit run cout config
                  (Some metrics) code_base_dir (opt_id opt) (Sys mgo w) with
          | (Ok _id, s) =>
              (Ok (Report ("Convert finished! Experiment id: " +:+ pretty _id)
                          (pretty _id)),
               store s)
          | (Raise e, s) => (Raise e, store s)
          end
      end
      end
      end
      end
      end
  end.

End Script.

(* --------------------------------------------------------------------- *)
(* Vocabulary of the statements                                          *)
(* --------------------------------------------------------------------- *)

(** The next round trip is not made to fail by the schedule. *)
Definition answers (w : world) : Prop :=
  ∀ f, head (sched w) ≠ Some (Fails f).

(** The three arrays of a metric document have one length. *)
Definition balanced (m : metric_doc) : Prop :=
  length (m_steps m) = length (m_values m)
  ∧ length (m_values m) = length (m_timestamps m).




(** Every run of m relates the state it starts in to the state it
    leaves, whether it returns or raises. *)
Definition respects (R : sys → sys → Prop) {A} (m : M A) : Prop :=
  ∀ s r s', m s = (r, s') → R s s'.

(** An overwrite-bound client whose finish has begun. *)
Definition bound (c : client) : Prop :=
  is_Some (overwrite c) ∧ is_Some (run_entry c).


(** With nothing left on the schedule, nothing appears on it. *)
Definition stays_idle (s s' : sys) : Prop :=
  sched (store s) = [] → sched (store s') = [].

(** With nothing left on the schedule, the step touches neither the
    runs collection nor the client. *)
Definition calm (s s' : sys) : Prop :=
  sched (store s) = [] →
  sched (store s') = [] ∧ runs (store s') = runs (store s) ∧ self s' = self s.

Definition keeps_metrics (s s' : sys) : Prop :=
  metrics (store s') = metrics (store s).

(** Every source file of the manifest is in the snapshot directory. *)
Definition all_present (dir : snapshot) (srcs : list (string * string)) : Prop :=
  ∀ n h, (n, h) ∈ srcs → is_Some (dir !! n).

Definition code_present (code_base_dir : option snapshot)
    (srcs : list (string * string)) : Prop :=
  match code_base_dir with
  | Some dir => all_present dir srcs
  | None => True
  end.

(** The operations that write to the runs collection. *)
Definition runs_write (o : op) : bool :=
  match o with
  | RunsInsertOne _ | RunsUpdateOne _ _ => true
  | _ => false
  end.

(** Between the two states the client has issued only operations that
    satisfy P. *)
Definition emits (P : op → Prop) (s s' : sys) : Prop :=
  ∃ l, log (store s') = log (store s) ++ l ∧ Forall P l.

(** Between the two states the client has issued no write to the runs
    collection. *)
Definition no_runs_write : sys → sys → Prop :=
  emits (λ o, runs_write o = false).

(** Between the two states the client has looked no run up by its id. *)
Definition no_lookup : sys → sys → Prop :=
  emits (λ o, ∀ z, o ≠ RunsFindOne z).

(** The hash the manifest lists for a file is the digest the blob store
    records for the bytes of that file in the directory. *)
Definition honest (md5sum : string → string) (dir : snapshot)
    (srcs : list (string * string)) : Prop :=
  ∀ n h c, (n, h) ∈ srcs → dir !! n = Some c → md5sum c = h.

(** The reference under which the blob store answers for (path, hash). *)
Definition blob_ref (p h : string) (blobs : list blob) : option N :=
  b_id <$> List.find (blob_matches p h) blobs.

(** How many blobs the store holds for (path, hash). *)
Definition copies (p h : string) (blobs : list blob) : nat :=
  length (List.filter (blob_matches p h) blobs).

(** The entries of a manifest with the references save_sources returned
    for them: (virtual path, hash, reference). *)
Definition resolved (ex : ex_info) (info : list (string * N))
  : list (string * string * N) :=
  zip_with (λ src ref, (path_join (base_dir ex) (fst src), snd src, snd ref))
           (sources ex) info.

(** The error that reaches the caller of insert when a round trip of its
    loop fails with f in the try block around insert_one. *)
Definition surfaced (f : fault) : error :=
  match f with
  | InvalidDocument => NameError "ObserverError"
  | _ => PyMongo f
  end.

(** z is the largest id of the collection plus one, or one when the
    collection is empty. *)
Definition next_after (seen : gmap Z doc) (z : Z) : Prop :=
  (seen = ∅ ∧ z = 1)
  ∨ (∃ m, is_Some (seen !! m) ∧ (∀ k, is_Some (seen !! k) → k ≤ m) ∧ z = m + 1).

(** No event of the list makes a round trip fail. *)
Definition faultless (evs : list event) : Prop :=
  Forall (λ ev, ∀ f, ev ≠ Fails f) evs.

Definition keeps_self (s s' : sys) : Prop := self s' = self s.

(** The reference of the metric document stored for (run id, name). *)
Definition metric_ref (z : Z) (k : string) (coll : list metric_doc) : option N :=
  m_id <$> List.find (metric_matches z k) coll.

(** Of the given metric names, those for which the collection holds no
    document of the run: the ones an upsert creates. *)
Definition created (z : Z) (coll : list metric_doc) (keys : list string)
  : list string :=
  List.filter (λ k, match metric_ref z k coll with
                    | None => true
                    | Some _ => false
                    end) keys.

(** The registry lists the given names in order, each with the reference
    of its document in the collection. *)
Definition registers (z : Z) (coll : list metric_doc) (names : list string)
    (registry : list value) : Prop :=
  Forall2 (λ k v, ∃ o, metric_ref z k coll = Some o ∧ v = entry_of k o)
          names registry.

(** The info field of the stored run z. *)
Definition stored_info (w : world) (z : Z) : option value :=
  runs w !! z ≫= λ d : doc, d !! "info".

Definition ref_stable (z : Z) (k : string) (o : N) (s s' : sys) : Prop :=
  metric_ref z k (metrics (store s)) = Some o →
  metric_ref z k (metrics (store s')) = Some o.

(** The run z is not lost. *)
Definition keeps_run (z : Z) (s s' : sys) : Prop :=
  is_Some (runs (store s) !! z) → is_Some (runs (store s') !! z).

(** A blob that holds a file of the directory listed by the manifest,
    under the virtual path of its entry and the digest of its bytes. *)
Definition uploaded_from (md5sum : string → string) (base : string)
    (dir : snapshot) (srcs : list (string * string)) (b : blob) : Prop :=
  ∃ n h, (n, h) ∈ srcs
         ∧ dir !! n = Some (b_data b)
         ∧ b_filename b = path_join base n
         ∧ b_md5 b = md5sum (b_data b).

(** The pair returned for a manifest entry keeps the entry's name, and
    its reference is the id of a blob stored under the entry's virtual
    path; the blob carries the listed hash or the bytes of the file in
    the directory. *)
Definition names_blob (base : string) (dir : snapshot) (blobs : list blob)
    (src : string * string) (ref : string * N) : Prop :=
  fst ref = fst src
  ∧ ∃ b, b ∈ blobs
         ∧ b_id b = snd ref
         ∧ b_filename b = path_join base (fst src)
         ∧ (b_md5 b = snd src ∨ dir !! fst src = Some (b_data b)).

(** The run stored under k as d is still stored under k as d. *)
Definition leaves_run (k : Z) (d : doc) (s s' : sys) : Prop :=
  runs (store s) !! k = Some d → runs (store s') !! k = Some d.

(** The operations of an overwrite of the run z: nothing that reads or
    allocates an id, no insert, and no update of another run. *)
Definition overwrites_only (z : Z) (o : op) : Prop :=
  match o with
  | RunsFindOne _ | RunsCountDocuments | RunsFindMax | RunsInsertOne _ => False
  | RunsUpdateOne idv _ => idv = VInt z
  | _ => True
  end.

(** The metric document m' is m with its three arrays extended. *)
Definition extends (m m' : metric_doc) : Prop :=
  m_id m' = m_id m ∧ m_run_id m' = m_run_id m ∧ m_name m' = m_name m
  ∧ (∃ l, m_steps m' = m_steps m ++ l)
  ∧ (∃ l, m_values m' = m_values m ++ l)
  ∧ (∃ l, m_timestamps m' = m_timestamps m ++ l).

(** The blob store has kept its blobs, in place. *)
Definition fs_grows (s s' : sys) : Prop :=
  ∃ added, fs (store s') = fs (store s) ++ added.

(** The metrics collection has kept its documents, in place, each with
    its arrays extended at most. *)
Definition metrics_grow (s s' : sys) : Prop :=
  ∃ kept added,
    metrics (store s') = kept ++ added
    ∧ Forall2 extends (metrics (store s)) kept.

(** The operation is not an update that sets the field info alone. *)
Definition no_registry (o : op) : Prop :=
  ∀ idv v, o ≠ RunsUpdateOne idv {["info" := v]}.

(** The operations on GridFS and on the files of the snapshot
    directory. *)
Definition fs_op (o : op) : bool :=
  match o with
  | FsFindOne _ _ | FsPut _ _ | OpenFile _ => true
  | _ => false
  end.

(** The upserts on the metrics collection. *)
Definition is_upsert (o : op) : bool :=
  match o with
  | MetricsUpdateOne _ _ _ => true
  | _ => false
  end.

(** The upserts of a metrics mapping for the run z, in the order of the
    mapping. *)
Definition upserts (z : Z) (ms : list (string * batch)) : list op :=
  map (λ kb, MetricsUpdateOne z (fst kb) (snd kb)) ms.

(** A client without an overwrite target is left without one. *)
Definition stays_free (s s' : sys) : Prop :=
  overwrite (self s) = None → overwrite (self s') = None.

(** The runs collection once the other writers of the given events have
    moved: each Rival event inserts its run unless the id is taken. *)
Definition rivals (evs : list event) (r : gmap Z doc) : gmap Z doc :=
  foldl (λ r ev, match ev with
                 | Rival z => rival_insert z r
                 | _ => r
                 end) r evs.

(** The runs collection of w after the first n events of its schedule,
    when the client itself has stored nothing in between: what the round
    trip number n of a call (counted from one) reads. *)
Definition seen_after (w : world) (n : nat) : gmap Z doc :=
  rivals (take n (sched w)) (runs w).

(** The round trips by which insert reads the collection. *)
Definition is_read (o : op) : bool :=
  match o with
  | RunsCountDocuments | RunsFindMax => true
  | _ => false
  end.

(** The error that reaches the caller of insert when the round trip o
    fails with f: the failure itself, except that an InvalidDocument of
    insert_one runs into the undefined name ObserverError. *)
Definition reaches_caller (o : op) (f : fault) : error :=
  match o, f with
  | RunsInsertOne _, InvalidDocument => NameError "ObserverError"
  | _, _ => PyMongo f
  end.

(** What a call of insert that allocates an id has done when it ends
    with the result r in the state s', having started on the store w0
    with the entry e and issued the round trips ops. *)
Definition allocation (w0 : world) (e : doc) (ops : list op) (r : res unit)
    (s' : sys) : Prop :=
  log (store s') = log w0 ++ ops
  ∧ sched (store s') = drop (length ops) (sched w0)
  ∧ (∀ i d, ops !! i = Some (RunsInsertOne d) →
       ∃ c j o,
         d = <["_id" := VInt c]> e
         ∧ next_after (seen_after w0 i) c
         ∧ i = S j ∧ ops !! j = Some o ∧ is_read o = true)
  ∧ (∀ i d, ops !! i = Some (RunsInsertOne d) → (S i < length ops)%nat →
       ∃ c, sched w0 !! i = Some (Rival c) ∧ d = <["_id" := VInt c]> e)
  ∧ match r with
    | Ok _ =>
        faultless (take (length ops) (sched w0))
        ∧ ∃ z earlier,
            ops = earlier ++ [RunsInsertOne (<["_id" := VInt z]> e)]
            ∧ seen_after w0 (length ops) !! z = None
            ∧ runs (store s')
              = <[z := delete "_id" e]> (seen_after w0 (length ops))
            ∧ run_entry (self s') = Some (<["_id" := VInt z]> e)
    | Raise err =>
        ∃ n f o,
          length ops = S n
          ∧ ops !! n = Some o
          ∧ sched w0 !! n = Some (Fails f)
          ∧ faultless (take n (sched w0))
          ∧ runs (store s') = seen_after w0 n
          ∧ err = reaches_caller o f
    end.

(** The three sequences of a batch have one length. *)
Definition aligned (b : batch) : Prop :=
  length (steps b) = length (values b)
  ∧ length (values b) = length (timestamps b).

(** The batch b has been merged under (run id, metric name): the
    collection after holds there the document the collection before held
    there, with the elements of the batch appended in order to its three
    arrays, or a document of the batch alone when it held none. *)
Definition merged (z : Z) (key : string) (b : batch)
    (before after : list metric_doc) : Prop :=
  ∃ m',
    List.find (metric_matches z key) after = Some m'
    ∧ match List.find (metric_matches z key) before with
      | Some m =>
          m_id m' = m_id m
          ∧ m_steps m' = m_steps m ++ steps b
          ∧ m_values m' = m_values m ++ values b
          ∧ m_timestamps m' = m_timestamps m ++ timestamps b
      | None =>
          m_steps m' = steps b
          ∧ m_values m' = values b
          ∧ m_timestamps m' = timestamps b
      end.

(** Between the two states the metrics collection is left as it was and
    no upsert is issued. *)
Definition before_metrics (s s' : sys) : Prop :=
  keeps_metrics s s' ∧ emits (λ o, is_upsert o = false) s s'.

(* --------------------------------------------------------------------- *)
(* Sample library functions, records and stores                          *)
(* --------------------------------------------------------------------- *)

Definition ascii_digit (c : ascii) : bool :=
  (48 <=? nat_of_ascii c)%nat && (nat_of_ascii c <=? 57)%nat.

Definition sample_strptime (t : string) : option Z :=
  if String.eqb t "" then None else Some (Z.of_nat (String.length t)).

Definition sample_md5 (data : string) : string := "md5:" +:+ data.

Definition sample_run : run_record :=
  RunRecord
    (ExInfo "/home/u/exp"
            [("main.py", "md5:print(1)"); ("util.py", "md5:pass")]
            [("name", VStr "exp")])
    (VStr "main") (VDict [("hostname", VStr "box")])
    "2020-01-01T00:00:00.000000" "2020-01-01T00:10:00.000000"
    "2020-01-01T00:09:59.000000"
    (VDict []) (VStr "COMPLETED") VNone.

Definition sample_dir : snapshot :=
  {["main.py" := "print(1)"; "util.py" := "pass"]}.

(** The directory without util.py. *)
Definition partial_dir : snapshot := {["main.py" := "print(1)"]}.

Definition sample_config : value := VDict [("lr", VFloat "0.1")].

(** The captured output of the example of the specification. *)
Definition sample_cout : string :=
  "Started run with ID " +:+ String dquote "999" +:+ String dquote
    (String "010"%char "Started run with ID ") +:+ String dquote "999"
    +:+ String dquote " again".

Definition loss_batch : batch :=
  Batch [VInt 0; VInt 1] [VFloat "0.10"; VFloat "0.20"] [VStr "t0"; VStr "t1"].

Definition loss_batch_2 : batch :=
  Batch [VInt 2] [VFloat "0.30"] [VStr "t2"].

Definition empty_world : world := World ∅ [] [] 0 [] [].

Definition fresh_client : client := Client None None 30 None.

(** A store with run 1, its metric loss and the registry entry of it. *)
Definition stored_world : world :=
  World {[1 := {["status" := VStr "RUNNING";
                 "info" := info_value [entry_of "loss" 5]]}]}
        [MetricDoc 5 1 "loss" (steps loss_batch) (values loss_batch)
                   (timestamps loss_batch)]
        [] 6 [] [].

(** The client initialize builds for the overwrite target 1. *)
Definition overwrite_client : client :=
  Client (Some (<["_id" := VInt 1]>
                  {["status" := VStr "RUNNING";
                    "info" := info_value [entry_of "loss" 5]]}))
         None 30 None.

(** Runs 1 and 2 are stored, and another writer takes id 3 between the
    read of the maximum and the insert. *)
Definition raced_world : world :=
  World {[1 := ∅; 2 := ∅]} [] [] 0 [Quiet; Quiet; Rival 3] [].

Definition waiting_entry : doc := {["_id" := VNone; "status" := VStr "COMPLETED"]}.

Definition waiting_client : client := Client None (Some waiting_entry) 30 None.

(** A store whose next round trip rejects the document as unencodable. *)
Definition rejecting_world : world :=
  World ∅ [] [] 0 [Fails InvalidDocument] [].

(** A library call that takes every argument. *)
Definition accepts {A} (_ : A) : option error := None.

(** The run record with an empty stop_time. *)
Definition undated_run : run_record :=
  RunRecord (experiment sample_run) (command sample_run) (host sample_run)
            (start_time sample_run) "" (heartbeat sample_run)
            (meta sample_run) (status sample_run) (result sample_run).

(** An empty store that answers the first round trip and loses the
    connection at the second. *)
Definition dropping_world : world :=
  World ∅ [] [] 0 [Quiet; Fails AutoReconnect] [].

(** An empty store where another writer takes id 7 at the first round
    trip. *)
Definition contended_world : world := World ∅ [] [] 0 [Rival 7] [].

(** An entry that carries the id 7. *)
Definition numbered_entry : doc :=
  {["_id" := VInt 7; "status" := VStr "COMPLETED"]}.

Definition numbered_client : client := Client None (Some numbered_entry) 30 None.

(** Three directories: a complete one, one without the subdirectory
    source, and one without run.json. *)
Definition sample_storage : storage :=
  Storage (Some sample_dir) (Some sample_cout) (Some sample_config)
          (Some [("loss", loss_batch)]) (Some sample_run).

Definition bare_storage : storage :=
  Storage None (Some sample_cout) (Some sample_config) (Some [])
          (Some sample_run).

Definition partial_storage : storage :=
  Storage (Some sample_dir) (Some sample_cout) (Some sample_config)
          (Some []) None.

Definition sample_disk : gmap string storage :=
  {["out/1" := sample_storage; "out/2" := bare_storage;
    "out/3" := partial_storage]}.

Definition sample_options (src_dir : string) (_id : option Z) : options :=
  Options "localhost" 27017 "sacred" src_dir _id.

(** Runs 1 and 2 are stored; another writer takes id 3 between the read
    of the maximum and the insert, and yet another stores run 10 while
    the client counts again. *)
Definition twice_raced_world : world :=
  World {[1 := ∅; 2 := ∅]} [] [] 0 [Quiet; Quiet; Rival 3; Rival 10] [].

(** Runs 1 and 2 are stored, and the store rejects the document of the
    insert as unencodable. *)
Definition unencodable_world : world :=
  World {[1 := ∅; 2 := ∅]} [] [] 0 [Quiet; Quiet; Fails InvalidDocument] [].

(** The components of a path between its separators. *)
Fixpoint components (p : string) : list string :=
  match p with
  | EmptyString => [EmptyString]
  | String c p' =>
      if Ascii.eqb c "/" then EmptyString :: components p'
      else match components p' with
           | x :: xs => String c x :: xs
           | [] => [String c EmptyString]
           end
  end.

Fixpoint leading_seps (p : string) : nat :=
  match p with
  | String c p' => if Ascii.eqb c "/" then S (leading_seps p') else O
  | EmptyString => O
  end.

Fixpoint join_sep (parts : list string) : string :=
  match parts with
  | [] => ""
  | [x] => x
  | x :: rest => x +:+ "/" +:+ join_sep rest
  end.

(** str(Path(p)) on a POSIX host: the root, then the components that are
    neither empty nor a dot, joined by one separator each; a dot when
    nothing is left. *)
Definition posix_path (p : string) : string :=
  let root := match leading_seps p with
              | O => ""
              | 2%nat => "//"
              | _ => "/"
              end in
  let parts := List.filter (λ x, negb (String.eqb x "" || String.eqb x "."))
                           (components p) in
  match root +:+ join_sep parts with
  | EmptyString => "."
  | q => q
  end.

(* ===================================================================== *)
(* Properties                                                            *)
(* ===================================================================== *)

(* --------------------------------------------------------------------- *)
(* Dicts and round trips                                                 *)
(* --------------------------------------------------------------------- *)

Lemma dict_truthy_empty : dict_truthy ∅ = false.
Proof. unfold dict_truthy. by rewrite map_to_list_empty. Qed.

Lemma dict_truthy_lookup (d : doc) (k : string) (v : value) :
  d !! k = Some v → dict_truthy d = true.
Proof.
  intros Hk. unfold dict_truthy.
  destruct (map_to_list d) eqn:E; [|done].
  apply map_to_list_empty_iff in E. subst d.
  by rewrite lookup_empty in Hk.
Qed.

Lemma tick_log (o : op) (w : world) :
  log (snd (tick o w)) = log w ++ [o].
Proof. unfold tick, record_op. simpl. by destruct (sched w) as [|[]]. Qed.

Lemma tick_metrics (o : op) (w : world) :
  metrics (snd (tick o w)) = metrics w ∧ next_oid (snd (tick o w)) = next_oid w
  ∧ fs (snd (tick o w)) = fs w.
Proof. unfold tick, record_op. simpl. by destruct (sched w) as [|[]]. Qed.


Lemma tick_answers (o : op) (w : world) :
  answers w → fst (tick o w) = None.
Proof.
  unfold answers, tick, record_op. simpl. destruct (sched w) as [|[]]; try done.
  intros H. by destruct (H f).
Qed.

Lemma tick_idle (o : op) (w : world) :
  sched w = [] → tick o w = (None, record_op o w).
Proof. unfold tick. simpl. by intros ->. Qed.

(* --------------------------------------------------------------------- *)
(* Running the monad                                                     *)
(* --------------------------------------------------------------------- *)

(** Reduce the projections of states, and nothing inside documents. *)
Tactic Notation "simpl_state" :=
  cbn [self store runs sched metrics fs next_oid log overwrite run_entry
       priority failure_dir set_runs set_fs set_metrics record_op
       fmap option_fmap option_map fst snd].
Tactic Notation "simpl_state" "in" hyp(H) :=
  cbn [self store runs sched metrics fs next_oid log overwrite run_entry
       priority failure_dir set_runs set_fs set_metrics record_op
       fmap option_fmap option_map fst snd] in H.

Lemma bind_ok {A B} (m : M A) (k : A → M B) (s s' : sys) (a : A) :
  m s = (Ok a, s') → bind m k s = k a s'.
Proof. unfold bind. by intros ->. Qed.

Lemma bind_raise {A B} (m : M A) (k : A → M B) (s s' : sys) (e : error) :
  m s = (Raise e, s') → bind m k s = (Raise e, s').
Proof. unfold bind. by intros ->. Qed.

Lemma entry_ok (s : sys) (e : doc) :
  run_entry (self s) = Some e → entry s = (Ok e, s).
Proof. unfold entry, bind, get_self. by intros ->. Qed.

Lemma entry_id_ok (s : sys) (e : doc) (z : Z) :
  run_entry (self s) = Some e → e !! "_id" = Some (VInt z) →
  entry_id s = (Ok z, s).
Proof.
  intros He Hid. unfold entry_id.
  rewrite (bind_ok _ _ _ _ _ (entry_ok s e He)). by rewrite Hid.
Qed.

(* --------------------------------------------------------------------- *)
(* save                                                                  *)
(* --------------------------------------------------------------------- *)

Lemma save_unfold (nd e : doc) (idv : value) (s : sys) :
  run_entry (self s) = Some e → e !! "_id" = Some idv →
  save nd s =
    match runs_update_one idv (if dict_truthy nd then nd else e) (store s) with
    | (Ok _, w) => (Ok tt, Sys (self s) w)
    | (Raise (PyMongo AutoReconnect), w) => (Ok tt, Sys (self s) w)
    | (Raise (PyMongo InvalidDocument), w) =>
        (Raise (NameError "ObserverError"), Sys (self s) w)
    | (Raise err, w) => (Raise err, Sys (self s) w)
    end.
Proof.
  intros He Hid. unfold save.
  rewrite (bind_ok _ _ _ _ _ (entry_ok s e He)), Hid.
  unfold bind, try, on_store.
  destruct (runs_update_one _ _ _) as [[u|err] w]; [done|].
  destruct err as [[]| | | | | | | | | |]; done.
Qed.

Lemma runs_update_one_log (idv : value) (set : doc) (w : world) :
  log (snd (runs_update_one idv set w)) = log w ++ [RunsUpdateOne idv set].
Proof.
  unfold runs_update_one.
  pose proof (tick_log (RunsUpdateOne idv set) w) as Hl.
  destruct (tick _ w) as [[f|] w1]; simpl in *; [done|].
  destruct idv; try done.
  destruct (runs w1 !! z); [|done].
  by destruct (changes_id z set).
Qed.

Lemma save_log (nd e : doc) (idv : value) (s : sys) :
  run_entry (self s) = Some e → e !! "_id" = Some idv →
  log (store (snd (save nd s))) =
    log (store s) ++ [RunsUpdateOne idv (if dict_truthy nd then nd else e)].
Proof.
  intros He Hid. rewrite (save_unfold nd e idv s He Hid).
  pose proof (runs_update_one_log idv (if dict_truthy nd then nd else e) (store s)) as Hl.
  destruct (runs_update_one _ _ _) as [[u|err] w]; [done|].
  destruct err as [[]| | | | | | | | | |]; done.
Qed.

(** C10. save() with the empty mapping of its default argument issues the
    very update of a save of the whole run_entry: the $set carries the
    entire document.  A mapping with at least one key issues a $set of
    that mapping alone, and when it is applied the stored run takes the
    named fields from the mapping and keeps every other field. *)
Theorem C10_save_empty_mapping_sets_whole_entry
    (s : sys) (e : doc) (idv : value) :
  run_entry (self s) = Some e →
  e !! "_id" = Some idv →
  save ∅ s = save e s
  ∧ log (store (snd (save ∅ s))) = log (store s) ++ [RunsUpdateOne idv e]
  ∧ (∀ nd : doc, dict_truthy nd = true →
       log (store (snd (save nd s))) = log (store s) ++ [RunsUpdateOne idv nd])
  ∧ (∀ (nd old : doc) (z : Z),
       dict_truthy nd = true → idv = VInt z → sched (store s) = [] →
       runs (store s) !! z = Some old → changes_id z nd = false →
       ∃ new : doc,
         fst (save nd s) = Ok tt
         ∧ runs (store (snd (save nd s))) !! z = Some new
         ∧ ∀ k, k ≠ "_id" →
             new !! k = match nd !! k with
                        | Some v => Some v
                        | None => old !! k
                        end).
Proof.
  intros He Hid.
  pose proof (dict_truthy_lookup e "_id" idv Hid) as Hte.
  repeat split.
  - rewrite (save_unfold ∅ e idv s He Hid), (save_unfold e e idv s He Hid).
    by rewrite dict_truthy_empty, Hte.
  - rewrite (save_log ∅ e idv s He Hid). by rewrite dict_truthy_empty.
  - intros nd Hnd. rewrite (save_log nd e idv s He Hid). by rewrite Hnd.
  - intros nd old z Hnd -> Hq Hold Hch.
    rewrite (save_unfold nd e (VInt z) s He Hid). rewrite Hnd.
    unfold runs_update_one. rewrite (tick_idle _ _ Hq). simpl.
    rewrite Hold, Hch. simpl.
    exists (delete "_id" nd ∪ old). split; [done|].
    split; [by rewrite lookup_insert_eq|].
    intros k Hk. rewrite lookup_union, lookup_delete_ne by done.
    destruct (nd !! k), (old !! k); done.
Qed.

(* --------------------------------------------------------------------- *)
(* initialize                                                            *)
(* --------------------------------------------------------------------- *)

Lemma runs_find_one_answers (z : Z) (w : world) :
  answers w →
  runs_find_one z w =
    (Ok (<["_id" := VInt z]> <$> runs (snd (tick (RunsFindOne z) w)) !! z),
     snd (tick (RunsFindOne z) w)).
Proof.
  intros Ha. unfold runs_find_one.
  pose proof (tick_answers (RunsFindOne z) w Ha) as Hf.
  destruct (tick _ w) as [f w1]. simpl in *. by subst f.
Qed.

Lemma tick_runs_absent (o : op) (z : Z) (w : world) :
  runs w !! z = None → head (sched w) ≠ Some (Rival z) →
  runs (snd (tick o w)) !! z = None.
Proof.
  intros Hz Hr. unfold tick, record_op. simpl.
  destruct (sched w) as [|[| z' |f] l]; simpl; try done.
  unfold rival_insert. destruct (runs w !! z') eqn:E; [done|].
  rewrite lookup_insert_ne; [done|]. intros ->. by apply Hr.
Qed.

Lemma initialize_found (z prio : Z) (fdir : option string) (w w' : world)
    (c : client) :
  initialize (Some z) prio fdir w = (Ok c, w') →
  ∃ d, runs w' !! z = Some d
       ∧ overwrite c = Some (<["_id" := VInt z]> d)
       ∧ run_entry c = None.
Proof.
  unfold initialize, runs_find_one.
  destruct (tick _ w) as [[f|] w1]; [done|].
  destruct (runs w1 !! z) as [d|] eqn:E; simpl; [|done].
  intros [= <- <-]. by exists d.
Qed.

(* --------------------------------------------------------------------- *)
(* The metrics collection                                                *)
(* --------------------------------------------------------------------- *)

Lemma push_first_found (run_id : Z) (name : string) (b : batch)
    (ms : list metric_doc) (m : metric_doc) :
  List.find (metric_matches run_id name) ms = Some m →
  ∃ ms', push_first run_id name b ms = Some ms'
         ∧ List.find (metric_matches run_id name) ms' = Some (push_each b m)
         ∧ (balanced (push_each b m) → Forall balanced ms → Forall balanced ms').
Proof.
  induction ms as [|x ms IH]; simpl; [done|].
  destruct (metric_matches run_id name x) eqn:E.
  - intros [= ->]. eexists. split; [done|]. split.
    + simpl. unfold metric_matches in *. simpl. by rewrite E.
    + intros Hb Hall. inversion Hall; subst. by constructor.
  - intros Hm. destruct (IH Hm) as (ms' & -> & Hf & Hb).
    eexists. split; [done|]. split.
    + simpl. by rewrite E.
    + intros Hpb Hall. inversion Hall; subst. constructor; auto.
Qed.

Lemma push_first_absent (run_id : Z) (name : string) (b : batch)
    (ms : list metric_doc) :
  List.find (metric_matches run_id name) ms = None →
  push_first run_id name b ms = None.
Proof.
  induction ms as [|x ms IH]; simpl; [done|].
  destruct (metric_matches run_id name x); [done|].
  intros Hm. by rewrite (IH Hm).
Qed.

Lemma find_app_absent {A} (P : A → bool) (l : list A) (x : A) :
  List.find P l = None → P x = true → List.find P (l ++ [x]) = Some x.
Proof.
  induction l as [|y l IH]; simpl.
  - by intros _ ->.
  - destruct (P y); [done|]. auto.
Qed.

Lemma find_app_found {A} (P : A → bool) (l l' : list A) (x : A) :
  List.find P l = Some x → List.find P (l ++ l') = Some x.
Proof.
  induction l as [|y l IH]; simpl; [done|].
  destruct (P y); [done|]. auto.
Qed.

Lemma metric_matches_refl (run_id : Z) (name : string) (o : N)
    (a b c : list value) :
  metric_matches run_id name (MetricDoc o run_id name a b c) = true.
Proof.
  unfold metric_matches. simpl. by rewrite Z.eqb_refl, String.eqb_refl.
Qed.

(* --------------------------------------------------------------------- *)
(* The marker of the captured output                                     *)
(* --------------------------------------------------------------------- *)

Lemma append_cons (x : ascii) (a b : string) :
  String x a +:+ b = String x (a +:+ b).
Proof. reflexivity. Qed.






Section Marker.

Variable re_digit : ascii → bool.






End Marker.

(* --------------------------------------------------------------------- *)
(* Relations every step of a method respects                             *)
(* --------------------------------------------------------------------- *)

Lemma bind_inv {A B} (m : M A) (k : A → M B) (s s' : sys) (r : res B) :
  bind m k s = (r, s') →
  (∃ a s1, m s = (Ok a, s1) ∧ k a s1 = (r, s'))
  ∨ (∃ e, m s = (Raise e, s') ∧ r = Raise e).
Proof.
  unfold bind. destruct (m s) as [[a|e] s1]; intros H.
  - left. by exists a, s1.
  - right. exists e. by injection H as <- <-.
Qed.

Lemma bind_inv_ok {A B} (m : M A) (k : A → M B) (s s' : sys) (b : B) :
  bind m k s = (Ok b, s') →
  ∃ a s1, m s = (Ok a, s1) ∧ k a s1 = (Ok b, s').
Proof.
  intros [H|(e & _ & H)]%bind_inv; [done|discriminate].
Qed.

Section Respects.

Variable R : sys → sys → Prop.
Hypothesis R_refl : ∀ s, R s s.
Hypothesis R_trans : ∀ s1 s2 s3, R s1 s2 → R s2 s3 → R s1 s3.

Lemma respects_ret {A} (a : A) : respects R (ret a).
Proof. intros s r s' [= <- <-]. apply R_refl. Qed.

Lemma respects_raise {A} (e : error) : respects R (@raise A e).
Proof. intros s r s' [= <- <-]. apply R_refl. Qed.

Lemma respects_get_self : respects R get_self.
Proof. intros s r s' [= <- <-]. apply R_refl. Qed.

Lemma respects_bind {A B} (m : M A) (k : A → M B) :
  respects R m → (∀ a, respects R (k a)) → respects R (bind m k).
Proof.
  intros Hm Hk s r s' [(a & s1 & H1 & H2)|(e & H1 & _)]%bind_inv.
  - eapply R_trans; [by eapply Hm|by eapply Hk].
  - by eapply Hm.
Qed.

Lemma respects_try {A} (m : M A) : respects R m → respects R (try m).
Proof.
  intros Hm s r s'. unfold try.
  destruct (m s) as [r1 s1] eqn:E. intros [= <- <-]. by eapply Hm.
Qed.

Hypothesis R_mutate : ∀ f, respects R (mutate_entry f).
Hypothesis R_count : respects R (on_store runs_count_documents).
Hypothesis R_find_max : respects R (on_store runs_find_max).
Hypothesis R_insert_one : ∀ d, respects R (on_store (runs_insert_one d)).
Hypothesis R_update_one : ∀ idv set, respects R (on_store (runs_update_one idv set)).
Hypothesis R_metrics :
  ∀ z name b, respects R (on_store (metrics_update_one z name b)).
Hypothesis R_fs_find : ∀ p h, respects R (on_store (fs_find_one p h)).
Hypothesis R_open : ∀ dir n, respects R (on_store (open_rb dir n)).

Lemma respects_entry : respects R entry.
Proof.
  apply respects_bind; [apply respects_get_self|].
  intros c. destruct (run_entry c); [apply respects_ret|apply respects_raise].
Qed.

Lemma respects_entry_id : respects R entry_id.
Proof.
  apply respects_bind; [apply respects_entry|].
  intros e. destruct (e !! "_id") as [[]|];
    first [apply respects_ret|apply respects_raise].
Qed.

Lemma respects_save (nd : doc) : respects R (save nd).
Proof.
  apply respects_bind; [apply respects_entry|].
  intros e. destruct (e !! "_id") as [idv|]; [|apply respects_raise].
  apply respects_bind; [apply respects_try, R_update_one|].
  intros [u|[[]| | | | | | | | | |]];
    first [apply respects_ret|apply respects_raise].
Qed.

Lemma respects_insert_loop (fuel : nat) (autoinc_key : bool) :
  respects R (insert_loop fuel autoinc_key).
Proof.
  induction fuel as [|fuel IH]; simpl; [apply respects_raise|].
  apply respects_bind.
  - destruct autoinc_key; [|apply respects_ret].
    apply respects_bind; [apply R_count|]. intros n.
    apply respects_bind; [|intros cand; apply R_mutate].
    destruct (n =? 0); [apply respects_ret|].
    apply respects_bind; [apply R_find_max|]. intros m. apply respects_ret.
  - intros _. apply respects_bind; [apply respects_entry|]. intros e.
    apply respects_bind; [apply respects_try, R_insert_one|].
    intros [u|[[]| | | | | | | | | |]];
      try first [apply respects_ret|apply respects_raise].
    destruct autoinc_key; [apply IH|apply respects_raise].
Qed.

Lemma respects_insert : respects R insert.
Proof.
  apply respects_bind; [apply respects_get_self|]. intros c.
  destruct (match overwrite c with Some d => dict_truthy d | None => false end).
  - apply respects_save.
  - apply respects_bind; [apply respects_entry|]. intros e s r s' H.
    by eapply respects_insert_loop.
Qed.

Lemma respects_log_metrics (z : Z) (ms : list (string * batch))
    (registry : list value) :
  respects R (log_metrics z ms registry).
Proof.
  revert registry. induction ms as [|[key b] ms IH]; intros registry; simpl.
  - apply respects_ret.
  - apply respects_bind; [apply R_metrics|]. intros up. apply IH.
Qed.

Section WithLibrary.

Variable strptime : string → option Z.
Variable md5sum : string → string.
Variable re_digit : ascii → bool.

Hypothesis R_fs_put : ∀ p data, respects R (on_store (fs_put md5sum p data)).

Lemma respects_strptime (t : string) : respects R (py_strptime strptime t).
Proof.
  unfold py_strptime.
  destruct (strptime t); [apply respects_ret|apply respects_raise].
Qed.

Lemma respects_save_sources_loop (base : string) (dir : snapshot)
    (srcs : list (string * string)) (acc : list (string * N)) :
  respects R (save_sources_loop md5sum base dir srcs acc).
Proof.
  revert acc. induction srcs as [|[n h] srcs IH]; intros acc; simpl.
  - apply respects_ret.
  - apply respects_bind; [apply R_fs_find|]. intros file.
    apply respects_bind; [|intros o; apply IH].
    destruct file; [apply respects_ret|].
    apply respects_bind; [apply R_open|]. intros data. apply R_fs_put.
Qed.

Lemma respects_running_info_saving (run : run_record) (config : value)
    (code_base_dir : option snapshot) :
  respects R (running_info_saving strptime md5sum run config code_base_dir).
Proof.
  unfold running_info_saving.
  do 3 (apply respects_bind; [apply respects_strptime|intros ?]).
  apply respects_bind; [apply R_mutate|intros _].
  destruct code_base_dir; [|apply R_mutate].
  apply respects_bind; [apply respects_save_sources_loop|].
  intros info. apply R_mutate.
Qed.

Lemma respects_insert_captured_output (cout : string) :
  respects R (insert_captured_output re_digit cout).
Proof.
  apply respects_bind; [apply respects_entry_id|]. intros z.
  apply respects_bind; [apply respects_save|]. intros _. apply respects_ret.
Qed.

Lemma respects_insert_metrics (z : Z) (metrics : option (list (string * batch))) :
  respects R (insert_metrics z metrics).
Proof.
  destruct metrics as [[|m ms]|]; try apply respects_ret.
  apply respects_bind; [apply respects_log_metrics|].
  intros reg. apply respects_save.
Qed.

(** finished_event once run_entry is bound. *)
Lemma respects_after_binding (run : run_record) (cout : string)
    (config : value) (metrics : option (list (string * batch)))
    (code_base_dir : option snapshot) :
  respects R
    (running_info_saving strptime md5sum run config code_base_dir;;
     insert;;
     _id <- insert_captured_output re_digit cout;;
     insert_metrics _id metrics;;
     ret _id).
Proof.
  apply respects_bind; [apply respects_running_info_saving|intros _].
  apply respects_bind; [apply respects_insert|intros _].
  apply respects_bind; [apply respects_insert_captured_output|intros z].
  apply respects_bind; [apply respects_insert_metrics|intros _].
  apply respects_ret.
Qed.

End WithLibrary.

End Respects.

(* --------------------------------------------------------------------- *)
(* Steps on an idle schedule                                             *)
(* --------------------------------------------------------------------- *)

Lemma on_store_run {A} (f : world → res A * world) (s : sys) :
  on_store f s = (fst (f (store s)), Sys (self s) (snd (f (store s)))).
Proof. unfold on_store. by destruct (f (store s)). Qed.

Lemma respects_on_store_world (R : sys → sys → Prop) {A}
    (f : world → res A * world) :
  (∀ s, R s (Sys (self s) (snd (f (store s))))) → respects R (on_store f).
Proof. intros H s r s'. rewrite on_store_run. intros [= _ <-]. apply H. Qed.


Lemma changes_id_without (z : Z) (nd : doc) :
  nd !! "_id" = None → changes_id z nd = false.
Proof. unfold changes_id. by intros ->. Qed.

Lemma save_idle (nd e old : doc) (z : Z) (s : sys) :
  sched (store s) = [] →
  run_entry (self s) = Some e →
  e !! "_id" = Some (VInt z) →
  runs (store s) !! z = Some old →
  changes_id z (if dict_truthy nd then nd else e) = false →
  save nd s =
    (Ok tt,
     Sys (self s)
         (set_runs
            (<[z := delete "_id" (if dict_truthy nd then nd else e) ∪ old]>
               (runs (store s)))
            (record_op (RunsUpdateOne (VInt z) (if dict_truthy nd then nd else e))
                       (store s)))).
Proof.
  intros Hq He Hid Hold Hch. rewrite (save_unfold nd e (VInt z) s He Hid).
  unfold runs_update_one. rewrite (tick_idle _ _ Hq). simpl.
  by rewrite Hold, Hch.
Qed.

Lemma save_idle_missing (nd e : doc) (z : Z) (s : sys) :
  sched (store s) = [] →
  run_entry (self s) = Some e →
  e !! "_id" = Some (VInt z) →
  runs (store s) !! z = None →
  save nd s =
    (Ok tt,
     Sys (self s)
         (record_op (RunsUpdateOne (VInt z) (if dict_truthy nd then nd else e))
                    (store s))).
Proof.
  intros Hq He Hid Hold. rewrite (save_unfold nd e (VInt z) s He Hid).
  unfold runs_update_one. rewrite (tick_idle _ _ Hq). simpl.
  by rewrite Hold.
Qed.

Lemma calm_refl (s : sys) : calm s s.
Proof. by intros H. Qed.

Lemma calm_trans (s1 s2 s3 : sys) : calm s1 s2 → calm s2 s3 → calm s1 s3.
Proof.
  intros H12 H23 Hq. destruct (H12 Hq) as (Hq2 & Hr2 & Hs2).
  destruct (H23 Hq2) as (Hq3 & Hr3 & Hs3).
  repeat split; congruence.
Qed.

Lemma calm_fs_find (p h : string) : respects calm (on_store (fs_find_one p h)).
Proof.
  apply respects_on_store_world. intros s Hq. unfold fs_find_one.
  by rewrite (tick_idle _ _ Hq).
Qed.

Lemma calm_open (dir : snapshot) (n : string) :
  respects calm (on_store (open_rb dir n)).
Proof.
  apply respects_on_store_world. intros s Hq. unfold open_rb.
  by destruct (dir !! n).
Qed.

Lemma calm_fs_put (md5sum : string → string) (p data : string) :
  respects calm (on_store (fs_put md5sum p data)).
Proof.
  apply respects_on_store_world. intros s Hq. unfold fs_put.
  by rewrite (tick_idle _ _ Hq).
Qed.

Lemma calm_metrics (z : Z) (name : string) (b : batch) :
  respects calm (on_store (metrics_update_one z name b)).
Proof.
  apply respects_on_store_world. intros s Hq. unfold metrics_update_one.
  rewrite (tick_idle _ _ Hq). simpl.
  by destruct (push_first z name b (metrics (store s))).
Qed.

Lemma calm_save_sources_loop (md5sum : string → string) (base : string)
    (dir : snapshot) (srcs : list (string * string)) (acc : list (string * N)) :
  respects calm (save_sources_loop md5sum base dir srcs acc).
Proof.
  apply respects_save_sources_loop;
    first [exact calm_refl | exact calm_trans | exact calm_fs_find
          | exact calm_open | exact (calm_fs_put md5sum)].
Qed.

Lemma calm_log_metrics (z : Z) (ms : list (string * batch)) (reg : list value) :
  respects calm (log_metrics z ms reg).
Proof.
  apply respects_log_metrics;
    first [exact calm_refl | exact calm_trans | exact calm_metrics].
Qed.

Lemma on_store_ok {A} (f : world → res A * world) (s : sys) (a : A) (w : world) :
  f (store s) = (Ok a, w) → on_store f s = (Ok a, Sys (self s) w).
Proof. rewrite on_store_run. by intros ->. Qed.

Lemma fs_find_one_idle (p h : string) (w : world) :
  sched w = [] →
  fs_find_one p h w
    = (Ok (List.find (blob_matches p h) (fs w)), record_op (FsFindOne p h) w).
Proof. intros Hq. unfold fs_find_one. by rewrite (tick_idle _ _ Hq). Qed.

Lemma fs_put_idle (md5sum : string → string) (p data : string) (w : world) :
  sched w = [] →
  fs_put md5sum p data w
    = (Ok (next_oid w),
       set_fs (fs w ++ [Blob (next_oid w) p (md5sum data) data])
              (N.succ (next_oid w)) (record_op (FsPut p data) w)).
Proof. intros Hq. unfold fs_put. by rewrite (tick_idle _ _ Hq). Qed.

(** On an idle schedule save_sources succeeds when no file is missing. *)
Lemma save_sources_loop_idle (md5sum : string → string) (base : string)
    (dir : snapshot) (srcs : list (string * string)) (acc : list (string * N))
    (s : sys) :
  sched (store s) = [] → all_present dir srcs →
  ∃ info s', save_sources_loop md5sum base dir srcs acc s = (Ok info, s').
Proof.
  revert acc s. induction srcs as [|[n h] srcs IH]; intros acc s Hq Hall; simpl.
  - by eexists _, _.
  - assert (all_present dir srcs) as Hall'.
    { intros n' h' Hin. apply (Hall n' h'). by right. }
    destruct (Hall n h ltac:(left)) as [data Hdata].
    pose proof (on_store_ok _ s _ _
                  (fs_find_one_idle (path_join base n) h (store s) Hq)) as E1.
    rewrite (bind_ok _ _ _ _ _ E1).
    set (s1 := Sys (self s) (record_op (FsFindOne (path_join base n) h) (store s))).
    destruct (List.find _ _) as [f|].
    + rewrite (bind_ok (ret (b_id f)) _ s1 s1 (b_id f) eq_refl). by apply IH.
    + assert (on_store (open_rb dir n) s1
              = (Ok data, Sys (self s1) (record_op (OpenFile n) (store s1)))) as E2.
      { apply on_store_ok. unfold open_rb. by rewrite Hdata. }
      pose proof (on_store_ok (fs_put md5sum (path_join base n) data)
                    (Sys (self s1) (record_op (OpenFile n) (store s1)))
                    _ _ (fs_put_idle md5sum (path_join base n) data
                           (record_op (OpenFile n) (store s1)) Hq)) as E3.
      erewrite (bind_ok (bind _ _)); [|by rewrite (bind_ok _ _ _ _ _ E2)].
      by apply IH.
Qed.

(** On an idle schedule the loop over the metrics always returns. *)
Lemma log_metrics_idle (z : Z) (ms : list (string * batch)) (reg : list value)
    (s : sys) :
  sched (store s) = [] →
  ∃ reg' s', log_metrics z ms reg s = (Ok reg', s').
Proof.
  revert reg s. induction ms as [|[k b] ms IH]; intros reg s Hq; simpl.
  - by eexists _, _.
  - unfold bind. rewrite on_store_run. unfold metrics_update_one.
    rewrite (tick_idle _ _ Hq). simpl.
    destruct (push_first _ _ _ _); simpl; by apply IH.
Qed.

Lemma running_info_no_id (run : run_record) (config : value) (a b h : Z) :
  running_info run config a b h !! "_id" = None.
Proof. reflexivity. Qed.


(* --------------------------------------------------------------------- *)
(* The overwrite path                                                    *)
(* --------------------------------------------------------------------- *)





Section Overwrite.

Variable strptime : string → option Z.
Variable md5sum : string → string.
Variable re_digit : ascii → bool.



End Overwrite.

Section FirstFinish.

Variable strptime : string → option Z.
Variable md5sum : string → string.
Variable re_digit : ascii → bool.

Lemma running_info_saving_idle (run : run_record) (config : value)
    (dir : option snapshot) (s : sys) (a b h : Z) :
  sched (store s) = [] →
  strptime (start_time run) = Some a →
  strptime (stop_time run) = Some b →
  strptime (heartbeat run) = Some h →
  code_present dir (sources (experiment run)) →
  ∃ srcs s',
    running_info_saving strptime md5sum run config dir s = (Ok tt, s')
    ∧ sched (store s') = []
    ∧ runs (store s') = runs (store s)
    ∧ overwrite (self s')
      = (λ e, <["experiment" := ex_value (experiment run) srcs]>
                (running_info run config a b h ∪ e)) <$> overwrite (self s)
    ∧ run_entry (self s')
      = (λ e, <["experiment" := ex_value (experiment run) srcs]>
                (running_info run config a b h ∪ e)) <$> run_entry (self s).
Proof.
  intros Hq Ha Hb Hh Hdir. unfold running_info_saving, py_strptime.
  rewrite Ha, Hb, Hh.
  do 3 (erewrite (bind_ok (ret _)); [|reflexivity]).
  erewrite (bind_ok (mutate_entry _)); [|reflexivity].
  destruct dir as [d|].
  - destruct (save_sources_loop_idle md5sum (base_dir (experiment run)) d
                (sources (experiment run)) []
                (Sys (Client ((λ e, running_info run config a b h ∪ e)
                                <$> overwrite (self s))
                             ((λ e, running_info run config a b h ∪ e)
                                <$> run_entry (self s))
                             (priority (self s)) (failure_dir (self s)))
                     (store s)) Hq Hdir) as (info & s1 & E).
    destruct (calm_save_sources_loop _ _ _ _ _ _ _ _ E Hq) as (Hq1 & Hr1 & Hs1).
    unfold save_sources. rewrite (bind_ok _ _ _ _ _ E).
    exists (source_info_value info). eexists. split; [reflexivity|].
    simpl_state. rewrite Hs1. simpl_state.
    repeat split; try done; by rewrite <- option_fmap_compose.
  - exists (VList []). eexists. split; [reflexivity|].
    simpl_state. repeat split; try done; by rewrite <- option_fmap_compose.
Qed.

Lemma insert_overwriting (s : sys) (d : doc) :
  overwrite (self s) = Some d → dict_truthy d = true → insert s = save ∅ s.
Proof.
  intros Hov Ht. unfold insert.
  rewrite (bind_ok get_self _ s s (self s) eq_refl). by rewrite Hov, Ht.
Qed.

Lemma insert_metrics_idle (z : Z) (metrics : option (list (string * batch)))
    (e old : doc) (s : sys) :
  sched (store s) = [] →
  run_entry (self s) = Some e →
  e !! "_id" = Some (VInt z) →
  runs (store s) !! z = Some old →
  ∃ new s',
    insert_metrics z metrics s = (Ok tt, s')
    ∧ runs (store s') = <[z := new]> (runs (store s))
    ∧ ∀ k, k ≠ "info" → new !! k = old !! k.
Proof.
  intros Hq He Hid Hold. unfold insert_metrics.
  destruct metrics as [[|m ms]|].
  - exists old, s. by rewrite insert_id.
  - destruct (log_metrics_idle z (m :: ms) [] s Hq) as (reg & s1 & E).
    destruct (calm_log_metrics _ _ _ _ _ _ E Hq) as (Hq1 & Hr1 & Hs1).
    rewrite (bind_ok _ _ _ _ _ E).
    rewrite (save_idle _ e old z s1); try congruence.
    + rewrite (dict_truthy_lookup _ "info" (info_value reg))
        by apply lookup_singleton_eq.
      eexists _, _. split; [reflexivity|]. simpl. rewrite Hr1.
      split; [done|]. intros k Hk.
      rewrite lookup_union_r; [done|].
      destruct (decide (k = "_id")) as [->|]; [by rewrite lookup_delete_eq|].
      by rewrite lookup_delete_ne, lookup_singleton_ne.
    + rewrite (dict_truthy_lookup _ "info" (info_value reg))
        by apply lookup_singleton_eq.
      by apply changes_id_without.
  - exists old, s. by rewrite insert_id.
Qed.

End FirstFinish.

Section SingleUse.

Variable strptime : string → option Z.
Variable md5sum : string → string.
Variable re_digit : ascii → bool.



End SingleUse.

(* --------------------------------------------------------------------- *)
(* save_sources                                                          *)
(* --------------------------------------------------------------------- *)

Lemma emits_refl (P : op → Prop) (s : sys) : emits P s s.
Proof. exists []. by rewrite app_nil_r. Qed.

Lemma emits_trans (P : op → Prop) (s1 s2 s3 : sys) :
  emits P s1 s2 → emits P s2 s3 → emits P s1 s3.
Proof.
  intros (l1 & E1 & H1) (l2 & E2 & H2). exists (l1 ++ l2). split.
  - by rewrite E2, E1, app_assoc.
  - by apply Forall_app.
Qed.

Lemma emits_mutate (P : op → Prop) (f : doc → doc) :
  respects (emits P) (mutate_entry f).
Proof. intros s r s' [= _ <-]. exists []. by rewrite app_nil_r. Qed.

(** A store operation that logs o and nothing else. *)
Lemma emits_store (P : op → Prop) {A} (f : world → res A * world) (o : op) :
  (∀ w, log (snd (f w)) = log w ++ [o]) → P o →
  respects (emits P) (on_store f).
Proof.
  intros Hlog Ho. apply respects_on_store_world. intros s.
  exists [o]. split; [apply Hlog|by constructor].
Qed.

Ltac log_op :=
  intros;
  match goal with
  | |- context [tick ?o ?w] =>
      pose proof (tick_log o w); destruct (tick o w) as [[?|] ?]
  | _ => idtac
  end;
  simpl in *; repeat case_match; simpl; done.

Lemma runs_count_documents_log (w : world) :
  log (snd (runs_count_documents w)) = log w ++ [RunsCountDocuments].
Proof. unfold runs_count_documents. log_op. Qed.

Lemma runs_find_max_log (w : world) :
  log (snd (runs_find_max w)) = log w ++ [RunsFindMax].
Proof. unfold runs_find_max. log_op. Qed.

Lemma runs_insert_one_log (d : doc) (w : world) :
  log (snd (runs_insert_one d w)) = log w ++ [RunsInsertOne d].
Proof. unfold runs_insert_one. log_op. Qed.

Lemma metrics_update_one_log (z : Z) (k : string) (b : batch) (w : world) :
  log (snd (metrics_update_one z k b w)) = log w ++ [MetricsUpdateOne z k b].
Proof. unfold metrics_update_one. log_op. Qed.

Lemma fs_find_one_log (p h : string) (w : world) :
  log (snd (fs_find_one p h w)) = log w ++ [FsFindOne p h].
Proof. unfold fs_find_one. log_op. Qed.

Lemma fs_put_log (md5sum : string → string) (p data : string) (w : world) :
  log (snd (fs_put md5sum p data w)) = log w ++ [FsPut p data].
Proof. unfold fs_put. log_op. Qed.

Lemma open_rb_log (dir : snapshot) (n : string) (w : world) :
  log (snd (open_rb dir n w)) = log w ++ [OpenFile n].
Proof. unfold open_rb. log_op. Qed.

Lemma fs_find_one_run (p h : string) (w : world) :
  fs (snd (fs_find_one p h w)) = fs w
  ∧ ((∃ f, fst (fs_find_one p h w) = Raise (PyMongo f))
     ∨ fst (fs_find_one p h w) = Ok (List.find (blob_matches p h) (fs w))).
Proof.
  unfold fs_find_one.
  destruct (tick_metrics (FsFindOne p h) w) as (_ & _ & Hfs).
  destruct (tick _ w) as [[f|] w1]; simpl in *.
  - split; [done|]. left. by exists f.
  - split; [done|]. right. by rewrite Hfs.
Qed.

Lemma fs_put_run (md5sum : string → string) (p data : string) (w : world) :
  (∃ f, fst (fs_put md5sum p data w) = Raise (PyMongo f)
        ∧ fs (snd (fs_put md5sum p data w)) = fs w)
  ∨ (∃ o, fst (fs_put md5sum p data w) = Ok o
          ∧ fs (snd (fs_put md5sum p data w))
            = fs w ++ [Blob o p (md5sum data) data]).
Proof.
  unfold fs_put.
  destruct (tick_metrics (FsPut p data) w) as (_ & _ & Hfs).
  destruct (tick _ w) as [[f|] w1]; simpl in *.
  - left. by exists f.
  - right. exists (next_oid w1). by rewrite Hfs.
Qed.

Lemma open_rb_fs (dir : snapshot) (n : string) (w : world) :
  fs (snd (open_rb dir n w)) = fs w.
Proof. unfold open_rb. by destruct (dir !! n). Qed.

Lemma blob_matches_eq (p h : string) (b : blob) :
  blob_matches p h b = true ↔ b_filename b = p ∧ b_md5 b = h.
Proof.
  unfold blob_matches. rewrite andb_true_iff, !String.eqb_eq. done.
Qed.

Lemma find_app_none {A} (P : A → bool) (l : list A) (x : A) :
  List.find P l = None → P x = false → List.find P (l ++ [x]) = None.
Proof.
  induction l as [|y l IH]; simpl.
  - by intros _ ->.
  - destruct (P y); [done|]. auto.
Qed.

Section Sources.

Variable md5sum : string → string.

(** One entry of the manifest: what the body of the for loop does. *)
Lemma save_sources_loop_step (base : string) (dir : snapshot)
    (n h : string) (srcs : list (string * string)) (acc : list (string * N))
    (s s' : sys) (r : res (list (string * N))) :
  save_sources_loop md5sum base dir ((n, h) :: srcs) acc s = (r, s') →
  (∃ e, r = Raise e ∧ fs (store s') = fs (store s))
  ∨ (∃ o s1,
       save_sources_loop md5sum base dir srcs (acc ++ [(n, o)]) s1 = (r, s')
       ∧ ((blob_ref (path_join base n) h (fs (store s)) = Some o
           ∧ fs (store s1) = fs (store s))
          ∨ (∃ c, dir !! n = Some c
                  ∧ List.find (blob_matches (path_join base n) h) (fs (store s)) = None
                  ∧ fs (store s1)
                    = fs (store s) ++ [Blob o (path_join base n) (md5sum c) c]))).
Proof.
  simpl. intros H.
  destruct (fs_find_one_run (path_join base n) h (store s)) as (Hfs & Hfind).
  apply bind_inv in H as [(file & s1 & H1 & H2)|(e & H1 & ->)].
  2:{ left. exists e. split; [done|].
      rewrite on_store_run in H1. injection H1 as _ <-. exact Hfs. }
  rewrite on_store_run in H1. injection H1 as H1 <-.
  destruct Hfind as [[f Hf]|Hf]; rewrite Hf in H1; [done|]. injection H1 as <-.
  destruct (List.find _ _) as [b|] eqn:Efind.
  - apply bind_inv in H2 as [(o & s2 & H2 & H3)|(e & H2 & ->)]; [|done].
    injection H2 as <- <-. right. eexists _, _. split; [exact H3|].
    left. simpl. unfold blob_ref. by rewrite Efind.
  - apply bind_inv in H2 as [(o & s2 & H2 & H3)|(e & H2 & ->)].
    + right. exists o, s2. split; [done|]. right.
      apply bind_inv_ok in H2 as (c & s3 & H2 & H4).
      rewrite on_store_run in H2. unfold open_rb in H2.
      destruct (dir !! n) as [c'|]; simpl in H2; [|done].
      injection H2 as <- <-.
      rewrite on_store_run in H4. injection H4 as H4 <-. simpl.
      exists c'. split; [done|]. split; [done|].
      match type of H4 with fst (fs_put _ _ _ ?w) = _ =>
        destruct (fs_put_run md5sum (path_join base n) c' w)
          as [(f & Hf' & _)|(o' & Ho & ->)]
      end; [by rewrite Hf' in H4|].
      rewrite Ho in H4. injection H4 as ->. simpl. by rewrite Hfs.
    + left. exists e. split; [done|].
      apply bind_inv in H2 as [(c & s3 & H2 & H4)|(e' & H2 & _)].
      * rewrite on_store_run in H2. injection H2 as _ <-.
        rewrite on_store_run in H4. injection H4 as H4 <-. simpl.
        match type of H4 with fst (fs_put _ _ _ ?w) = _ =>
          destruct (fs_put_run md5sum (path_join base n) c w)
            as [(f & _ & ->)|(o' & Ho & _)]
        end; [|by rewrite Ho in H4].
        simpl. by rewrite open_rb_fs.
      * rewrite on_store_run in H2. injection H2 as _ <-. simpl.
        by rewrite open_rb_fs.
Qed.

End Sources.

Lemma blob_ref_app (p h : string) (blobs more : list blob) (o : N) :
  blob_ref p h blobs = Some o → blob_ref p h (blobs ++ more) = Some o.
Proof.
  unfold blob_ref. destruct (List.find _ blobs) as [b|] eqn:E; [|done].
  by rewrite (find_app_found _ _ more _ E).
Qed.

Lemma find_none_filter {A} (P : A → bool) (l : list A) :
  List.find P l = None → List.filter P l = [].
Proof.
  induction l as [|x l IH]; simpl; [done|].
  destruct (P x); [done|]. auto.
Qed.

Lemma copies_snoc (p h : string) (blobs : list blob) (b : blob) :
  copies p h (blobs ++ [b])
  = (copies p h blobs + if blob_matches p h b then 1 else 0)%nat.
Proof.
  unfold copies. rewrite List.filter_app, length_app. simpl.
  by destruct (blob_matches p h b).
Qed.

Section Dedup.

Variable md5sum : string → string.

Lemma save_sources_loop_missing (base : string) (dir : snapshot)
    (n h : string) (srcs : list (string * string)) (acc : list (string * N))
    (s s' : sys) (r : res (list (string * N))) :
  (n, h) ∈ srcs →
  dir !! n = None →
  List.find (blob_matches (path_join base n) h) (fs (store s)) = None →
  (∀ n' c, dir !! n' = Some c →
     ¬ (path_join base n' = path_join base n ∧ md5sum c = h)) →
  save_sources_loop md5sum base dir srcs acc s = (r, s') →
  ∃ e, r = Raise e.
Proof.
  intros Hin Hn Hfind Hother. revert acc s Hin Hfind.
  induction srcs as [|[n' h'] srcs IH]; intros acc s Hin Hfind H.
  - by apply elem_of_nil in Hin.
  - apply save_sources_loop_step in H as [(e & He & _)|(o & s1 & H1 & Hcase)];
      [by exists e|].
    apply elem_of_cons in Hin.
    destruct Hcase as [[Href Hfs]|(c & Hc & Hnone & Hfs)].
    + destruct Hin as [[= -> ->]|Hin].
      * unfold blob_ref in Href. by rewrite Hfind in Href.
      * eapply (IH _ s1); [done| |exact H1]. by rewrite Hfs.
    + destruct Hin as [[= -> ->]|Hin]; [congruence|].
      eapply (IH _ s1); [done| |exact H1]. rewrite Hfs.
      apply find_app_none; [done|].
      destruct (blob_matches _ _ _) eqn:E; [|done].
      apply blob_matches_eq in E. simpl in E. by destruct (Hother n' c Hc).
Qed.

(** What one entry does to the blob store. *)
Lemma entry_blobs (base : string) (dir : snapshot) (n h : string)
    (srcs : list (string * string)) (o : N) (s s1 : sys) :
  honest md5sum dir ((n, h) :: srcs) →
  (blob_ref (path_join base n) h (fs (store s)) = Some o
   ∧ fs (store s1) = fs (store s))
  ∨ (∃ c, dir !! n = Some c
          ∧ List.find (blob_matches (path_join base n) h) (fs (store s)) = None
          ∧ fs (store s1)
            = fs (store s) ++ [Blob o (path_join base n) (md5sum c) c]) →
  blob_ref (path_join base n) h (fs (store s1)) = Some o
  ∧ (∃ added, fs (store s1) = fs (store s) ++ added)
  ∧ ∀ p' h',
      copies p' h' (fs (store s1)) = copies p' h' (fs (store s))
      ∨ (copies p' h' (fs (store s)) = 0 ∧ copies p' h' (fs (store s1)) = 1)%nat.
Proof.
  intros Hhon [[Href Hfs]|(c & Hc & Hnone & Hfs)].
  - rewrite Hfs. split; [done|]. split; [by exists []; rewrite app_nil_r|].
    by left.
  - assert (md5sum c = h) as Hh by (apply (Hhon n h c); [by left|done]).
    rewrite Hfs, Hh. split; [|split].
    + unfold blob_ref. erewrite find_app_absent; [done|done|].
      by apply blob_matches_eq.
    + by eexists.
    + intros p' h'. rewrite copies_snoc.
      destruct (blob_matches p' h' _) eqn:E; [|left; lia].
      apply blob_matches_eq in E as [<- <-]. simpl. right.
      unfold copies. by rewrite (find_none_filter _ _ Hnone).
Qed.

(** However save_sources ends, it has stored no blob for a (path, hash)
    the store held a blob for, and at most one for any other. *)
Lemma save_sources_loop_copies (base : string) (dir : snapshot)
    (srcs : list (string * string)) (acc : list (string * N))
    (s s' : sys) (r : res (list (string * N))) :
  honest md5sum dir srcs →
  save_sources_loop md5sum base dir srcs acc s = (r, s') →
  ∀ p h,
    copies p h (fs (store s')) = copies p h (fs (store s))
    ∨ (copies p h (fs (store s)) = 0 ∧ copies p h (fs (store s')) = 1)%nat.
Proof.
  revert acc s. induction srcs as [|[n h] srcs IH]; intros acc s Hhon H p' h'.
  - injection H as _ <-. by left.
  - apply save_sources_loop_step in H as [(e & _ & ->)|(o & s1 & H1 & Hcase)];
      [by left|].
    assert (honest md5sum dir srcs) as Hhon'.
    { intros n0 h0 c Hin. apply Hhon. by right. }
    destruct (entry_blobs base dir n h srcs o s s1 Hhon Hcase) as (_ & _ & Hcop1).
    destruct (IH _ _ Hhon' H1 p' h') as [->|[H0 ->]];
      destruct (Hcop1 p' h') as [E|[E0 E1]]; lia.
Qed.

Lemma save_sources_loop_resolves (base : string) (dir : snapshot)
    (srcs : list (string * string)) (acc info : list (string * N))
    (s s' : sys) :
  honest md5sum dir srcs →
  save_sources_loop md5sum base dir srcs acc s = (Ok info, s') →
  ∃ new,
    info = acc ++ new
    ∧ (∃ added, fs (store s') = fs (store s) ++ added)
    ∧ Forall2 (λ src ref,
                 fst ref = fst src
                 ∧ blob_ref (path_join base (fst src)) (snd src) (fs (store s'))
                   = Some (snd ref)) srcs new.
Proof.
  revert acc s. induction srcs as [|[n h] srcs IH]; intros acc s Hhon H.
  - injection H as <- <-. exists []. rewrite app_nil_r.
    split; [done|]. split; [by exists []; rewrite app_nil_r|]. constructor.
  - apply save_sources_loop_step in H as [(e & He & _)|(o & s1 & H1 & Hcase)];
      [done|].
    assert (honest md5sum dir srcs) as Hhon'.
    { intros n' h' c Hin. apply Hhon. by right. }
    destruct (IH _ _ Hhon' H1) as (new & -> & [added Hadd] & Hall).
    exists ((n, o) :: new). rewrite <- app_assoc. split; [done|].
    destruct (entry_blobs base dir n h srcs o s s1 Hhon Hcase)
      as (Href & [added1 Hadd1] & _).
    split.
    + exists (added1 ++ added). by rewrite Hadd, Hadd1, app_assoc.
    + constructor; [|done]. split; [done|]. simpl.
      rewrite Hadd. by apply blob_ref_app.
Qed.

Lemma resolved_refs (ex : ex_info) (new : list (string * N)) (blobs : list blob)
    (srcs : list (string * string)) :
  Forall2 (λ src ref,
             fst ref = fst src
             ∧ blob_ref (path_join (base_dir ex) (fst src)) (snd src) blobs
               = Some (snd ref)) srcs new →
  ∀ p h o,
    (p, h, o) ∈ zip_with
                  (λ src ref, (path_join (base_dir ex) (fst src), snd src, snd ref))
                  srcs new →
    blob_ref p h blobs = Some o.
Proof.
  induction 1 as [|src ref srcs new [_ Href] _ IH]; intros p h o Hin; simpl in Hin.
  - by apply elem_of_nil in Hin.
  - apply elem_of_cons in Hin as [[= -> -> ->]|Hin]; [done|]. by apply IH.
Qed.

(** C6. Two manifest entries with the same virtual path and the same
    content hash, in one run of save_sources or in two runs where the
    second starts from the blob store the first left, are given the same
    blob reference; and a run of save_sources, however it ends, stores no
    blob for a (path, hash) pair the store already holds a blob for, and
    at most one for a pair it does not.  The hash a manifest lists is the
    digest of the listed file. *)
Theorem C6_same_path_and_hash_share_one_blob
    (exA exB : ex_info) (dirA dirB : snapshot) (s0 s1 s2 s3 : sys)
    (infoA infoB : list (string * N)) :
  honest md5sum dirA (sources exA) →
  honest md5sum dirB (sources exB) →
  save_sources md5sum exA dirA s0 = (Ok infoA, s1) →
  fs (store s2) = fs (store s1) →
  save_sources md5sum exB dirB s2 = (Ok infoB, s3) →
  (∀ p h o1 o2,
     (p, h, o1) ∈ resolved exA infoA ++ resolved exB infoB →
     (p, h, o2) ∈ resolved exA infoA ++ resolved exB infoB →
     o1 = o2)
  ∧ (∀ ex dir s r s',
       honest md5sum dir (sources ex) →
       save_sources md5sum ex dir s = (r, s') →
       ∀ p h,
         copies p h (fs (store s')) = copies p h (fs (store s))
         ∨ (copies p h (fs (store s)) = 0 ∧ copies p h (fs (store s')) = 1)%nat).
Proof.
  intros HhA HhB HA Hfs HB. split.
  - unfold save_sources in HA, HB.
    destruct (save_sources_loop_resolves _ _ _ _ _ _ _ HhA HA)
      as (newA & -> & [addA HaddA] & HallA).
    destruct (save_sources_loop_resolves _ _ _ _ _ _ _ HhB HB)
      as (newB & -> & [addB HaddB] & HallB).
    simpl in *.
    assert (∀ p h o, (p, h, o) ∈ resolved exA newA ++ resolved exB newB →
                     blob_ref p h (fs (store s3)) = Some o) as Href.
    { intros p h o [Hin|Hin]%elem_of_app.
      - rewrite HaddB, Hfs. apply blob_ref_app.
        by apply (resolved_refs exA newA _ (sources exA)).
      - by apply (resolved_refs exB newB _ (sources exB)). }
    intros p h o1 o2 H1 H2. apply Href in H1, H2. congruence.
  - intros ex dir s r s' Hhon H.
    by apply (save_sources_loop_copies _ _ _ _ _ _ _ Hhon H).
Qed.

End Dedup.

Section MissingSource.

Variable strptime : string → option Z.
Variable md5sum : string → string.
Variable re_digit : ascii → bool.

Lemma emits_bind_run_entry (P : op → Prop) (_id : option Z) :
  respects (emits P) (bind_run_entry _id).
Proof.
  intros s r s'. unfold bind_run_entry, bind, get_self.
  destruct (overwrite (self s)); [destruct (run_entry (self s))|];
    intros [= _ <-]; exists []; by rewrite app_nil_r.
Qed.

Lemma bind_run_entry_store (_id : option Z) (s s' : sys) (r : res unit) :
  bind_run_entry _id s = (r, s') → store s' = store s.
Proof.
  unfold bind_run_entry, bind, get_self.
  destruct (overwrite (self s)); [destruct (run_entry (self s))|];
    by intros [= _ <-].
Qed.

Lemma no_runs_write_running_info_saving (run : run_record) (config : value)
    (dir : option snapshot) :
  respects no_runs_write (running_info_saving strptime md5sum run config dir).
Proof.
  apply respects_running_info_saving;
    first [ exact (emits_refl _) | exact (emits_trans _) | exact (emits_mutate _)
          | intros; by apply (emits_store _ _ _ (fs_find_one_log _ _))
          | intros; by apply (emits_store _ _ _ (open_rb_log _ _))
          | intros; by apply (emits_store _ _ _ (fs_put_log _ _ _)) ].
Qed.

(** Whatever finished_event issues satisfies P, when every operation the
    client can issue after construction does. *)
Lemma finished_event_emits (P : op → Prop) (run : run_record) (cout : string)
    (config : value) (metrics : option (list (string * batch)))
    (dir : option snapshot) (_id : option Z) :
  P RunsCountDocuments → P RunsFindMax →
  (∀ d, P (RunsInsertOne d)) →
  (∀ idv set, P (RunsUpdateOne idv set)) →
  (∀ z k b, P (MetricsUpdateOne z k b)) →
  (∀ p h, P (FsFindOne p h)) →
  (∀ p data, P (FsPut p data)) →
  (∀ n, P (OpenFile n)) →
  respects (emits P)
    (finished_event strptime md5sum re_digit run cout config metrics dir _id).
Proof.
  intros P1 P2 P3 P4 P5 P6 P7 P8. unfold finished_event.
  apply respects_bind; [exact (emits_trans _)|apply emits_bind_run_entry|].
  intros _. apply respects_after_binding;
    first [ exact (emits_refl _) | exact (emits_trans _) | exact (emits_mutate _)
          | by apply (emits_store _ _ _ runs_count_documents_log)
          | by apply (emits_store _ _ _ runs_find_max_log)
          | intros; by apply (emits_store _ _ _ (runs_insert_one_log _))
          | intros; by apply (emits_store _ _ _ (runs_update_one_log _ _))
          | intros; by apply (emits_store _ _ _ (metrics_update_one_log _ _ _))
          | intros; by apply (emits_store _ _ _ (fs_find_one_log _ _))
          | intros; by apply (emits_store _ _ _ (open_rb_log _ _))
          | intros; by apply (emits_store _ _ _ (fs_put_log _ _ _)) ].
Qed.

Lemma running_info_saving_missing (run : run_record) (config : value)
    (dir : snapshot) (n h : string) (s s' : sys) (r : res unit) :
  (n, h) ∈ sources (experiment run) →
  dir !! n = None →
  List.find (blob_matches (path_join (base_dir (experiment run)) n) h)
            (fs (store s)) = None →
  (∀ n' c, dir !! n' = Some c →
     ¬ (path_join (base_dir (experiment run)) n'
        = path_join (base_dir (experiment run)) n ∧ md5sum c = h)) →
  running_info_saving strptime md5sum run config (Some dir) s = (r, s') →
  ∃ e, r = Raise e.
Proof.
  intros Hin Hn Hfind Hother H. unfold running_info_saving in H.
  do 3 (apply bind_inv in H as [(? & ? & E & H)|(e & _ & ->)];
        [|by exists e];
        unfold py_strptime in E; destruct (strptime _); [|done];
        injection E as <- <-).
  apply bind_inv in H as [(? & s1 & E & H)|(e & _ & ->)]; [|by exists e].
  injection E as _ <-.
  apply bind_inv in H as [(info & s2 & E & H)|(e & _ & ->)]; [|by exists e].
  unfold save_sources in E.
  eapply (save_sources_loop_missing md5sum) in E as [e He];
    [done|exact Hin|exact Hn|exact Hfind|exact Hother].
Qed.

(** C9. When a file the manifest lists is not in the snapshot directory
    and the blob store has no blob for its (path, hash) to reuse, neither
    at the start nor from a file of this directory, finished_event
    raises, and it has issued no insert and no update on the runs
    collection: it stops in save_sources, before self.insert(). *)
Theorem C9_missing_source_fails_before_insert
    (run : run_record) (cout : string) (config : value)
    (metrics : option (list (string * batch))) (dir : snapshot)
    (_id : option Z) (n h : string) (s : sys) :
  (n, h) ∈ sources (experiment run) →
  dir !! n = None →
  List.find (blob_matches (path_join (base_dir (experiment run)) n) h)
            (fs (store s)) = None →
  (∀ n' c, dir !! n' = Some c →
     ¬ (path_join (base_dir (experiment run)) n'
        = path_join (base_dir (experiment run)) n ∧ md5sum c = h)) →
  ∃ e s',
    finished_event strptime md5sum re_digit run cout config metrics
      (Some dir) _id s = (Raise e, s')
    ∧ no_runs_write s s'.
Proof.
  intros Hin Hn Hfind Hother. unfold finished_event.
  destruct (bind_run_entry _id s) as [[u|e] s1] eqn:E1.
  - rewrite (bind_ok _ _ _ _ _ E1).
    destruct (running_info_saving strptime md5sum run config (Some dir) s1)
      as [r2 s2] eqn:E2.
    rewrite <- (bind_run_entry_store _ _ _ _ E1) in Hfind.
    destruct (running_info_saving_missing _ _ _ _ _ _ _ _ Hin Hn Hfind Hother E2)
      as [e ->].
    rewrite (bind_raise _ _ _ _ _ E2). exists e, s2. split; [done|].
    eapply emits_trans.
    + by eapply emits_bind_run_entry.
    + by eapply no_runs_write_running_info_saving.
  - rewrite (bind_raise _ _ _ _ _ E1). exists e, s1. split; [done|].
    by eapply emits_bind_run_entry.
Qed.

End MissingSource.

Section Construction.

Variable strptime : string → option Z.
Variable md5sum : string → string.
Variable re_digit : ascii → bool.

(** C8. Constructing a client for an overwrite target that no stored run
    carries fails in initialize itself, with the RuntimeError that says
    the run could not be found.  A construction that succeeds has found
    the run and holds it, and finished_event, on whatever client and
    store, never looks a run up by its id: the check is made at
    construction and nowhere else. *)
Theorem C8_initialize_rejects_missing_target
    (z prio : Z) (fdir : option string) (w : world) :
  answers w →
  head (sched w) ≠ Some (Rival z) →
  runs w !! z = None →
  initialize (Some z) prio fdir w
    = (Raise (NotFound z), snd (tick (RunsFindOne z) w))
  ∧ (∀ w0 c w', initialize (Some z) prio fdir w0 = (Ok c, w') →
       ∃ d, runs w' !! z = Some d
            ∧ overwrite c = Some (<["_id" := VInt z]> d)
            ∧ run_entry c = None)
  ∧ (∀ run cout config metrics dir _id s r s',
       finished_event strptime md5sum re_digit run cout config metrics dir _id s
         = (r, s') →
       no_lookup s s').
Proof.
  intros Ha Hr Hz. split; [|split].
  - unfold initialize. rewrite (runs_find_one_answers z w Ha).
    by rewrite (tick_runs_absent _ z w Hz Hr).
  - intros w0 c w'. apply initialize_found.
  - intros run cout config metrics dir _id s r s'.
    by apply (finished_event_emits strptime md5sum re_digit).
Qed.

End Construction.

(* --------------------------------------------------------------------- *)
(* insert: the allocation of a fresh id                                  *)
(* --------------------------------------------------------------------- *)

Lemma max_id_spec (r : gmap Z doc) :
  (max_id r = None ↔ r = ∅)
  ∧ ∀ m, max_id r = Some m →
      is_Some (r !! m) ∧ ∀ k, is_Some (r !! k) → k ≤ m.
Proof.
  unfold max_id.
  apply (map_fold_weak_ind
           (λ (b : option Z) (r : gmap Z doc),
              (b = None ↔ r = ∅)
              ∧ ∀ m, b = Some m →
                  is_Some (r !! m) ∧ ∀ k, is_Some (r !! k) → k ≤ m)).
  - split; [done|]. intros m [=].
  - intros i x r' acc Hi [Hnone Hsome]. split.
    + split; [by destruct acc|]. intros H.
      by apply insert_non_empty in H.
    + intros m Hm. destruct acc as [a|].
      * injection Hm as <-. destruct (Hsome a eq_refl) as [Ha Hmax]. split.
        -- destruct (Z.max_spec a i) as [[_ ->]|[_ ->]].
           ++ by rewrite lookup_insert_eq.
           ++ destruct (decide (i = a)) as [->|]; [by rewrite lookup_insert_eq|].
              by rewrite lookup_insert_ne.
        -- intros k Hk. destruct (decide (i = k)) as [->|Hne]; [lia|].
           rewrite lookup_insert_ne in Hk by done.
           specialize (Hmax k Hk). lia.
      * injection Hm as <-. split; [by rewrite lookup_insert_eq|].
        intros k Hk. destruct (decide (i = k)) as [->|Hne]; [lia|].
        rewrite lookup_insert_ne in Hk by done.
        destruct Hnone as [Hnone _]. rewrite (Hnone eq_refl) in Hk.
        rewrite lookup_empty in Hk. by destruct Hk.
Qed.

Lemma rival_insert_keeps (z k : Z) (r : gmap Z doc) (d : doc) :
  r !! k = Some d → rival_insert z r !! k = Some d.
Proof.
  intros Hk. unfold rival_insert. destruct (r !! z) eqn:E; [done|].
  rewrite lookup_insert_ne; [done|]. congruence.
Qed.

(** What one round trip does to the world: it takes at most one event
    off the schedule, fails exactly on a Fails event, and the runs
    collection keeps its documents and changes only on a Rival event. *)
Lemma tick_spec (o : op) (w w' : world) (x : option fault) :
  tick o w = (x, w') →
  ∃ pre,
    sched w = pre ++ sched w'
    ∧ (∀ k d, runs w !! k = Some d → runs w' !! k = Some d)
    ∧ (runs w' ≠ runs w → pre ≠ [])
    ∧ match x with
      | Some f => pre = [Fails f]
      | None => faultless pre
      end.
Proof.
  unfold tick, record_op. simpl.
  destruct (sched w) as [|[|z|f] l]; intros [= <- <-]; simpl.
  - exists []. repeat split; try done. constructor.
  - exists [Quiet]. repeat split; try done. by repeat constructor.
  - exists [Rival z]. repeat split; try done.
    + intros k d. apply rival_insert_keeps.
    + by repeat constructor.
  - exists [Fails f]. by repeat split.
Qed.

Lemma insert_loop_autoinc_unfold (fuel : nat) (s : sys) (e : doc) :
  run_entry (self s) = Some e →
  insert_loop (S fuel) true s =
    match runs_count_documents (store s) with
    | (Raise err, w1) => (Raise err, Sys (self s) w1)
    | (Ok n, w1) =>
        match (if n =? 0 then (Ok 1, w1)
               else match runs_find_max w1 with
                    | (Ok m, w2) => (Ok (m + 1), w2)
                    | (Raise err, w2) => (Raise err, w2)
                    end) with
        | (Raise err, w2) => (Raise err, Sys (self s) w2)
        | (Ok cand, w2) =>
            let c := Client (<["_id" := VInt cand]> <$> overwrite (self s))
                            (Some (<["_id" := VInt cand]> e))
                            (priority (self s)) (failure_dir (self s)) in
            match runs_insert_one (<["_id" := VInt cand]> e) w2 with
            | (Ok _, w3) => (Ok tt, Sys c w3)
            | (Raise (PyMongo InvalidDocument), w3) =>
                (Raise (NameError "ObserverError"), Sys c w3)
            | (Raise DuplicateKeyError, w3) => insert_loop fuel true (Sys c w3)
            | (Raise err, w3) => (Raise err, Sys c w3)
            end
        end
    end.
Proof.
  intros He. cbn [insert_loop]. unfold entry.
  unfold bind, on_store, try, mutate_entry, get_self, ret, raise.
  destruct (runs_count_documents (store s)) as [[n|err] w1]; [|done].
  destruct (n =? 0).
  - cbn [self store run_entry]. rewrite He. cbn [fmap option_fmap option_map self store].
    destruct (runs_insert_one _ w1) as [[u|err] w3]; cbv beta iota zeta; [done|].
    by destruct err as [[]| | | | | | | | | |].
  - cbn [self store]. destruct (runs_find_max w1) as [[m|err] w2]; [|done].
    cbn [self store run_entry]. rewrite He. cbn [fmap option_fmap option_map self store].
    destruct (runs_insert_one _ w2) as [[u|err] w3]; cbv beta iota zeta; [done|].
    by destruct err as [[]| | | | | | | | | |].
Qed.

Lemma faultless_app (l1 l2 : list event) :
  faultless l1 → faultless l2 → faultless (l1 ++ l2).
Proof. unfold faultless. by apply Forall_app_2. Qed.


(** The loop of insert for an id to allocate, on any schedule shorter
    than the fuel: it ends; a Fails event it met is raised; otherwise the
    entry is stored under the successor of the largest id of the
    collection as one of its turns read it. *)
Lemma insert_loop_allocates (fuel : nat) (s : sys) (e : doc) :
  (length (sched (store s)) < fuel)%nat →
  run_entry (self s) = Some e →
  ∃ r s' pre,
    insert_loop fuel true s = (r, s')
    ∧ sched (store s) = pre ++ sched (store s')
    ∧ match r with
      | Ok _ =>
          faultless pre
          ∧ ∃ z seen,
              (∀ k d, runs (store s) !! k = Some d → is_Some (seen !! k))
              ∧ (∀ k, is_Some (seen !! k) → is_Some (runs (store s') !! k))
              ∧ next_after seen z
              ∧ seen !! z = None
              ∧ run_entry (self s') = Some (<["_id" := VInt z]> e)
              ∧ runs (store s') !! z = Some (delete "_id" e)
      | Raise err => ∃ f, Fails f ∈ pre ∧ (err = PyMongo f ∨ err = surfaced f)
      end.
Proof.
  revert s e. induction fuel as [|fuel IH]; intros s e Hlen He; [lia|].
  rewrite (insert_loop_autoinc_unfold fuel s e He).
  assert (∀ cand w2 pre12,
            sched (store s) = pre12 ++ sched w2 →
            faultless pre12 →
            (∀ k d, runs (store s) !! k = Some d → is_Some (runs w2 !! k)) →
            next_after (runs w2) cand →
            runs w2 !! cand = None →
            ∃ r s' pre,
              (let c := Client (<["_id" := VInt cand]> <$> overwrite (self s))
                               (Some (<["_id" := VInt cand]> e))
                               (priority (self s)) (failure_dir (self s)) in
               match runs_insert_one (<["_id" := VInt cand]> e) w2 with
               | (Ok _, w3) => (Ok tt, Sys c w3)
               | (Raise (PyMongo InvalidDocument), w3) =>
                   (Raise (NameError "ObserverError"), Sys c w3)
               | (Raise DuplicateKeyError, w3) => insert_loop fuel true (Sys c w3)
               | (Raise err, w3) => (Raise err, Sys c w3)
               end) = (r, s')
              ∧ sched (store s) = pre ++ sched (store s')
              ∧ match r with
                | Ok _ =>
                    faultless pre
                    ∧ ∃ z seen,
                        (∀ k d, runs (store s) !! k = Some d → is_Some (seen !! k))
                        ∧ (∀ k, is_Some (seen !! k) → is_Some (runs (store s') !! k))
                        ∧ next_after seen z
                        ∧ seen !! z = None
                        ∧ run_entry (self s') = Some (<["_id" := VInt z]> e)
                        ∧ runs (store s') !! z = Some (delete "_id" e)
                | Raise err =>
                    ∃ f, Fails f ∈ pre ∧ (err = PyMongo f ∨ err = surfaced f)
                end) as Hstep.
  { intros cand w2 pre12 Hs12 Hf12 Hmono Hnext Hfree. cbv zeta.
    unfold runs_insert_one.
    destruct (tick (RunsInsertOne _) w2) as [[f|] w3] eqn:T3;
      apply tick_spec in T3 as (pre3 & Hs3 & Hk3 & Hr3 & Hx3).
    - subst pre3.
      exists (Raise (surfaced f)), (Sys (Client (<["_id" := VInt cand]> <$> overwrite (self s))
                            (Some (<["_id" := VInt cand]> e))
                            (priority (self s)) (failure_dir (self s))) w3),
             (pre12 ++ [Fails f]).
      split; [by destruct f|]. split; [by rewrite Hs12, Hs3, app_assoc|].
      exists f. split; [|by right]. apply elem_of_app. right. by left.
    - rewrite lookup_insert_eq.
      destruct (runs w3 !! cand) as [taken|] eqn:Ecand.
      + assert (pre3 ≠ []) as Hne3.
        { apply Hr3. intros Heq. rewrite Heq in Ecand. congruence. }
        destruct (IH (Sys (Client (<["_id" := VInt cand]> <$> overwrite (self s))
                            (Some (<["_id" := VInt cand]> e))
                            (priority (self s)) (failure_dir (self s))) w3)
                    (<["_id" := VInt cand]> e))
          as (r & s' & pre & E & Hs & Hout); [|done|].
        { simpl. rewrite Hs12, Hs3, !length_app in Hlen.
          destruct pre3; [done|]. simpl in Hlen. lia. }
        exists r, s', (pre12 ++ pre3 ++ pre). split; [done|]. split.
        { simpl in Hs. by rewrite Hs12, Hs3, Hs, !app_assoc. }
        destruct r as [u|err].
        * destruct Hout as (Hfl & z & seen & H1 & H2 & H3 & H4 & H5 & H6).
          split; [by repeat apply faultless_app|].
          exists z, seen. repeat split; try done.
          -- intros k d Hk. destruct (Hmono k d Hk) as [d2 Hd2].
             eapply (H1 k). simpl. by apply Hk3.
          -- by rewrite H5, insert_insert_eq.
          -- by rewrite H6, delete_insert_eq.
        * destruct Hout as (f & Hin & Herr). exists f. split; [|done].
          apply elem_of_app. right. apply elem_of_app. by right.
      + eexists (Ok tt), _, (pre12 ++ pre3). split; [done|]. split.
        { simpl. by rewrite Hs12, Hs3, app_assoc. }
        split; [by apply faultless_app|].
        exists cand, (runs w2). simpl. repeat split; try done.
        * intros k [d Hd]. destruct (decide (cand = k)) as [->|Hne].
          -- by rewrite lookup_insert_eq.
          -- rewrite lookup_insert_ne by done. rewrite (Hk3 k d Hd). done.
        * by rewrite lookup_insert_eq, delete_insert_eq. }
  unfold runs_count_documents.
  destruct (tick RunsCountDocuments (store s)) as [[f|] w1] eqn:T1;
    apply tick_spec in T1 as (pre1 & Hs1 & Hk1 & Hr1 & Hx1).
  { subst pre1. eexists _, _, [Fails f]. split; [done|]. split; [done|].
    exists f. split; [by left|by left]. }
  destruct (decide (runs w1 = ∅)) as [Hemp|Hnonempty]; simpl.
  - apply (Hstep 1 w1 pre1); try done.
    + intros k d Hk. rewrite (Hk1 k d Hk). done.
    + by left.
    + by rewrite Hemp, lookup_empty.
  - unfold runs_find_max.
    destruct (tick RunsFindMax w1) as [[f|] w2] eqn:T2;
      apply tick_spec in T2 as (pre2 & Hs2 & Hk2 & Hr2 & Hx2).
    { subst pre2. eexists _, _, (pre1 ++ [Fails f]). split; [done|].
      split; [by rewrite Hs1, Hs2, app_assoc|].
      exists f. split; [|by left]. apply elem_of_app. right. by left. }
    destruct (max_id_spec (runs w2)) as [Hnone Hsome].
    destruct (max_id (runs w2)) as [m|] eqn:Emax.
    + destruct (Hsome m eq_refl) as [Hm Hmax].
      apply (Hstep (m + 1) w2 (pre1 ++ pre2)).
      * by rewrite Hs1, Hs2, app_assoc.
      * by apply faultless_app.
      * intros k d Hk. rewrite (Hk2 k d (Hk1 k d Hk)). done.
      * right. by exists m.
      * destruct (runs w2 !! (m + 1)) eqn:E; [|done].
        specialize (Hmax (m + 1) ltac:(by rewrite E)). lia.
    + exfalso. destruct Hnone as [Hnone _]. specialize (Hnone eq_refl).
      apply Hnonempty. apply map_eq. intros k. rewrite lookup_empty.
      destruct (runs w1 !! k) as [d|] eqn:E; [|done].
      rewrite Hnone in Hk2. specialize (Hk2 k d E).
      by rewrite lookup_empty in Hk2.
Qed.

Lemma keeps_self_store {A} (f : world → res A * world) :
  respects keeps_self (on_store f).
Proof. apply respects_on_store_world. by intros s. Qed.

Lemma keeps_self_save_sources_loop (md5sum : string → string) (base : string)
    (dir : snapshot) (srcs : list (string * string)) (acc : list (string * N)) :
  respects keeps_self (save_sources_loop md5sum base dir srcs acc).
Proof.
  apply respects_save_sources_loop; try (intros; apply keeps_self_store).
  - by intros s.
  - unfold keeps_self. intros s1 s2 s3. congruence.
Qed.

(** finished_event without an overwrite target reaches self.insert()
    with an entry whose _id is the one passed, None when none was. *)
Lemma finished_event_reaches_insert
    (strptime : string → option Z) (md5sum : string → string)
    (run : run_record) (config : value) (dir : option snapshot)
    (_id : option Z) (s s1 : sys) :
  overwrite (self s) = None →
  (bind_run_entry _id;; running_info_saving strptime md5sum run config dir) s
    = (Ok tt, s1) →
  overwrite (self s1) = None
  ∧ ∃ e, run_entry (self s1) = Some e ∧ e !! "_id" = Some (id_value _id).
Proof.
  intros Hov H.
  apply bind_inv_ok in H as (u & s0 & H0 & H).
  unfold bind_run_entry, bind, get_self in H0. rewrite Hov in H0.
  injection H0 as _ <-.
  unfold running_info_saving in H.
  do 3 (apply bind_inv_ok in H as (? & ? & E & H);
        unfold py_strptime in E; destruct (strptime _); [|done];
        injection E as <- <-).
  apply bind_inv_ok in H as (? & s2 & E & H). injection E as _ <-.
  destruct dir as [d|].
  - apply bind_inv_ok in H as (info & s3 & E & H).
    apply keeps_self_save_sources_loop in E. unfold keeps_self in E.
    injection H as <-. simpl_state. rewrite E. simpl_state. split; [done|].
    eexists. split; [done|].
    rewrite lookup_insert_ne by done.
    rewrite lookup_union_r by apply running_info_no_id.
    by rewrite lookup_singleton_eq.
  - injection H as <-. simpl_state. split; [done|].
    eexists. split; [done|].
    rewrite lookup_insert_ne by done.
    rewrite lookup_union_r by apply running_info_no_id.
    by rewrite lookup_singleton_eq.
Qed.

Lemma insert_autoinc_unfold (s : sys) (e : doc) :
  overwrite (self s) = None →
  run_entry (self s) = Some e →
  is_none (e !! "_id") = true →
  insert s = insert_loop (S (length (sched (store s)))) true s.
Proof.
  intros Hov He Hid. unfold insert.
  rewrite (bind_ok get_self _ s s (self s) eq_refl), Hov.
  by rewrite (bind_ok _ _ _ _ _ (entry_ok s e He)), Hid.
Qed.

(* --------------------------------------------------------------------- *)
(* insert, round trip by round trip                                      *)
(* --------------------------------------------------------------------- *)

Lemma rivals_app (l1 l2 : list event) (r : gmap Z doc) :
  rivals (l1 ++ l2) r = rivals l2 (rivals l1 r).
Proof. unfold rivals. by rewrite foldl_app. Qed.

Lemma seen_after_0 (w : world) : seen_after w 0 = runs w.
Proof. done. Qed.

(** One round trip: what it logs, what it takes off the schedule, what
    the other writer does to the collection, and whether it fails. *)
Lemma tick_view (o : op) (w w' : world) (x : option fault) :
  tick o w = (x, w') →
  sched w' = drop 1 (sched w)
  ∧ runs w' = seen_after w 1
  ∧ log w' = log w ++ [o]
  ∧ match x with
    | Some f => sched w !! 0%nat = Some (Fails f)
    | None => faultless (take 1 (sched w))
    end.
Proof.
  unfold tick, record_op, seen_after. simpl.
  destruct (sched w) as [|[|z|f] l]; intros [= <- <-]; simpl;
    repeat split; try done; try by repeat constructor.
Qed.

Lemma rivals_keeps (evs : list event) (r : gmap Z doc) (k : Z) (d : doc) :
  r !! k = Some d → rivals evs r !! k = Some d.
Proof.
  revert r. induction evs as [|ev evs IH]; intros r Hk; [done|].
  simpl. apply IH. destruct ev; try done. by apply rival_insert_keeps.
Qed.

Lemma seen_after_shift (w0 w : world) (k n : nat) :
  sched w = drop k (sched w0) →
  runs w = seen_after w0 k →
  seen_after w n = seen_after w0 (k + n).
Proof.
  intros Hs Hr. unfold seen_after in *.
  by rewrite Hs, Hr, <- rivals_app, take_take_drop.
Qed.

Lemma faultless_shift (l : list event) (k n : nat) :
  faultless (take k l) → faultless (take n (drop k l)) →
  faultless (take (k + n) l).
Proof.
  intros H1 H2. rewrite <- take_take_drop. by apply faultless_app.
Qed.

(** A candidate that was free when it was read and is taken one event
    later was taken by the writer of that event. *)
Lemma taken_by_rival (w : world) (n : nat) (c : Z) :
  seen_after w n !! c = None →
  is_Some (seen_after w (S n) !! c) →
  sched w !! n = Some (Rival c).
Proof.
  unfold seen_after. intros Hfree Htaken.
  destruct (sched w !! n) as [ev|] eqn:E.
  - rewrite (take_S_r _ _ _ E), rivals_app in Htaken. simpl in Htaken.
    destruct ev as [|z|f]; try (rewrite Hfree in Htaken; by destruct Htaken).
    unfold rival_insert in Htaken.
    destruct (rivals (take n (sched w)) (runs w) !! z) eqn:F.
    + rewrite Hfree in Htaken. by destruct Htaken.
    + destruct (decide (z = c)) as [->|Hne]; [done|].
      rewrite lookup_insert_ne, Hfree in Htaken by done. by destruct Htaken.
  - apply lookup_ge_None in E.
    rewrite !take_ge in Htaken by lia. rewrite take_ge in Hfree by lia.
    rewrite Hfree in Htaken. by destruct Htaken.
Qed.

Lemma next_after_free (r : gmap Z doc) (c : Z) : next_after r c → r !! c = None.
Proof.
  intros [[-> _]|(m & _ & Hmax & ->)]; [done|].
  destruct (r !! (m + 1)) eqn:E; [|done].
  specialize (Hmax (m + 1) ltac:(by rewrite E)). lia.
Qed.

(** The trace of a call that lost a turn and went on. *)
Lemma allocation_after_lost (w0 w3 : world) (e : doc) (cand : Z)
    (reads ops : list op) (r : res unit) (s' : sys) :
  let pre := reads ++ [RunsInsertOne (<["_id" := VInt cand]> e)] in
  log w3 = log w0 ++ pre →
  sched w3 = drop (length pre) (sched w0) →
  runs w3 = seen_after w0 (length pre) →
  faultless (take (length pre) (sched w0)) →
  Forall (λ o, is_read o = true) reads →
  reads ≠ [] →
  next_after (seen_after w0 (length reads)) cand →
  is_Some (seen_after w0 (length pre) !! cand) →
  allocation w3 (<["_id" := VInt cand]> e) ops r s' →
  allocation w0 e (pre ++ ops) r s'.
Proof.
  intros pre Hlog Hsched Hruns Hfl Hreads Hne Hnext Htaken
    (Hl & Hs & Ha & Hb & Hc).
  assert (length pre = S (length reads)) as Hlen
    by (unfold pre; rewrite length_app; simpl; lia).
  assert (sched w0 !! length reads = Some (Rival cand)) as Hrival.
  { apply taken_by_rival; [by apply next_after_free|by rewrite <- Hlen]. }
  assert (∀ n, seen_after w3 n = seen_after w0 (length pre + n)) as Hseen
    by (intros n; by apply seen_after_shift).
  assert (∀ i d, pre !! i = Some (RunsInsertOne d) →
            i = length reads ∧ d = <["_id" := VInt cand]> e) as Hpre.
  { intros i d Hi. unfold pre in Hi.
    apply lookup_app_Some in Hi as [Hi|[Hge Hi]].
    - rewrite Forall_forall in Hreads.
      by specialize (Hreads _ (list_elem_of_lookup_2 _ _ _ Hi)).
    - destruct (i - length reads)%nat as [|n] eqn:En; [|done].
      injection Hi as <-. split; [lia|done]. }
  split; [by rewrite Hl, Hlog, <- app_assoc|].
  split; [by rewrite Hs, Hsched, drop_drop, length_app|].
  split; [|split].
  - intros i d Hi. apply lookup_app_Some in Hi as [Hi|[Hge Hi]].
    + apply Hpre in Hi as [-> ->].
      destruct (length reads) as [|j] eqn:Ej; [by destruct reads|].
      destruct (lookup_lt_is_Some_2 reads j ltac:(lia)) as [o Ho].
      exists cand, j, o. split; [done|]. split; [done|].
      split; [done|]. split.
      * apply lookup_app_l_Some. unfold pre. by apply lookup_app_l_Some.
      * rewrite Forall_forall in Hreads.
        by apply Hreads, (list_elem_of_lookup_2 _ j).
    + destruct (Ha _ _ Hi) as (c & j & o & -> & Hn & Hj & Ho & Hr).
      exists c, (length pre + j)%nat, o.
      split; [by rewrite insert_insert_eq|].
      split; [rewrite Hseen in Hn; by replace i with (length pre + (i - length pre))%nat by lia|].
      split; [lia|]. split; [|done].
      by rewrite lookup_app_r, Nat.add_comm, Nat.add_sub by lia.
  - intros i d Hi Hlt. apply lookup_app_Some in Hi as [Hi|[Hge Hi]].
    + apply Hpre in Hi as [-> ->]. by exists cand.
    + destruct (Hb _ _ Hi) as (c & Hev & ->).
      { rewrite length_app in Hlt. lia. }
      exists c. split; [|by rewrite insert_insert_eq].
      rewrite Hsched, lookup_drop in Hev.
      by replace i with (length pre + (i - length pre))%nat by lia.
  - rewrite length_app. destruct r as [u|err].
    + destruct Hc as (Hf & z & earlier & Hops & Hfree & Hr & He).
      rewrite insert_insert_eq in Hops, He. rewrite delete_insert_eq in Hr.
      rewrite Hseen in Hfree, Hr.
      split; [apply faultless_shift; [done|by rewrite <- Hsched]|].
      subst ops. exists z, (pre ++ earlier). by rewrite app_assoc.
    + destruct Hc as (n & f & o & Hn & Ho & Hev & Hf & Hr & ->).
      exists (length pre + n)%nat, f, o.
      split; [lia|].
      split; [by rewrite lookup_app_r, Nat.add_comm, Nat.add_sub by lia|].
      split; [by rewrite Hsched, lookup_drop in Hev|].
      split; [apply faultless_shift; [done|by rewrite <- Hsched]|].
      by rewrite Hseen in Hr.
Qed.

Lemma seen_after_fails (w : world) (n : nat) (f : fault) :
  sched w !! n = Some (Fails f) → seen_after w (S n) = seen_after w n.
Proof.
  intros E. unfold seen_after. by rewrite (take_S_r _ _ _ E), rivals_app.
Qed.

(** Reads alone hold no attempt. *)
Lemma reads_hold_no_attempt (reads : list op) (i : nat) (d : doc) :
  Forall (λ o, is_read o = true) reads →
  reads !! i = Some (RunsInsertOne d) → False.
Proof.
  intros Hreads Hi. rewrite Forall_forall in Hreads.
  by specialize (Hreads _ (list_elem_of_lookup_2 _ _ _ Hi)).
Qed.

(** The attempts of a single turn: reads, then the insert of the
    candidate. *)
Lemma attempt_of_a_turn (w0 : world) (e : doc) (reads : list op) (cand : Z)
    (i : nat) (d : doc) :
  Forall (λ o, is_read o = true) reads →
  reads ≠ [] →
  (reads ++ [RunsInsertOne (<["_id" := VInt cand]> e)]) !! i
    = Some (RunsInsertOne d) →
  i = length reads
  ∧ d = <["_id" := VInt cand]> e
  ∧ ∃ j o, i = S j
           ∧ (reads ++ [RunsInsertOne (<["_id" := VInt cand]> e)]) !! j = Some o
           ∧ is_read o = true.
Proof.
  intros Hreads Hne Hi.
  apply lookup_app_Some in Hi as [Hi|[Hge Hi]].
  { by destruct (reads_hold_no_attempt _ _ _ Hreads Hi). }
  destruct (i - length reads)%nat as [|n] eqn:En; [|done].
  injection Hi as <-. assert (i = length reads) as -> by lia.
  split; [done|]. split; [done|].
  destruct (length reads) as [|j] eqn:Ej; [by destruct reads|].
  destruct (lookup_lt_is_Some_2 reads j ltac:(lia)) as [o Ho].
  exists j, o. split; [done|]. split; [by apply lookup_app_l_Some|].
  rewrite Forall_forall in Hreads.
  by apply Hreads, (list_elem_of_lookup_2 _ j).
Qed.

(** The loop of insert for an id to allocate, on any schedule shorter
    than the fuel, round trip by round trip. *)
Lemma insert_loop_trace (fuel : nat) (s : sys) (e : doc) :
  (length (sched (store s)) < fuel)%nat →
  run_entry (self s) = Some e →
  ∃ r s' ops,
    insert_loop fuel true s = (r, s') ∧ allocation (store s) e ops r s'.
Proof.
  revert s e. induction fuel as [|fuel IH]; intros s e Hlen He; [lia|].
  rewrite (insert_loop_autoinc_unfold fuel s e He).
  assert (∀ cand w2 reads,
            log w2 = log (store s) ++ reads →
            sched w2 = drop (length reads) (sched (store s)) →
            runs w2 = seen_after (store s) (length reads) →
            faultless (take (length reads) (sched (store s))) →
            Forall (λ o, is_read o = true) reads →
            reads ≠ [] →
            next_after (runs w2) cand →
            ∃ r s' ops,
              (let c := Client (<["_id" := VInt cand]> <$> overwrite (self s))
                               (Some (<["_id" := VInt cand]> e))
                               (priority (self s)) (failure_dir (self s)) in
               match runs_insert_one (<["_id" := VInt cand]> e) w2 with
               | (Ok _, w3) => (Ok tt, Sys c w3)
               | (Raise (PyMongo InvalidDocument), w3) =>
                   (Raise (NameError "ObserverError"), Sys c w3)
               | (Raise DuplicateKeyError, w3) => insert_loop fuel true (Sys c w3)
               | (Raise err, w3) => (Raise err, Sys c w3)
               end) = (r, s')
              ∧ allocation (store s) e ops r s') as Hstep.
  { intros cand w2 reads Hl2 Hs2 Hr2 Hf2 Hreads Hne Hnext. cbv zeta.
    set (d := <["_id" := VInt cand]> e).
    set (c := Client _ _ _ _).
    assert (∀ o : op, length (reads ++ [o]) = S (length reads)) as Hlen'
      by (intros o; rewrite length_app; simpl; lia).
    unfold runs_insert_one.
    destruct (tick (RunsInsertOne d) w2) as [[f|] w3] eqn:T3;
      apply tick_view in T3 as (Hs3 & Hr3 & Hl3 & Hx3).
    - assert (sched (store s) !! length reads = Some (Fails f)) as Hev.
      { rewrite Hs2, lookup_drop in Hx3. by rewrite Nat.add_0_r in Hx3. }
      exists (Raise (reaches_caller (RunsInsertOne d) f)), (Sys c w3),
             (reads ++ [RunsInsertOne d]).
      split; [by destruct f|].
      split; [simpl; by rewrite Hl3, Hl2, <- app_assoc|].
      split; [simpl; by rewrite Hs3, Hs2, drop_drop, Hlen', Nat.add_1_r|].
      split; [|split].
      + intros i d' Hi.
        destruct (attempt_of_a_turn (store s) e reads cand i d' Hreads Hne Hi)
          as (-> & -> & j & o & Hj & Ho & Hro).
        exists cand, j, o. by rewrite <- Hr2.
      + intros i d' Hi Hlt.
        destruct (attempt_of_a_turn (store s) e reads cand i d' Hreads Hne Hi)
          as (-> & _). rewrite Hlen' in Hlt. lia.
      + exists (length reads), f, (RunsInsertOne d).
        split; [done|]. split; [by apply list_lookup_middle|].
        split; [done|]. split; [done|]. split; [|done]. simpl.
        rewrite Hr3, (seen_after_shift (store s) w2 (length reads) 1 Hs2 Hr2).
        by rewrite Nat.add_1_r, (seen_after_fails _ _ _ Hev).
    - unfold d at 1. rewrite lookup_insert_eq.
      assert (runs w3 = seen_after (store s) (S (length reads))) as Hr3'.
      { rewrite Hr3, (seen_after_shift (store s) w2 (length reads) 1 Hs2 Hr2).
        by rewrite Nat.add_1_r. }
      assert (sched w3 = drop (S (length reads)) (sched (store s))) as Hs3'
        by (by rewrite Hs3, Hs2, drop_drop, Nat.add_1_r).
      assert (faultless (take (S (length reads)) (sched (store s)))) as Hf3.
      { rewrite <- Nat.add_1_r. apply faultless_shift; [done|by rewrite <- Hs2]. }
      destruct (runs w3 !! cand) as [taken|] eqn:Ecand.
      + destruct (IH (Sys c w3) d) as (r & s' & ops & E & Halloc); [|done|].
        { simpl. rewrite Hs3'.
          assert (sched (store s) !! length reads = Some (Rival cand)) as Hev.
          { apply taken_by_rival.
            - rewrite <- Hr2. by apply next_after_free.
            - by rewrite <- Hr3', Ecand. }
          apply lookup_lt_Some in Hev. rewrite length_drop. lia. }
        exists r, s', ((reads ++ [RunsInsertOne d]) ++ ops). split; [done|].
        apply (allocation_after_lost (store s) w3 e cand reads ops r s');
          rewrite ?Hlen'; try done.
        * by rewrite Hl3, Hl2, <- app_assoc.
        * by rewrite <- Hr2.
        * by rewrite <- Hr3', Ecand.
      + exists (Ok tt), (Sys c (set_runs (<[cand := delete "_id" d]> (runs w3)) w3)),
               (reads ++ [RunsInsertOne d]).
        split; [done|].
        split; [simpl; by rewrite Hl3, Hl2, <- app_assoc|].
        split; [simpl; by rewrite Hlen'|].
        split; [|split].
        * intros i d' Hi.
          destruct (attempt_of_a_turn (store s) e reads cand i d' Hreads Hne Hi)
            as (-> & -> & j & o & Hj & Ho & Hro).
          exists cand, j, o. by rewrite <- Hr2.
        * intros i d' Hi Hlt.
          destruct (attempt_of_a_turn (store s) e reads cand i d' Hreads Hne Hi)
            as (-> & _). rewrite Hlen' in Hlt. lia.
        * rewrite Hlen'. split; [done|].
          exists cand, reads. split; [done|].
          split; [by rewrite <- Hr3'|]. simpl.
          split; [|done]. unfold d. by rewrite delete_insert_eq, Hr3'. }
  unfold runs_count_documents.
  destruct (tick RunsCountDocuments (store s)) as [[f|] w1] eqn:T1;
    apply tick_view in T1 as (Hs1 & Hr1 & Hl1 & Hx1).
  { exists (Raise (PyMongo f)), (Sys (self s) w1), [RunsCountDocuments].
    split; [done|]. split; [done|]. split; [done|].
    split; [by intros [|[|i]] d|]. split; [by intros [|[|i]] d|].
    exists 0%nat, f, RunsCountDocuments.
    split; [done|]. split; [done|]. split; [done|].
    split; [constructor|]. split; [|done]. simpl.
    by rewrite Hr1, (seen_after_fails _ _ _ Hx1). }
  destruct (decide (runs w1 = ∅)) as [Hemp|Hnonempty]; simpl.
  - apply (Hstep 1 w1 [RunsCountDocuments]); try done.
    + by repeat constructor.
    + by left.
  - unfold runs_find_max.
    destruct (tick RunsFindMax w1) as [[f|] w2] eqn:T2;
      apply tick_view in T2 as (Hs2 & Hr2 & Hl2 & Hx2).
    { assert (sched (store s) !! 1%nat = Some (Fails f)) as Hev
        by (by rewrite Hs1, lookup_drop in Hx2).
      exists (Raise (PyMongo f)), (Sys (self s) w2),
             [RunsCountDocuments; RunsFindMax].
      split; [done|].
      split; [simpl; by rewrite Hl2, Hl1, <- app_assoc|].
      split; [simpl; by rewrite Hs2, Hs1, drop_drop|].
      split; [by intros [|[|[|i]]] d|]. split; [by intros [|[|[|i]]] d|].
      exists 1%nat, f, RunsFindMax.
      split; [done|]. split; [done|]. split; [done|].
      split; [done|]. split; [|done]. simpl.
      rewrite Hr2, (seen_after_shift (store s) w1 1 1 Hs1 Hr1). simpl.
      by rewrite (seen_after_fails _ _ _ Hev). }
    assert (runs w2 = seen_after (store s) 2) as Hr2'
      by (by rewrite Hr2, (seen_after_shift (store s) w1 1 1 Hs1 Hr1)).
    destruct (max_id_spec (runs w2)) as [Hnone Hsome].
    destruct (max_id (runs w2)) as [m|] eqn:Emax.
    + destruct (Hsome m eq_refl) as [Hm Hmax].
      apply (Hstep (m + 1) w2 [RunsCountDocuments; RunsFindMax]); try done.
      * by rewrite Hl2, Hl1, <- app_assoc.
      * by rewrite Hs2, Hs1, drop_drop.
      * apply (faultless_shift _ 1 1); [done|by rewrite <- Hs1].
      * by repeat constructor.
      * right. by exists m.
    + exfalso. destruct Hnone as [Hnone _]. specialize (Hnone eq_refl).
      apply Hnonempty. apply map_eq. intros k. rewrite lookup_empty.
      destruct (runs w1 !! k) as [d|] eqn:E; [|done].
      pose proof (rivals_keeps (take 1 (sched w1)) _ _ _ E) as Hk.
      fold (seen_after w1 1) in Hk. rewrite <- Hr2, Hnone in Hk.
      by rewrite lookup_empty in Hk.
Qed.

(** C1. With no overwrite target and no id in the entry, insert always
    ends, and the round trips it made (ops) tell what it did.  Every
    insert_one it issued, the first and each later one, comes right
    after a read of the collection and is keyed by the largest id plus
    one (by one for an empty collection) of the collection as that read
    found it: the runs stored at the call and those other writers had
    inserted by then.  An insert_one is followed by another turn only
    when another writer took its id at that very round trip, and the
    turn that follows reads the collection again before it inserts.  A
    return has met no failure and leaves the entry stored under the id
    of the last insert_one, which was free.  A raise comes from the
    first round trip that failed, which is the last one made: nothing is
    stored, and the failure reaches the caller as it is, except an
    InvalidDocument of insert_one, which reaches the caller as the
    NameError of the name ObserverError that mongo.py never defines. *)
Theorem C1_insert_takes_maximum_plus_one (s : sys) (e : doc) :
  overwrite (self s) = None →
  run_entry (self s) = Some e →
  is_none (e !! "_id") = true →
  ∃ r s' ops,
    insert s = (r, s')
    ∧ log (store s') = log (store s) ++ ops
    ∧ sched (store s') = drop (length ops) (sched (store s))
    ∧ (∀ i d, ops !! i = Some (RunsInsertOne d) →
         ∃ c j o,
           d = <["_id" := VInt c]> e
           ∧ next_after (seen_after (store s) i) c
           ∧ i = S j ∧ ops !! j = Some o ∧ is_read o = true)
    ∧ (∀ i d, ops !! i = Some (RunsInsertOne d) → (S i < length ops)%nat →
         ∃ c, sched (store s) !! i = Some (Rival c)
              ∧ d = <["_id" := VInt c]> e)
    ∧ match r with
      | Ok _ =>
          faultless (take (length ops) (sched (store s)))
          ∧ ∃ z earlier,
              ops = earlier ++ [RunsInsertOne (<["_id" := VInt z]> e)]
              ∧ seen_after (store s) (length ops) !! z = None
              ∧ runs (store s')
                = <[z := delete "_id" e]> (seen_after (store s) (length ops))
              ∧ run_entry (self s') = Some (<["_id" := VInt z]> e)
      | Raise err =>
          ∃ n f o,
            length ops = S n
            ∧ ops !! n = Some o
            ∧ sched (store s) !! n = Some (Fails f)
            ∧ faultless (take n (sched (store s)))
            ∧ runs (store s') = seen_after (store s) n
            ∧ err = reaches_caller o f
      end.
Proof.
  intros Hov He Hid.
  rewrite (insert_autoinc_unfold s e Hov He Hid).
  destruct (insert_loop_trace (S (length (sched (store s)))) s e
              (Nat.lt_succ_diag_r _) He) as (r & s' & ops & E & Halloc).
  exists r, s', ops. split; [exact E|exact Halloc].
Qed.

(* --------------------------------------------------------------------- *)
(* insert with an explicit id, and documents the store cannot encode     *)
(* --------------------------------------------------------------------- *)

Lemma insert_explicit_unfold (s : sys) (e : doc) :
  overwrite (self s) = None →
  run_entry (self s) = Some e →
  is_none (e !! "_id") = false →
  insert s =
    match runs_insert_one e (store s) with
    | (Ok _, w) => (Ok tt, Sys (self s) w)
    | (Raise (PyMongo InvalidDocument), w) =>
        (Raise (NameError "ObserverError"), Sys (self s) w)
    | (Raise err, w) => (Raise err, Sys (self s) w)
    end.
Proof.
  intros Hov He Hid. unfold insert.
  rewrite (bind_ok get_self _ s s (self s) eq_refl), Hov.
  rewrite (bind_ok _ _ _ _ _ (entry_ok s e He)), Hid.
  cbn [insert_loop].
  rewrite (bind_ok (ret tt) _ s s tt eq_refl).
  rewrite (bind_ok _ _ _ _ _ (entry_ok s e He)).
  unfold bind, try, on_store.
  destruct (runs_insert_one e (store s)) as [[u|err] w]; [done|].
  by destruct err as [[]| | | | | | | | | |].
Qed.

Section Unserializable.

Variable strptime : string → option Z.
Variable md5sum : string → string.
Variable re_digit : ascii → bool.

Lemma running_info_saving_no_code (run : run_record) (config : value)
    (s : sys) (a b h : Z) :
  strptime (start_time run) = Some a →
  strptime (stop_time run) = Some b →
  strptime (heartbeat run) = Some h →
  running_info_saving strptime md5sum run config None s
  = (Ok tt,
     Sys (Client
            ((λ e, <["experiment" := ex_value (experiment run) (VList [])]>
                     (running_info run config a b h ∪ e)) <$> overwrite (self s))
            ((λ e, <["experiment" := ex_value (experiment run) (VList [])]>
                     (running_info run config a b h ∪ e)) <$> run_entry (self s))
            (priority (self s)) (failure_dir (self s)))
         (store s)).
Proof.
  intros Ha Hb Hh. unfold running_info_saving, py_strptime.
  rewrite Ha, Hb, Hh.
  do 3 (erewrite (bind_ok (ret _)); [|reflexivity]).
  erewrite (bind_ok (mutate_entry _)); [|reflexivity].
  unfold mutate_entry. simpl_state. by rewrite <- !option_fmap_compose.
Qed.

(** C3. What the code does when the store rejects the run document as
    unencodable, at the initial insert_one or at the update_one of the
    first follow-up save: finished_event raises, but the error that
    reaches the caller is the NameError of the name ObserverError, which
    mongo.py neither defines nor imports, not an error that tells of an
    unserializable entry. *)
Theorem C3_unencodable_document_raises_NameError
    (run : run_record) (cout : string) (config : value)
    (metrics : option (list (string * batch))) (z : Z) (s : sys)
    (a b h : Z) (rest : list event) :
  overwrite (self s) = None →
  strptime (start_time run) = Some a →
  strptime (stop_time run) = Some b →
  strptime (heartbeat run) = Some h →
  sched (store s) = Fails InvalidDocument :: rest
  ∨ (sched (store s) = Quiet :: Fails InvalidDocument :: rest
     ∧ runs (store s) !! z = None) →
  fst (finished_event strptime md5sum re_digit run cout config metrics None
         (Some z) s)
  = Raise (NameError "ObserverError").
Proof.
  intros Hov Ha Hb Hh Hsched. unfold finished_event.
  erewrite (bind_ok (bind_run_entry _));
    [|unfold bind_run_entry, bind, get_self; by rewrite Hov].
  rewrite (bind_ok _ _ _ _ _
             (running_info_saving_no_code run config _ a b h Ha Hb Hh)).
  cbn [self store overwrite run_entry priority failure_dir fmap option_fmap option_map].
  set (e := <["experiment" := ex_value (experiment run) (VList [])]>
              (running_info run config a b h ∪ {["_id" := id_value (Some z)]})).
  assert (e !! "_id" = Some (VInt z)) as Hid.
  { unfold e. rewrite lookup_insert_ne by done.
    rewrite lookup_union_r by apply running_info_no_id.
    by rewrite lookup_singleton_eq. }
  set (c := Client None (Some e) (priority (self s)) (failure_dir (self s))).
  pose proof (insert_explicit_unfold (Sys c (store s)) e eq_refl eq_refl
                ltac:(by rewrite Hid)) as Hins.
  cbn [self store] in Hins. unfold runs_insert_one, tick, record_op in Hins.
  cbn [sched runs fs next_oid log] in Hins.
  destruct Hsched as [Hs|[Hs Hfree]]; rewrite Hs in Hins.
  - by rewrite (bind_raise _ _ _ _ _ Hins).
  - rewrite Hid in Hins. cbn [runs] in Hins. rewrite Hfree in Hins.
    rewrite (bind_ok _ _ _ _ _ Hins).
    match type of Hins with _ = (_, ?st) => set (s3 := st) end.
    pose proof (save_unfold
                  {["captured_out" := VStr (sub_first re_digit (marker z) cout)]}
                  e (VInt z) s3 eq_refl Hid) as Hsave.
    unfold runs_update_one, tick, record_op in Hsave.
    cbn [sched runs fs next_oid log store s3 set_runs] in Hsave.
    erewrite (bind_raise (insert_captured_output _ _)); [done|].
    unfold insert_captured_output.
    rewrite (bind_ok _ _ _ _ _ (entry_id_ok s3 e z eq_refl Hid)).
    by rewrite (bind_raise _ _ _ _ _ Hsave).
Qed.

End Unserializable.

(* --------------------------------------------------------------------- *)
(* The registry of metrics                                               *)
(* --------------------------------------------------------------------- *)

Lemma push_first_refs (z : Z) (k : string) (b : batch)
    (coll coll1 : list metric_doc) :
  push_first z k b coll = Some coll1 →
  ∀ z' k', metric_ref z' k' coll1 = metric_ref z' k' coll.
Proof.
  revert coll1. induction coll as [|x coll IH]; intros coll1; simpl; [done|].
  destruct (metric_matches z k x) eqn:E.
  - intros [= <-] z' k'. unfold metric_ref. simpl.
    replace (metric_matches z' k' (push_each b x)) with (metric_matches z' k' x)
      by done.
    by destruct (metric_matches z' k' x).
  - destruct (push_first z k b coll) as [coll'|]; [|done].
    intros [= <-] z' k'. unfold metric_ref in *. simpl.
    destruct (metric_matches z' k' x); [done|]. by apply IH.
Qed.

Lemma metric_matches_eq (z : Z) (k : string) (m : metric_doc) :
  metric_matches z k m = true ↔ m_run_id m = z ∧ m_name m = k.
Proof.
  unfold metric_matches. by rewrite andb_true_iff, Z.eqb_eq, String.eqb_eq.
Qed.

(** What an upsert that returns does to the references. *)
Lemma metrics_update_one_refs (z : Z) (k : string) (b : batch) (w w' : world)
    (up : option N) :
  metrics_update_one z k b w = (Ok up, w') →
  (∀ z0 k' o, metric_ref z0 k' (metrics w) = Some o →
              metric_ref z0 k' (metrics w') = Some o)
  ∧ (∀ k', k' ≠ k → metric_ref z k' (metrics w) = None →
           metric_ref z k' (metrics w') = None)
  ∧ match up with
    | Some o =>
        metric_ref z k (metrics w) = None ∧ metric_ref z k (metrics w') = Some o
    | None => is_Some (metric_ref z k (metrics w))
    end.
Proof.
  unfold metrics_update_one.
  destruct (tick_metrics (MetricsUpdateOne z k b) w) as (Hm & _ & _).
  destruct (tick _ w) as [[f|] w1]; [done|]. simpl in Hm. rewrite <- Hm.
  destruct (push_first z k b (metrics w1)) as [coll1|] eqn:E.
  - intros [= <- <-]. simpl.
    pose proof (push_first_refs _ _ _ _ _ E) as Hrefs.
    split; [|split].
    + intros z0 k' o. by rewrite Hrefs.
    + intros k' _. by rewrite Hrefs.
    + unfold metric_ref.
      destruct (List.find (metric_matches z k) (metrics w1)) eqn:F; [done|].
      by rewrite (push_first_absent _ _ _ _ F) in E.
  - intros [= <- <-]. simpl.
    assert (List.find (metric_matches z k) (metrics w1) = None) as Habs.
    { destruct (List.find _ _) eqn:F; [|done].
      destruct (push_first_found z k b _ _ F) as (? & E' & _). congruence. }
    split; [|split].
    + intros z0 k' o. unfold metric_ref.
      destruct (List.find (metric_matches z0 k') (metrics w1)) eqn:F; [|done].
      by rewrite (find_app_found _ _ _ _ F).
    + intros k' Hne. unfold metric_ref.
      destruct (List.find (metric_matches z k') (metrics w1)) eqn:F; [done|].
      intros _. rewrite find_app_none; [done|done|].
      destruct (metric_matches z k' _) eqn:G; [|done].
      apply metric_matches_eq in G as [_ G]. simpl in G. congruence.
    + split; [unfold metric_ref; by rewrite Habs|].
      unfold metric_ref. rewrite (find_app_absent _ _ _ Habs); [done|].
      apply metric_matches_refl.
Qed.

Lemma ref_stable_log_metrics (z0 z : Z) (k : string) (o : N)
    (ms : list (string * batch)) (reg : list value) :
  respects (ref_stable z0 k o) (log_metrics z ms reg).
Proof.
  apply respects_log_metrics.
  - by intros s H.
  - unfold ref_stable. auto.
  - intros z' k' b s r s'. rewrite on_store_run. intros [= Hr <-] Href.
    simpl. destruct (metrics_update_one z' k' b (store s)) as [[up|e] w'] eqn:E.
    + by apply (metrics_update_one_refs _ _ _ _ _ _ E).
    + unfold metrics_update_one in E.
      destruct (tick_metrics (MetricsUpdateOne z' k' b) (store s)) as (Hm & _ & _).
      destruct (tick _ (store s)) as [[f|] w1]; simpl in Hm.
      * injection E as _ <-. simpl. by rewrite Hm.
      * by destruct (push_first _ _ _ _).
Qed.

Lemma created_same (z : Z) (coll coll1 : list metric_doc) (keys : list string) :
  (∀ k, k ∈ keys →
     (metric_ref z k coll = None ↔ metric_ref z k coll1 = None)) →
  created z coll1 keys = created z coll keys.
Proof.
  induction keys as [|k keys IH]; intros H; simpl; [done|].
  rewrite IH by (intros k' Hk'; apply H; by right).
  specialize (H k ltac:(by left)).
  destruct (metric_ref z k coll), (metric_ref z k coll1); try done.
  - destruct H as [_ H]. by specialize (H eq_refl).
  - destruct H as [H _]. by specialize (H eq_refl).
Qed.

(** The list the loop over the metrics returns: one entry, in order, for
    each name whose upsert created the document. *)
Lemma log_metrics_registry (z : Z) (ms : list (string * batch))
    (acc reg : list value) (s s' : sys) :
  NoDup (map fst ms) →
  log_metrics z ms acc s = (Ok reg, s') →
  ∃ new,
    reg = acc ++ new
    ∧ registers z (metrics (store s'))
        (created z (metrics (store s)) (map fst ms)) new.
Proof.
  revert acc s. induction ms as [|[k b] ms IH]; intros acc s Hnd H.
  - injection H as <- <-. exists []. rewrite app_nil_r. split; [done|constructor].
  - simpl in H. apply bind_inv_ok in H as (up & s1 & H1 & H2).
    rewrite on_store_run in H1. injection H1 as H1 <-.
    destruct (metrics_update_one z k b (store s)) as [r w1] eqn:E.
    simpl in H1. subst r.
    destruct (metrics_update_one_refs _ _ _ _ _ _ E) as (Hst & Hno & Hup).
    apply NoDup_cons in Hnd as [Hk Hnd].
    destruct (IH _ _ Hnd H2) as (new & -> & Hreg). simpl in Hreg.
    assert (created z w1.(metrics) (map fst ms)
            = created z (metrics (store s)) (map fst ms)) as Hcr.
    { apply created_same. intros k' Hk'. split.
      - apply Hno. intros ->. done.
      - intros Hn. destruct (metric_ref z k' (metrics (store s))) eqn:F; [|done].
        by rewrite (Hst _ _ _ F) in Hn. }
    rewrite Hcr in Hreg. simpl.
    destruct up as [o|].
    + destruct Hup as [Hnone Hsome]. rewrite Hnone.
      exists (entry_of k o :: new). rewrite <- app_assoc. split; [done|].
      constructor; [|done]. exists o. split; [|done].
      by apply (ref_stable_log_metrics z z k o _ _ _ _ _ H2).
    + destruct Hup as [o Ho]. rewrite Ho. by exists new.
Qed.

Ltac idle_op :=
  apply respects_on_store_world; intros s Hq; simpl;
  match goal with
  | |- context [tick ?o (store s)] => rewrite (tick_idle o (store s) Hq)
  | _ => idtac
  end;
  simpl; repeat case_match; simpl; done.

Lemma stays_idle_count : respects stays_idle (on_store runs_count_documents).
Proof. unfold runs_count_documents. idle_op. Qed.

Lemma stays_idle_find_max : respects stays_idle (on_store runs_find_max).
Proof. unfold runs_find_max. idle_op. Qed.

Lemma stays_idle_insert_one (d : doc) :
  respects stays_idle (on_store (runs_insert_one d)).
Proof. unfold runs_insert_one. idle_op. Qed.

Lemma stays_idle_update_one (idv : value) (set : doc) :
  respects stays_idle (on_store (runs_update_one idv set)).
Proof. unfold runs_update_one. idle_op. Qed.

Lemma stays_idle_metrics (z : Z) (k : string) (b : batch) :
  respects stays_idle (on_store (metrics_update_one z k b)).
Proof. unfold metrics_update_one. idle_op. Qed.

Lemma stays_idle_fs_find (p h : string) :
  respects stays_idle (on_store (fs_find_one p h)).
Proof. unfold fs_find_one. idle_op. Qed.

Lemma stays_idle_fs_put (md5sum : string → string) (p data : string) :
  respects stays_idle (on_store (fs_put md5sum p data)).
Proof. unfold fs_put. idle_op. Qed.

Lemma stays_idle_open (dir : snapshot) (n : string) :
  respects stays_idle (on_store (open_rb dir n)).
Proof. unfold open_rb. idle_op. Qed.

Lemma stays_idle_mutate (f : doc → doc) : respects stays_idle (mutate_entry f).
Proof. intros s r s' [= _ <-] Hq. exact Hq. Qed.

Ltac metrics_op :=
  apply respects_on_store_world; intros s; unfold keeps_metrics; simpl;
  match goal with
  | |- context [tick ?o (store s)] =>
      destruct (tick_metrics o (store s)) as (? & _ & _);
      destruct (tick o (store s)) as [[?|] ?]
  | _ => idtac
  end;
  simpl in *; repeat case_match; simpl; done.

Lemma keeps_metrics_count : respects keeps_metrics (on_store runs_count_documents).
Proof. unfold runs_count_documents. metrics_op. Qed.

Lemma keeps_metrics_find_max : respects keeps_metrics (on_store runs_find_max).
Proof. unfold runs_find_max. metrics_op. Qed.

Lemma keeps_metrics_insert_one (d : doc) :
  respects keeps_metrics (on_store (runs_insert_one d)).
Proof. unfold runs_insert_one. metrics_op. Qed.

Lemma keeps_metrics_update_one (idv : value) (set : doc) :
  respects keeps_metrics (on_store (runs_update_one idv set)).
Proof. unfold runs_update_one. metrics_op. Qed.

Lemma keeps_metrics_fs_find (p h : string) :
  respects keeps_metrics (on_store (fs_find_one p h)).
Proof. unfold fs_find_one. metrics_op. Qed.

Lemma keeps_metrics_fs_put (md5sum : string → string) (p data : string) :
  respects keeps_metrics (on_store (fs_put md5sum p data)).
Proof. unfold fs_put. metrics_op. Qed.

Lemma keeps_metrics_open (dir : snapshot) (n : string) :
  respects keeps_metrics (on_store (open_rb dir n)).
Proof. unfold open_rb. metrics_op. Qed.

Lemma keeps_metrics_mutate (f : doc → doc) :
  respects keeps_metrics (mutate_entry f).
Proof. by intros s r s' [= _ <-]. Qed.

Lemma stays_idle_trans (s1 s2 s3 : sys) :
  stays_idle s1 s2 → stays_idle s2 s3 → stays_idle s1 s3.
Proof. unfold stays_idle. auto. Qed.

Lemma keeps_metrics_trans (s1 s2 s3 : sys) :
  keeps_metrics s1 s2 → keeps_metrics s2 s3 → keeps_metrics s1 s3.
Proof. unfold keeps_metrics. congruence. Qed.

Lemma entry_id_inv (s s' : sys) (z : Z) :
  entry_id s = (Ok z, s') →
  s' = s ∧ ∃ e, run_entry (self s) = Some e ∧ e !! "_id" = Some (VInt z).
Proof.
  unfold entry_id, entry, bind, get_self.
  destruct (run_entry (self s)) as [e|]; [|done]. simpl.
  destruct (e !! "_id") as [[]|] eqn:E; try done.
  intros [= <- <-]. split; [done|]. by exists e.
Qed.

Lemma keeps_self_save (nd : doc) : respects keeps_self (save nd).
Proof.
  apply respects_save; try (intros; apply keeps_self_store).
  - by intros s.
  - unfold keeps_self. intros s1 s2 s3. congruence.
Qed.

Ltac keeps_run_op :=
  apply respects_on_store_world; intros s [? Hd]; simpl;
  match goal with
  | |- context [tick ?o (store s)] =>
      let T := fresh "T" in
      destruct (tick o (store s)) as [[?|] ?] eqn:T;
      apply tick_spec in T as (? & _ & Hk & _ & _);
      specialize (Hk _ _ Hd)
  | _ => idtac
  end;
  simpl in *; repeat case_match; simpl; eauto.

Lemma keeps_run_count (z : Z) :
  respects (keeps_run z) (on_store runs_count_documents).
Proof. unfold runs_count_documents. keeps_run_op. Qed.

Lemma keeps_run_find_max (z : Z) :
  respects (keeps_run z) (on_store runs_find_max).
Proof. unfold runs_find_max. keeps_run_op. Qed.

Lemma keeps_run_insert_one (z : Z) (d : doc) :
  respects (keeps_run z) (on_store (runs_insert_one d)).
Proof.
  unfold runs_insert_one. keeps_run_op.
  destruct (decide (z0 = z)) as [->|]; [by rewrite lookup_insert_eq|].
  rewrite lookup_insert_ne by done. eauto.
Qed.

Lemma keeps_run_update_one (z : Z) (idv : value) (set : doc) :
  respects (keeps_run z) (on_store (runs_update_one idv set)).
Proof.
  unfold runs_update_one. keeps_run_op.
  destruct (decide (z0 = z)) as [->|]; [by rewrite lookup_insert_eq|].
  rewrite lookup_insert_ne by done. eauto.
Qed.

Lemma keeps_run_metrics (z z' : Z) (k : string) (b : batch) :
  respects (keeps_run z) (on_store (metrics_update_one z' k b)).
Proof. unfold metrics_update_one. keeps_run_op. Qed.

Lemma keeps_run_fs_find (z : Z) (p h : string) :
  respects (keeps_run z) (on_store (fs_find_one p h)).
Proof. unfold fs_find_one. keeps_run_op. Qed.

Lemma keeps_run_fs_put (md5sum : string → string) (z : Z) (p data : string) :
  respects (keeps_run z) (on_store (fs_put md5sum p data)).
Proof. unfold fs_put. keeps_run_op. Qed.

Lemma keeps_run_open (z : Z) (dir : snapshot) (n : string) :
  respects (keeps_run z) (on_store (open_rb dir n)).
Proof. unfold open_rb. keeps_run_op. Qed.

Lemma keeps_run_mutate (z : Z) (f : doc → doc) :
  respects (keeps_run z) (mutate_entry f).
Proof. intros s r s' [= _ <-] H. exact H. Qed.

Lemma keeps_run_trans (z : Z) (s1 s2 s3 : sys) :
  keeps_run z s1 s2 → keeps_run z s2 s3 → keeps_run z s1 s3.
Proof. unfold keeps_run. auto. Qed.

Lemma stays_idle_refl (s : sys) : stays_idle s s.
Proof. by intros H. Qed.

Lemma keeps_metrics_refl (s : sys) : keeps_metrics s s.
Proof. done. Qed.

Lemma keeps_run_refl (z : Z) (s : sys) : keeps_run z s s.
Proof. by intros H. Qed.

Section Registry.

Variable strptime : string → option Z.
Variable md5sum : string → string.
Variable re_digit : ascii → bool.

Lemma stays_idle_until_metrics (run : run_record) (cout : string)
    (config : value) (dir : option snapshot) (s1 s2 s3 s4 : sys)
    (u2 u3 : res unit) (r4 : res Z) :
  running_info_saving strptime md5sum run config dir s1 = (u2, s2) →
  insert s2 = (u3, s3) →
  insert_captured_output re_digit cout s3 = (r4, s4) →
  stays_idle s1 s4 ∧ keeps_metrics s1 s4 ∧ ∀ z, keeps_run z s1 s4.
Proof.
  intros H2 H3 H4. split; [|split; [|intros z]].
  - eapply stays_idle_trans; [|eapply stays_idle_trans].
    + eapply (respects_running_info_saving stays_idle); [..|exact H2];
        first [exact stays_idle_refl | exact stays_idle_trans | exact stays_idle_mutate
              | exact stays_idle_fs_find | exact stays_idle_open
              | exact (stays_idle_fs_put md5sum)].
    + eapply (respects_insert stays_idle); [..|exact H3];
        first [exact stays_idle_refl | exact stays_idle_trans | exact stays_idle_mutate
              | exact stays_idle_count | exact stays_idle_find_max
              | exact stays_idle_insert_one | exact stays_idle_update_one].
    + eapply (respects_insert_captured_output stays_idle); [..|exact H4];
        first [exact stays_idle_refl | exact stays_idle_trans
              | exact stays_idle_update_one].
  - eapply keeps_metrics_trans; [|eapply keeps_metrics_trans].
    + eapply (respects_running_info_saving keeps_metrics); [..|exact H2];
        first [exact keeps_metrics_refl | exact keeps_metrics_trans
              | exact keeps_metrics_mutate | exact keeps_metrics_fs_find
              | exact keeps_metrics_open | exact (keeps_metrics_fs_put md5sum)].
    + eapply (respects_insert keeps_metrics); [..|exact H3];
        first [exact keeps_metrics_refl | exact keeps_metrics_trans
              | exact keeps_metrics_mutate | exact keeps_metrics_count
              | exact keeps_metrics_find_max | exact keeps_metrics_insert_one
              | exact keeps_metrics_update_one].
    + eapply (respects_insert_captured_output keeps_metrics); [..|exact H4];
        first [exact keeps_metrics_refl | exact keeps_metrics_trans
              | exact keeps_metrics_update_one].
  - eapply keeps_run_trans; [|eapply keeps_run_trans].
    + eapply (respects_running_info_saving (keeps_run z)); [..|exact H2];
        first [exact (keeps_run_refl z) | exact (keeps_run_trans z)
              | exact (keeps_run_mutate z) | exact (keeps_run_fs_find z)
              | exact (keeps_run_open z) | exact (keeps_run_fs_put md5sum z)].
    + eapply (respects_insert (keeps_run z)); [..|exact H3];
        first [exact (keeps_run_refl z) | exact (keeps_run_trans z)
              | exact (keeps_run_mutate z) | exact (keeps_run_count z)
              | exact (keeps_run_find_max z) | exact (keeps_run_insert_one z)
              | exact (keeps_run_update_one z)].
    + eapply (respects_insert_captured_output (keeps_run z)); [..|exact H4];
        first [exact (keeps_run_refl z) | exact (keeps_run_trans z)
              | exact (keeps_run_update_one z)].
Qed.

(** After a finish that returned, the run it returned is stored when
    the client had no overwrite target to begin with, or when the run
    was stored before. *)
Lemma finished_run_is_stored (run : run_record) (config : value)
    (dir : option snapshot) (_id : option Z) (s s1 s2 s3 : sys) (e : doc) (z : Z) :
  bind_run_entry _id s = (Ok tt, s1) →
  running_info_saving strptime md5sum run config dir s1 = (Ok tt, s2) →
  insert s2 = (Ok tt, s3) →
  run_entry (self s3) = Some e →
  e !! "_id" = Some (VInt z) →
  overwrite (self s) = None →
  is_Some (runs (store s3) !! z).
Proof.
  intros H1 H2 H3 He Hid Hov.
  destruct (finished_event_reaches_insert strptime md5sum run config dir _id s s2 Hov)
    as (Hov2 & e2 & He2 & Hid2).
  { by rewrite (bind_ok _ _ _ _ _ H1). }
  destruct _id as [z0|]; simpl in Hid2.
  - rewrite (insert_explicit_unfold s2 e2 Hov2 He2) in H3 by (by rewrite Hid2).
    unfold runs_insert_one in H3.
    destruct (tick _ (store s2)) as [[f|] w] eqn:T; [by destruct f|].
    rewrite Hid2 in H3.
    destruct (runs w !! z0) eqn:E; [done|].
    injection H3 as <-. simpl in *.
    assert (z = z0) as -> by congruence.
    by rewrite lookup_insert_eq.
  - rewrite (insert_autoinc_unfold s2 e2 Hov2 He2) in H3
      by (by rewrite Hid2).
    destruct (insert_loop_allocates _ s2 e2 (Nat.lt_succ_diag_r _) He2)
      as (r & s' & pre & E & _ & Hout).
    rewrite H3 in E. injection E as <- <-.
    destruct Hout as (_ & z1 & seen & _ & _ & _ & _ & He3 & Hst).
    assert (z = z1) as ->.
    { rewrite He3 in He. injection He as <-.
      rewrite lookup_insert_eq in Hid. congruence. }
    by rewrite Hst.
Qed.

(** C2 as the code has it. A finish with a non-empty metrics mapping, on
    an idle schedule, leaves as info of the stored run a registry made
    for this call: one entry, name and reference of the new document,
    for each metric whose upsert created its document, in the order of
    the mapping, and none for a metric whose upsert appended.  It
    replaces the info stored before; entries of earlier calls are not
    kept.  The update that sets info to this registry is the last round
    trip of the call, and it is made whether or not a document was
    created: with no new document it sets info to the empty dict. *)
Theorem C2_registry_lists_the_metrics_created_by_this_call
    (run : run_record) (cout : string) (config : value)
    (m : string * batch) (ms : list (string * batch))
    (dir : option snapshot) (_id : option Z) (s s' : sys) (z : Z) :
  sched (store s) = [] →
  NoDup (map fst (m :: ms)) →
  finished_event strptime md5sum re_digit run cout config (Some (m :: ms))
    dir _id s = (Ok z, s') →
  ∃ registry,
    registers z (metrics (store s'))
      (created z (metrics (store s)) (map fst (m :: ms))) registry
    ∧ (∀ d, runs (store s') !! z = Some d →
            d !! "info" = Some (info_value registry))
    ∧ (overwrite (self s) = None ∨ is_Some (runs (store s) !! z) →
       is_Some (runs (store s') !! z))
    ∧ ∃ earlier,
        log (store s')
        = log (store s) ++ earlier
            ++ [RunsUpdateOne (VInt z) {["info" := info_value registry]}].
Proof.
  intros Hq Hnd H. unfold finished_event in H.
  apply bind_inv_ok in H as ([] & s1 & H1 & H).
  apply bind_inv_ok in H as ([] & s2 & H2 & H).
  apply bind_inv_ok in H as ([] & s3 & H3 & H).
  apply bind_inv_ok in H as (z' & s4 & H4 & H).
  apply bind_inv_ok in H as ([] & s5 & H5 & H).
  injection H as -> <-.
  pose proof (bind_run_entry_store _ _ _ _ H1) as Hst1.
  destruct (stays_idle_until_metrics run cout config dir _ _ _ _ _ _ _ H2 H3 H4)
    as (Hidle & Hmet & Hrun).
  assert (sched (store s4) = []) as Hq4 by (apply Hidle; by rewrite Hst1).
  assert (metrics (store s4) = metrics (store s)) as Hm4
    by (by rewrite Hmet, Hst1).
  pose proof H4 as H4'. unfold insert_captured_output in H4'.
  apply bind_inv_ok in H4' as (z0 & s3' & E & H4').
  apply entry_id_inv in E as (-> & e & He & Hid).
  apply bind_inv_ok in H4' as ([] & s4' & Hsv & Hret).
  injection Hret as -> ->.
  pose proof (keeps_self_save _ _ _ _ Hsv) as Hself4. unfold keeps_self in Hself4.
  unfold insert_metrics in H5.
  apply bind_inv_ok in H5 as (reg & s4m & Hlog & Hsave).
  destruct (calm_log_metrics _ _ _ _ _ _ Hlog Hq4) as (Hqm & Hrm & Hsm).
  destruct (log_metrics_registry _ _ _ _ _ _ Hnd Hlog) as (new & -> & Hreg).
  rewrite app_nil_l in *. rewrite Hm4 in Hreg.
  assert (run_entry (self s4m) = Some e) as Hem by (by rewrite Hsm, Hself4).
  assert (dict_truthy ({["info" := info_value new]} : doc) = true) as Htr
    by (apply (dict_truthy_lookup _ "info" (info_value new)), lookup_singleton_eq).
  assert (emits (λ _, True) s s4m) as (earlier & Hearlier & _).
  { pose proof (emits_trans (λ _ : op, True)) as Htrans.
    eapply Htrans; [by eapply emits_bind_run_entry|].
    eapply Htrans; [|eapply Htrans; [|eapply Htrans]].
    - eapply (respects_running_info_saving (emits (λ _, True))); [..|exact H2];
        first [ exact (emits_refl _) | exact Htrans | exact (emits_mutate _)
              | intros; by apply (emits_store _ _ _ (fs_find_one_log _ _))
              | intros; by apply (emits_store _ _ _ (open_rb_log _ _))
              | intros; by apply (emits_store _ _ _ (fs_put_log _ _ _)) ].
    - eapply (respects_insert (emits (λ _, True))); [..|exact H3];
        first [ exact (emits_refl _) | exact Htrans | exact (emits_mutate _)
              | by apply (emits_store _ _ _ runs_count_documents_log)
              | by apply (emits_store _ _ _ runs_find_max_log)
              | intros; by apply (emits_store _ _ _ (runs_insert_one_log _))
              | intros; by apply (emits_store _ _ _ (runs_update_one_log _ _)) ].
    - eapply (respects_insert_captured_output (emits (λ _, True))); [..|exact H4];
        first [ exact (emits_refl _) | exact Htrans
              | intros; by apply (emits_store _ _ _ (runs_update_one_log _ _)) ].
    - eapply (respects_log_metrics (emits (λ _, True))); [..|exact Hlog];
        first [ exact (emits_refl _) | exact Htrans
              | intros; by apply (emits_store _ _ _ (metrics_update_one_log _ _ _)) ]. }
  exists new.
  destruct (runs (store s4m) !! z) as [old|] eqn:Eold.
  - rewrite (save_idle _ e old z s4m Hqm Hem Hid Eold) in Hsave;
      [|rewrite Htr; by apply changes_id_without].
    rewrite Htr in Hsave. injection Hsave as <-. simpl.
    split; [done|]. split; [|split].
    + rewrite lookup_insert_eq. intros d [= <-].
      apply lookup_union_Some_l.
      rewrite lookup_delete_ne by done. apply lookup_singleton_eq.
    + intros _. by rewrite lookup_insert_eq.
    + exists earlier. by rewrite Hearlier, <- app_assoc.
  - rewrite (save_idle_missing _ e z s4m Hqm Hem Hid Eold) in Hsave.
    injection Hsave as <-. simpl.
    split; [done|]. split; [by rewrite Eold|].
    split; [|exists earlier; by rewrite Htr, Hearlier, <- app_assoc].
    intros Hex. exfalso.
    assert (is_Some (runs (store s4) !! z)) as Hhas.
    { destruct Hex as [Hov|Hhas].
      - apply (keeps_run_trans z s3 s3 s4); [apply keeps_run_refl| |].
        + eapply (respects_insert_captured_output (keeps_run z)); [..|exact H4];
            first [exact (keeps_run_refl z) | exact (keeps_run_trans z)
                  | exact (keeps_run_update_one z)].
        + by eapply (finished_run_is_stored run config dir _id s s1 s2 s3 e z).
      - apply (Hrun z). by rewrite Hst1. }
    rewrite <- Hrm, Eold in Hhas. by destruct Hhas.
Qed.

End Registry.

(* --------------------------------------------------------------------- *)
(* The captured output                                                   *)
(* --------------------------------------------------------------------- *)

Section CapturedOutput.

Variable strptime : string → option Z.
Variable md5sum : string → string.
Variable re_digit : ascii → bool.

(** A finish that returns z has sent the captured output, rewritten for
    z, as the $set of an update of run z. *)
Lemma captured_output_is_saved_rewritten (run : run_record) (cout : string)
    (config : value) (metrics : option (list (string * batch)))
    (dir : option snapshot) (_id : option Z) (s s' : sys) (z : Z) :
  finished_event strptime md5sum re_digit run cout config metrics dir _id s
    = (Ok z, s') →
  RunsUpdateOne (VInt z)
    {["captured_out" := VStr (sub_first re_digit (marker z) cout)]}
  ∈ log (store s').
Proof.
  intros H. unfold finished_event in H.
  apply bind_inv_ok in H as ([] & s1 & _ & H).
  apply bind_inv_ok in H as ([] & s2 & _ & H).
  apply bind_inv_ok in H as ([] & s3 & _ & H).
  apply bind_inv_ok in H as (z' & s4 & H4 & H).
  apply bind_inv_ok in H as ([] & s5 & H5 & H).
  injection H as -> <-.
  unfold insert_captured_output in H4.
  apply bind_inv_ok in H4 as (z0 & s3' & E & H4).
  apply entry_id_inv in E as (-> & e & He & Hid).
  apply bind_inv_ok in H4 as ([] & s4' & Hsv & Hret).
  injection Hret as -> ->.
  pose proof (save_log {["captured_out" := VStr (sub_first re_digit (marker z) cout)]}
                e (VInt z) s3 He Hid) as Hlog.
  rewrite Hsv in Hlog. simpl_state in Hlog.
  rewrite (dict_truthy_lookup _ "captured_out" _ (lookup_singleton_eq _ _)) in Hlog.
  assert (emits (λ _, True) s4 s5) as (l & Hl & _).
  { eapply (respects_insert_metrics (emits (λ _, True))); [..|exact H5];
      first [ exact (emits_refl _) | exact (emits_trans _)
            | intros; by apply (emits_store _ _ _ (runs_update_one_log _ _))
            | intros; by apply (emits_store _ _ _ (metrics_update_one_log _ _ _)) ]. }
  rewrite Hl, Hlog. apply elem_of_app. left. apply elem_of_app. right. by left.
Qed.


End CapturedOutput.

(* --------------------------------------------------------------------- *)
(* The merge of the metric batches                                       *)
(* --------------------------------------------------------------------- *)

Lemma push_first_others (z : Z) (k : string) (b : batch)
    (coll coll1 : list metric_doc) (z' : Z) (k' : string) :
  push_first z k b coll = Some coll1 →
  (z', k') ≠ (z, k) →
  List.find (metric_matches z' k') coll1 = List.find (metric_matches z' k') coll.
Proof.
  intros H Hne. revert coll1 H.
  induction coll as [|x coll IH]; intros coll1; simpl; [done|].
  destruct (metric_matches z k x) eqn:E.
  - intros [= <-]. simpl.
    replace (metric_matches z' k' (push_each b x)) with (metric_matches z' k' x)
      by done.
    destruct (metric_matches z' k' x) eqn:F; [|done].
    apply metric_matches_eq in E as [<- <-].
    apply metric_matches_eq in F as [<- <-]. done.
  - destruct (push_first z k b coll) as [coll'|]; [|done].
    intros [= <-]. simpl.
    destruct (metric_matches z' k' x); [done|]. by apply IH.
Qed.

(** What an upsert that returns does to the metrics collection. *)
Lemma metrics_update_one_merges (z : Z) (k : string) (b : batch) (w w' : world)
    (up : option N) :
  metrics_update_one z k b w = (Ok up, w') →
  merged z k b (metrics w) (metrics w')
  ∧ (∀ z' k', (z', k') ≠ (z, k) →
       List.find (metric_matches z' k') (metrics w')
       = List.find (metric_matches z' k') (metrics w))
  ∧ (aligned b → Forall balanced (metrics w) → Forall balanced (metrics w')).
Proof.
  unfold metrics_update_one.
  destruct (tick_metrics (MetricsUpdateOne z k b) w) as (Hm & _ & _).
  destruct (tick _ w) as [[f|] w1]; [done|]. simpl in Hm. rewrite <- Hm.
  destruct (List.find (metric_matches z k) (metrics w1)) as [m|] eqn:E.
  - destruct (push_first_found z k b _ m E) as (ms' & Hp & Hfind & Hbal).
    rewrite Hp. intros [= <- <-]. simpl. split; [|split].
    + exists (push_each b m). by rewrite E.
    + intros z' k' Hne. by apply (push_first_others z k b).
    + intros [H1 H2] Hall. apply Hbal; [|done].
      assert (balanced m) as [H3 H4].
      { apply List.find_some in E as [Hin _].
        rewrite Forall_forall in Hall. apply Hall. by apply list_elem_of_In. }
      unfold balanced. simpl. rewrite !length_app. lia.
  - rewrite (push_first_absent z k b _ E).
    intros [= <- <-]. simpl. split; [|split].
    + eexists. split.
      * apply find_app_absent; [done|]. apply metric_matches_refl.
      * by rewrite E.
    + intros z' k' Hne.
      destruct (List.find (metric_matches z' k') (metrics w1)) eqn:F.
      * by apply find_app_found.
      * apply find_app_none; [done|].
        destruct (metric_matches z' k' _) eqn:G; [|done].
        apply metric_matches_eq in G as [G1 G2]. simpl in *. congruence.
    + intros [H1 H2] Hall. apply Forall_app. split; [done|].
      by constructor.
Qed.

Lemma metrics_update_one_raises (z : Z) (k : string) (b : batch) (w w' : world)
    (e : error) :
  metrics_update_one z k b w = (Raise e, w') → metrics w' = metrics w.
Proof.
  unfold metrics_update_one.
  destruct (tick_metrics (MetricsUpdateOne z k b) w) as (Hm & _ & _).
  destruct (tick _ w) as [[f|] w1]; simpl in Hm.
  - by intros [= _ <-].
  - by destruct (push_first _ _ _ _).
Qed.

Lemma elem_of_map_fst {A B} (l : list (A * B)) (a : A) (b : B) :
  (a, b) ∈ l → a ∈ map fst l.
Proof.
  induction l as [|x l IH]; [by intros H%elem_of_nil|].
  intros [<-|H]%elem_of_cons; [by left|]. right. by apply IH.
Qed.

Lemma merged_then_kept (z : Z) (key : string) (b : batch)
    (before mid after : list metric_doc) :
  merged z key b before mid →
  List.find (metric_matches z key) after = List.find (metric_matches z key) mid →
  merged z key b before after.
Proof. intros (m' & Hm & H) Heq. exists m'. by rewrite Heq. Qed.

Lemma kept_then_merged (z : Z) (key : string) (b : batch)
    (before mid after : list metric_doc) :
  List.find (metric_matches z key) mid = List.find (metric_matches z key) before →
  merged z key b mid after →
  merged z key b before after.
Proof. intros Heq (m' & Hm & H). exists m'. by rewrite <- Heq. Qed.

(** The loop over the metrics, however it ends: the batches of the
    metrics before the one that failed, all of them when none did, are
    merged; every other document is as it was. *)
Lemma log_metrics_merges (z : Z) (ms : list (string * batch))
    (reg : list value) (s s' : sys) (r : res (list value)) :
  log_metrics z ms reg s = (r, s') →
  NoDup (map fst ms) →
  ∃ done rest,
    ms = done ++ rest
    ∧ (∀ key b, (key, b) ∈ done →
         merged z key b (metrics (store s)) (metrics (store s')))
    ∧ (∀ z' k', z' ≠ z ∨ k' ∉ map fst done →
         List.find (metric_matches z' k') (metrics (store s'))
         = List.find (metric_matches z' k') (metrics (store s)))
    ∧ log (store s')
      = log (store s) ++ upserts z done
          ++ match r with
             | Ok _ => []
             | Raise _ => upserts z (take 1 rest)
             end
    ∧ match r with
      | Ok _ => rest = []
      | Raise _ => rest ≠ []
      end
    ∧ (Forall (λ kb, aligned (snd kb)) ms →
       Forall balanced (metrics (store s)) →
       Forall balanced (metrics (store s'))).
Proof.
  revert reg s. induction ms as [|[k b] ms IH]; intros reg s H Hnd.
  - injection H as <- <-. exists [], [].
    split; [done|]. split; [by intros key b Hin%elem_of_nil|].
    split; [done|]. split; [by rewrite !app_nil_r|]. done.
  - cbn [log_metrics] in H. cbn [map fst] in Hnd.
    apply NoDup_cons in Hnd as [Hk Hnd].
    apply bind_inv in H as [(up & s1 & H1 & H)|(e & H1 & ->)];
      rewrite on_store_run in H1; injection H1 as H1 Hs.
    + destruct (metrics_update_one z k b (store s)) as [r1 w1] eqn:E.
      simpl in H1, Hs. subst r1 s1.
      pose proof (metrics_update_one_log z k b (store s)) as Hl1.
      rewrite E in Hl1. simpl in Hl1.
      destruct (metrics_update_one_merges _ _ _ _ _ _ E) as (Hmg & Hoth & Hbal).
      destruct (IH _ _ H Hnd) as (done & rest & -> & Hd & Ho & Hl & Hr & Hb).
      simpl in Hd, Ho, Hl, Hb.
      assert (k ∉ map fst done) as Hk'.
      { intros Hin. apply Hk. rewrite map_app. apply elem_of_app. by left. }
      exists ((k, b) :: done), rest. split; [done|]. split; [|split; [|split; [|split]]].
      * intros key b' [[= -> ->]|Hin]%elem_of_cons.
        -- apply (merged_then_kept _ _ _ _ _ _ Hmg). apply Ho. by right.
        -- apply (kept_then_merged _ _ _ _ (metrics w1)); [|by apply Hd].
           apply Hoth. intros [= ->]. apply Hk'.
           by apply (elem_of_map_fst _ _ b').
      * intros z' k' Hne. rewrite Ho, Hoth; [done| |].
        -- intros [= -> ->]. destruct Hne as [Hne|Hne]; [done|].
           apply Hne. simpl. by left.
        -- destruct Hne as [Hne|Hne]; [by left|]. right.
           intros Hin. apply Hne. simpl. by right.
      * rewrite Hl, Hl1. simpl. by rewrite <- !app_assoc.
      * done.
      * intros Hall Hbefore. inversion Hall; subst. auto.
    + destruct (metrics_update_one z k b (store s)) as [r1 w1] eqn:E.
      simpl in H1, Hs. subst r1 s'.
      pose proof (metrics_update_one_log z k b (store s)) as Hl1.
      rewrite E in Hl1. simpl in Hl1.
      exists [], ((k, b) :: ms). simpl.
      rewrite (metrics_update_one_raises _ _ _ _ _ _ E).
      split; [done|]. split; [by intros key b' Hin%elem_of_nil|].
      by repeat split.
Qed.

Lemma before_metrics_refl (s : sys) : before_metrics s s.
Proof. split; [done|apply emits_refl]. Qed.

Lemma before_metrics_trans (s1 s2 s3 : sys) :
  before_metrics s1 s2 → before_metrics s2 s3 → before_metrics s1 s3.
Proof.
  intros [H1 H2] [H3 H4]. split.
  - by eapply keeps_metrics_trans.
  - by eapply emits_trans.
Qed.

Lemma before_metrics_store {A} (f : world → res A * world) (o : op) :
  respects keeps_metrics (on_store f) →
  (∀ w, log (snd (f w)) = log w ++ [o]) →
  is_upsert o = false →
  respects before_metrics (on_store f).
Proof.
  intros Hk Hl Ho s r s' H. split; [by eapply Hk|].
  by eapply (emits_store _ f o).
Qed.

Lemma before_metrics_mutate (f : doc → doc) :
  respects before_metrics (mutate_entry f).
Proof.
  intros s r s' H. split.
  - by eapply keeps_metrics_mutate.
  - by eapply emits_mutate.
Qed.

Lemma before_metrics_save (nd : doc) : respects before_metrics (save nd).
Proof.
  apply respects_save;
    first [ exact before_metrics_refl | exact before_metrics_trans
          | intros idv set;
            by apply (before_metrics_store _ (RunsUpdateOne idv set));
              [apply keeps_metrics_update_one|apply runs_update_one_log|] ].
Qed.

Lemma upsert_among (pre ups tail : list op) (i : nat) (o : op) :
  Forall (λ o, is_upsert o = false) pre →
  Forall (λ o, is_upsert o = false) tail →
  (pre ++ ups ++ tail) !! i = Some o →
  is_upsert o = true →
  ∃ j, ups !! j = Some o ∧ i = (length pre + j)%nat.
Proof.
  intros Hpre Htail Hi Ho.
  apply lookup_app_Some in Hi as [Hi|[Hge Hi]].
  { rewrite Forall_forall in Hpre.
    specialize (Hpre _ (list_elem_of_lookup_2 _ _ _ Hi)). congruence. }
  apply lookup_app_Some in Hi as [Hi|[_ Hi]].
  - exists (i - length pre)%nat. split; [done|lia].
  - rewrite Forall_forall in Htail.
    specialize (Htail _ (list_elem_of_lookup_2 _ _ _ Hi)). congruence.
Qed.

Lemma upserts_lookup (z z' : Z) (l : list (string * batch)) (j : nat)
    (key : string) (b : batch) :
  upserts z l !! j = Some (MetricsUpdateOne z' key b) →
  z' = z ∧ (key, b) ∈ l.
Proof.
  revert j. induction l as [|[k c] l IH]; intros [|j]; simpl; try done.
  - intros [= -> -> ->]. split; [done|by left].
  - intros H. destruct (IH _ H) as [-> Hin]. split; [done|by right].
Qed.

Section Merge.

Variable strptime : string → option Z.
Variable md5sum : string → string.
Variable re_digit : ascii → bool.

(** finished_event leaves the metrics collection alone until its loop
    over the metrics: it ends before that loop, or it reaches the loop
    with the id it will return. *)
Lemma finished_event_until_metrics (run : run_record) (cout : string)
    (config : value) (mets : option (list (string * batch)))
    (dir : option snapshot) (_id : option Z) (s s' : sys) (r : res Z) :
  finished_event strptime md5sum re_digit run cout config mets dir _id s
    = (r, s') →
  (before_metrics s s' ∧ ∃ e, r = Raise e)
  ∨ ∃ z s4 u,
      before_metrics s s4
      ∧ insert_metrics z mets s4 = (u, s')
      ∧ r = match u with
            | Ok _ => Ok z
            | Raise e => Raise e
            end.
Proof.
  intros H. unfold finished_event in H.
  assert (respects before_metrics (bind_run_entry _id)) as R1.
  { intros s0 r0 s0' H0. apply bind_run_entry_store in H0.
    split; [unfold keeps_metrics; by rewrite H0|].
    exists []. by rewrite H0, app_nil_r. }
  assert (respects before_metrics
            (running_info_saving strptime md5sum run config dir)) as R2.
  { apply respects_running_info_saving;
      first [ exact before_metrics_refl | exact before_metrics_trans
            | exact before_metrics_mutate
            | intros p h; by apply (before_metrics_store _ (FsFindOne p h));
                [apply keeps_metrics_fs_find|apply fs_find_one_log|]
            | intros d n; by apply (before_metrics_store _ (OpenFile n));
                [apply keeps_metrics_open|apply open_rb_log|]
            | intros p data; by apply (before_metrics_store _ (FsPut p data));
                [apply keeps_metrics_fs_put|apply fs_put_log|] ]. }
  assert (respects before_metrics insert) as R3.
  { apply respects_insert;
      first [ exact before_metrics_refl | exact before_metrics_trans
            | exact before_metrics_mutate
            | by apply (before_metrics_store _ RunsCountDocuments);
                [apply keeps_metrics_count|apply runs_count_documents_log|]
            | by apply (before_metrics_store _ RunsFindMax);
                [apply keeps_metrics_find_max|apply runs_find_max_log|]
            | intros d; by apply (before_metrics_store _ (RunsInsertOne d));
                [apply keeps_metrics_insert_one|apply runs_insert_one_log|]
            | intros idv set;
              by apply (before_metrics_store _ (RunsUpdateOne idv set));
                [apply keeps_metrics_update_one|apply runs_update_one_log|] ]. }
  assert (respects before_metrics (insert_captured_output re_digit cout)) as R4.
  { apply respects_insert_captured_output;
      first [ exact before_metrics_refl | exact before_metrics_trans
            | intros idv set;
              by apply (before_metrics_store _ (RunsUpdateOne idv set));
                [apply keeps_metrics_update_one|apply runs_update_one_log|] ]. }
  apply bind_inv in H as [(u1 & s1 & H1 & H)|(e & H1 & ->)];
    [|left; split; [by eapply R1|by exists e]].
  apply R1 in H1.
  apply bind_inv in H as [(u2 & s2 & H2 & H)|(e & H2 & ->)];
    [|left; split; [|by exists e];
      eapply before_metrics_trans; [done|by eapply R2]].
  apply R2 in H2.
  apply bind_inv in H as [(u3 & s3 & H3 & H)|(e & H3 & ->)];
    [|left; split; [|by exists e];
      eapply before_metrics_trans; [done|];
      eapply before_metrics_trans; [done|by eapply R3]].
  apply R3 in H3.
  assert (before_metrics s s3) as H13
    by (eapply before_metrics_trans; [done|];
        eapply before_metrics_trans; done).
  apply bind_inv in H as [(z & s4 & H4 & H)|(e & H4 & ->)];
    [|left; split; [|by exists e];
      eapply before_metrics_trans; [done|by eapply R4]].
  apply R4 in H4.
  right. exists z, s4.
  apply bind_inv in H as [(u5 & s5 & H5 & H)|(e & H5 & ->)].
  - injection H as <- <-. exists (Ok u5). split; [|done].
    by eapply before_metrics_trans.
  - exists (Raise e). split; [|done]. by eapply before_metrics_trans.
Qed.

(** C5. Every merge of a metric batch by finished_event extends the
    three arrays.  For a metrics mapping with one entry per name, whose
    batches each have steps, values and timestamps of one length: when
    the call returns the id z, every batch of the mapping has been
    merged under (z, metric name), so that the stored document holds the
    three arrays it held before, each followed in order by the elements
    of the batch, or the batch alone when there was no document.
    However the call ends, the same holds of every upsert it issued
    that was not its last round trip (an upsert that fails is the last
    round trip of the call), under the run id and name the upsert
    gives; and when the three arrays of every metric document had one
    length before the call, they have one length after it. *)
Theorem C5_merge_extends_the_three_arrays
    (run : run_record) (cout : string) (config : value)
    (mets : option (list (string * batch))) (dir : option snapshot)
    (_id : option Z) (s s' : sys) (r : res Z) :
  finished_event strptime md5sum re_digit run cout config mets dir _id s
    = (r, s') →
  NoDup (map fst (default [] mets)) →
  Forall (λ kb, aligned (snd kb)) (default [] mets) →
  (∀ z, r = Ok z →
     ∀ key b, (key, b) ∈ default [] mets →
       merged z key b (metrics (store s)) (metrics (store s')))
  ∧ (∃ ops,
       log (store s') = log (store s) ++ ops
       ∧ ∀ i z key b,
           ops !! i = Some (MetricsUpdateOne z key b) →
           (S i < length ops)%nat →
           merged z key b (metrics (store s)) (metrics (store s')))
  ∧ (Forall balanced (metrics (store s)) →
     Forall balanced (metrics (store s'))).
Proof.
  intros H Hnd Hal.
  apply finished_event_until_metrics
    in H as [[[Hm (l & Hl & HP)] [e ->]]|(z & s4 & u & [Hm4 (l4 & Hl4 & HP4)] & H5 & ->)].
  { split; [done|]. split; [|by rewrite Hm].
    exists l. split; [done|]. intros i z key b Hi _.
    rewrite Forall_forall in HP.
    by specialize (HP _ (list_elem_of_lookup_2 _ _ _ Hi)). }
  unfold keeps_metrics in Hm4. rewrite <- Hm4.
  assert (∀ i z' key b,
            l4 !! i = Some (MetricsUpdateOne z' key b) → False) as Hno4.
  { intros i z' key b Hi. rewrite Forall_forall in HP4.
    by specialize (HP4 _ (list_elem_of_lookup_2 _ _ _ Hi)). }
  unfold insert_metrics in H5. destruct mets as [[|m ms]|].
  - injection H5 as <- <-. split; [by intros z' _ key b Hin%elem_of_nil|].
    split; [|done]. exists l4. split; [done|].
    intros i z' key b Hi _. by destruct (Hno4 _ _ _ _ Hi).
  - cbn [default] in Hnd, Hal |- *.
    apply bind_inv in H5 as [(reg & sm & Hlog & Hsave)|(e & Hlog & ->)].
    + destruct (log_metrics_merges _ _ _ _ _ _ Hlog Hnd)
        as (done & rest & Hms & Hd & _ & Hlm & -> & Hb).
      rewrite app_nil_r in Hms, Hlm. subst done.
      destruct (before_metrics_save _ _ _ _ Hsave) as [Hm5 (l5 & Hl5 & HP5)].
      unfold keeps_metrics in Hm5. rewrite Hm5.
      split; [|split; [|by apply Hb]].
      * destruct u; [|done]. intros z' [= <-] key b Hin. by apply Hd.
      * exists (l4 ++ upserts z (m :: ms) ++ l5).
        split; [by rewrite Hl5, Hlm, Hl4, <- !app_assoc|].
        intros i z' key b Hi _.
        destruct (upsert_among _ _ _ _ _ HP4 HP5 Hi eq_refl) as (j & Hj & _).
        apply upserts_lookup in Hj as [-> Hin]. by apply Hd.
    + destruct (log_metrics_merges _ _ _ _ _ _ Hlog Hnd)
        as (done & rest & Hms & Hd & _ & Hlm & Hrest & Hb).
      split; [done|]. split; [|by apply Hb].
      exists (l4 ++ (upserts z done ++ upserts z (take 1 rest)) ++ []).
      split; [by rewrite Hlm, Hl4, app_nil_r, <- !app_assoc|].
      intros i z' key b Hi Hlt.
      destruct (upsert_among _ _ _ _ _ HP4 (Forall_nil_2 _) Hi eq_refl)
        as (j & Hj & ->).
      apply lookup_app_Some in Hj as [Hj|[Hge Hj]].
      * apply upserts_lookup in Hj as [-> Hin]. by apply Hd.
      * exfalso. apply lookup_lt_Some in Hj.
        rewrite !length_app in Hlt. simpl in Hlt.
        unfold upserts in Hj, Hlt, Hge. rewrite !length_map, ?length_take in *. lia.
  - injection H5 as <- <-. split; [by intros z' _ key b Hin%elem_of_nil|].
    split; [|done]. exists l4. split; [done|].
    intros i z' key b Hi _. by destruct (Hno4 _ _ _ _ Hi).
Qed.

End Merge.

(* --------------------------------------------------------------------- *)
(* The constructor                                                       *)
(* --------------------------------------------------------------------- *)

Lemma length_append (a b : string) :
  String.length (a +:+ b) = (String.length a + String.length b)%nat.
Proof. induction a as [|x a IH]; [done|]. rewrite append_cons. simpl. by rewrite IH. Qed.

(** A name that ends in the suffix has, where the suffix begins, the
    first character of the suffix. *)
Lemma suffix_head (q suffix name : string) :
  q +:+ suffix = name →
  String.length suffix = (String.length name - String.length q)%nat
  ∧ get 0 suffix = get (String.length name - String.length suffix) name.
Proof.
  intros <-. rewrite length_append. split; [lia|].
  rewrite (append_correct2 q suffix 0). f_equal. lia.
Qed.

Lemma runs_collection_name_free (collection_prefix : string) :
  runs_collection_name collection_prefix ∉ COLLECTION_NAME_BLACKLIST.
Proof.
  unfold COLLECTION_NAME_BLACKLIST, runs_collection_name. intros Hin.
  set_unfold.
  destruct Hin as [[[[[H|H]|H]|H]|H]|H];
    apply suffix_head in H as [_ H]; vm_compute in H; discriminate.
Qed.

Lemma metrics_collection_name_free (collection_prefix : string) :
  metrics_collection_name collection_prefix ∉ COLLECTION_NAME_BLACKLIST.
Proof.
  unfold COLLECTION_NAME_BLACKLIST, metrics_collection_name. intros Hin.
  set_unfold.
  destruct Hin as [[[[[H|H]|H]|H]|H]|H];
    apply suffix_head in H as [_ H]; vm_compute in H; discriminate.
Qed.

Lemma initialize_no_KeyError (ov : option Z) (prio : Z) (fdir : option string)
    (w : world) (k : string) :
  fst (initialize ov prio fdir w) ≠ Raise (KeyError k).
Proof.
  unfold initialize, runs_find_one. destruct ov as [z|]; [|done].
  destruct (tick _ w) as [[f|] w1]; [done|].
  by destruct (runs w1 !! z).
Qed.

(** X1. Whatever the collection prefix, neither the name of the runs
    collection nor the name of the metrics collection is one of the
    reserved names, and the two names differ.  The two checks against the
    blacklist therefore never fire: a constructor whose library calls
    raise no KeyError raises none. *)
Theorem X1_no_prefix_gives_a_reserved_name
    (MongoClient : option string → option error)
    (Database Collection GridFS : string → option error)
    (collection_prefix : string) :
  (∀ u k, MongoClient u ≠ Some (KeyError k)) →
  (∀ n k, Database n ≠ Some (KeyError k)) →
  (∀ n k, Collection n ≠ Some (KeyError k)) →
  (∀ n k, GridFS n ≠ Some (KeyError k)) →
  (runs_collection_name collection_prefix ∉ COLLECTION_NAME_BLACKLIST)
  ∧ (metrics_collection_name collection_prefix ∉ COLLECTION_NAME_BLACKLIST)
  ∧ runs_collection_name collection_prefix
    ≠ metrics_collection_name collection_prefix
  ∧ ∀ url db_name ov prio cl fdir w k,
      fst (__init__ MongoClient Database Collection GridFS url db_name
             collection_prefix ov prio cl fdir w)
      ≠ Raise (KeyError k).
Proof.
  intros HM HD HC HG.
  pose proof (runs_collection_name_free collection_prefix) as Hr.
  pose proof (metrics_collection_name_free collection_prefix) as Hm.
  split; [done|]. split; [done|]. split.
  - unfold runs_collection_name, metrics_collection_name. intros H.
    apply (f_equal String.length) in H. rewrite !length_append in H.
    simpl in H. lia.
  - intros url db_name ov prio cl fdir w k. unfold __init__.
    destruct (connect MongoClient url cl) as [e|] eqn:Ec.
    { simpl. intros [= ->]. unfold connect in Ec.
      destruct cl as [[|t]|]; [by destruct url|done|by apply HM in Ec]. }
    destruct (Database db_name) as [e|] eqn:Ed.
    { simpl. intros [= ->]. by apply HD in Ed. }
    rewrite (bool_decide_eq_false_2 _ Hr), (bool_decide_eq_false_2 _ Hm).
    destruct (Collection (runs_collection_name _)) as [e|] eqn:E1.
    { simpl. intros [= ->]. by apply HC in E1. }
    destruct (Collection (metrics_collection_name _)) as [e|] eqn:E2.
    { simpl. intros [= ->]. by apply HC in E2. }
    destruct (GridFS db_name) as [e|] eqn:E3.
    { simpl. intros [= ->]. by apply HG in E3. }
    pose proof (initialize_no_KeyError ov prio fdir w k) as Hi.
    destruct (initialize ov prio fdir w) as [[c|e] w']; simpl in *; congruence.
Qed.

(** X2. The constructor makes at most one round trip, the lookup of the
    overwrite target by initialize: without a target the store is left
    exactly as it was, whether the construction succeeds or is refused.
    A construction that succeeds binds the collections of the two
    computed names and gives a client whose run_entry is not bound and
    whose overwrite attribute is the stored target with its id. *)
Theorem X2_constructor_looks_up_only_the_target
    (MongoClient : option string → option error)
    (Database Collection GridFS : string → option error)
    (url : option string) (db_name collection_prefix : string)
    (ov : option Z) (prio : Z) (cl : option py_object) (fdir : option string)
    (w w' : world) (r : res (string * string * client)) :
  __init__ MongoClient Database Collection GridFS url db_name
    collection_prefix ov prio cl fdir w = (r, w') →
  match ov with
  | None => w' = w
  | Some z => w' = w ∨ w' = snd (tick (RunsFindOne z) w)
  end
  ∧ ∀ rn mn c, r = Ok (rn, mn, c) →
      rn = runs_collection_name collection_prefix
      ∧ mn = metrics_collection_name collection_prefix
      ∧ run_entry c = None ∧ priority c = prio ∧ failure_dir c = fdir
      ∧ match ov with
        | None => overwrite c = None
        | Some z => ∃ d, runs w' !! z = Some d
                         ∧ overwrite c = Some (<["_id" := VInt z]> d)
        end.
Proof.
  unfold __init__.
  assert (∀ e, (Raise e, w) = (r, w') →
            match ov with
            | None => w' = w
            | Some z => w' = w ∨ w' = snd (tick (RunsFindOne z) w)
            end
            ∧ ∀ rn mn c, r = Ok (rn, mn, c) →
                rn = runs_collection_name collection_prefix
                ∧ mn = metrics_collection_name collection_prefix
                ∧ run_entry c = None ∧ priority c = prio ∧ failure_dir c = fdir
                ∧ match ov with
                  | None => overwrite c = None
                  | Some z => ∃ d, runs w' !! z = Some d
                                   ∧ overwrite c = Some (<["_id" := VInt z]> d)
                  end) as Hraise.
  { intros e [= <- <-]. split; [destruct ov; auto|]. intros; discriminate. }
  destruct (connect _ _ _); [apply Hraise|].
  destruct (Database _); [apply Hraise|].
  destruct (bool_decide _); [apply Hraise|].
  destruct (bool_decide _); [apply Hraise|].
  destruct (Collection (runs_collection_name _)); [apply Hraise|].
  destruct (Collection (metrics_collection_name _)); [apply Hraise|].
  destruct (GridFS _); [apply Hraise|].
  clear Hraise. unfold initialize, runs_find_one.
  destruct ov as [z|].
  - destruct (tick (RunsFindOne z) w) as [[f|] w1] eqn:T; simpl.
    + intros [= <- <-]. split; [by right|]. intros; discriminate.
    + destruct (runs w1 !! z) as [d|] eqn:E; simpl; intros [= <- <-].
      * split; [by right|]. intros rn mn c [= <- <- <-].
        repeat split; try done. by exists d.
      * split; [by right|]. intros; discriminate.
  - intros [= <- <-]. split; [done|]. intros rn mn c [= <- <- <-]. done.
Qed.

(* --------------------------------------------------------------------- *)
(* finished_event before its first round trip                            *)
(* --------------------------------------------------------------------- *)

Lemma bind_run_entry_unbound (_id : option Z) (s : sys) :
  ¬ bound (self s) →
  ∃ s1, bind_run_entry _id s = (Ok tt, s1)
        ∧ store s1 = store s
        ∧ overwrite (self s1) = overwrite (self s)
        ∧ run_entry (self s1)
          = Some match overwrite (self s) with
                 | Some ov => ov
                 | None => {["_id" := id_value _id]}
                 end.
Proof.
  intros Hb. unfold bind_run_entry, bind, get_self, put_self.
  destruct (overwrite (self s)) as [ov|] eqn:Eov.
  - destruct (run_entry (self s)) as [e|] eqn:Ee.
    + destruct Hb. split; [by rewrite Eov|by rewrite Ee].
    + by eexists.
  - by eexists.
Qed.

Section Timestamps.

Variable strptime : string → option Z.
Variable md5sum : string → string.
Variable re_digit : ascii → bool.

(** X3. The three timestamps of the run record are parsed before the
    first round trip.  When one of them does not parse, finished_event
    raises the ValueError of the first such one, in the order start_time,
    stop_time, heartbeat, and the store is exactly as it was; what the
    call has done is bind run_entry. *)
Theorem X3_timestamps_are_parsed_before_any_round_trip
    (run : run_record) (cout : string) (config : value)
    (metrics : option (list (string * batch))) (dir : option snapshot)
    (_id : option Z) (s : sys) :
  ¬ bound (self s) →
  strptime (start_time run) = None ∨ strptime (stop_time run) = None
  ∨ strptime (heartbeat run) = None →
  ∃ t s',
    finished_event strptime md5sum re_digit run cout config metrics dir _id s
      = (Raise (ValueError t), s')
    ∧ store s' = store s
    ∧ is_Some (run_entry (self s'))
    ∧ strptime t = None
    ∧ (t = start_time run
       ∨ (is_Some (strptime (start_time run))
          ∧ (t = stop_time run
             ∨ (is_Some (strptime (stop_time run)) ∧ t = heartbeat run)))).
Proof.
  intros Hb Hbad.
  destruct (bind_run_entry_unbound _id s Hb) as (s1 & E1 & Hst & _ & He).
  unfold finished_event. rewrite (bind_ok _ _ _ _ _ E1).
  assert (∃ t, running_info_saving strptime md5sum run config dir s1
               = (Raise (ValueError t), s1)
               ∧ strptime t = None
               ∧ (t = start_time run
                  ∨ (is_Some (strptime (start_time run))
                     ∧ (t = stop_time run
                        ∨ (is_Some (strptime (stop_time run))
                           ∧ t = heartbeat run))))) as (t & E2 & Ht & Hwhich).
  { unfold running_info_saving, py_strptime.
    destruct (strptime (start_time run)) as [a|] eqn:Ea.
    2:{ exists (start_time run). split; [done|]. split; [done|]. by left. }
    rewrite (bind_ok (ret a) _ s1 s1 a eq_refl).
    destruct (strptime (stop_time run)) as [b|] eqn:Eb.
    2:{ exists (stop_time run). split; [done|]. split; [done|].
        right. split; [done|]. by left. }
    rewrite (bind_ok (ret b) _ s1 s1 b eq_refl).
    destruct (strptime (heartbeat run)) as [h|] eqn:Eh.
    2:{ exists (heartbeat run). split; [done|]. split; [done|].
        right. split; [done|]. right. by split. }
    by destruct Hbad as [?|[?|?]]. }
  exists t, s1. rewrite (bind_raise _ _ _ _ _ E2).
  repeat split; try done; by rewrite He.
Qed.

End Timestamps.

(* --------------------------------------------------------------------- *)
(* save_sources: what a reference names                                  *)
(* --------------------------------------------------------------------- *)

Section References.

Variable md5sum : string → string.

Lemma save_sources_loop_refs (base : string) (dir : snapshot)
    (srcs : list (string * string)) (acc : list (string * N))
    (s s' : sys) (r : res (list (string * N))) :
  save_sources_loop md5sum base dir srcs acc s = (r, s') →
  ∃ added,
    fs (store s') = fs (store s) ++ added
    ∧ Forall (uploaded_from md5sum base dir srcs) added
    ∧ ∀ info, r = Ok info →
        ∃ new, info = acc ++ new
               ∧ Forall2 (names_blob base dir (fs (store s'))) srcs new.
Proof.
  revert acc s. induction srcs as [|[n h] srcs IH]; intros acc s H.
  - injection H as <- <-. exists []. rewrite app_nil_r.
    split; [done|]. split; [constructor|].
    intros info [= <-]. exists []. by rewrite app_nil_r.
  - apply save_sources_loop_step in H as [(e & -> & Hfs)|(o & s1 & H1 & Hcase)].
    { exists []. rewrite app_nil_r. split; [done|]. split; [constructor|]. done. }
    destruct (IH _ _ H1) as (added & Hadd & Hup & Hinfo).
    assert (∀ b, uploaded_from md5sum base dir srcs b →
                 uploaded_from md5sum base dir ((n, h) :: srcs) b) as Hmono.
    { intros b (n' & h' & Hin & Hb). exists n', h'. split; [by right|done]. }
    destruct Hcase as [[Href Hfs]|(c & Hc & Hnone & Hfs)].
    + exists added. split; [by rewrite Hadd, Hfs|].
      split; [by eapply Forall_impl|].
      intros info Hr. destruct (Hinfo info Hr) as (new & -> & Hall).
      exists ((n, o) :: new). rewrite <- app_assoc. split; [done|].
      constructor; [|done].
      unfold blob_ref in Href.
      destruct (List.find _ _) as [b|] eqn:Efind; [|done].
      injection Href as <-.
      apply List.find_some in Efind as [Hin Hm].
      apply blob_matches_eq in Hm as [Hp Hh].
      split; [done|]. exists b. simpl. repeat split; try done.
      * rewrite Hadd, Hfs. apply elem_of_app. left. by apply list_elem_of_In.
      * by left.
    + exists (Blob o (path_join base n) (md5sum c) c :: added).
      split; [by rewrite Hadd, Hfs, <- app_assoc|].
      split.
      * constructor; [|by eapply Forall_impl].
        exists n, h. split; [by left|done].
      * intros info Hr. destruct (Hinfo info Hr) as (new & -> & Hall).
        exists ((n, o) :: new). rewrite <- app_assoc. split; [done|].
        constructor; [|done].
        split; [done|]. exists (Blob o (path_join base n) (md5sum c) c).
        simpl. repeat split; try done.
        -- rewrite Hadd, Hfs. apply elem_of_app. left.
           apply elem_of_app. right. by left.
        -- by right.
Qed.

(** X4. save_sources answers the manifest entry by entry: the list it
    returns has one pair per entry, in the order of the manifest and
    under the entry's own name, and the reference of a pair is the id of
    a blob of the store whose filename is the virtual path of the entry.
    That blob carries the hash the manifest lists, or it is the file of
    the snapshot directory: the listed hash is used to look a blob up and
    never compared with the bytes uploaded.  However the call ends, the
    blobs stored before are kept in place and every blob added holds a
    file of the directory under the digest of its bytes. *)
Theorem X4_save_sources_answers_entry_by_entry
    (ex : ex_info) (dir : snapshot) (s s' : sys)
    (r : res (list (string * N))) :
  save_sources md5sum ex dir s = (r, s') →
  ∃ added,
    fs (store s') = fs (store s) ++ added
    ∧ Forall (uploaded_from md5sum (base_dir ex) dir (sources ex)) added
    ∧ ∀ info, r = Ok info →
        map fst info = map fst (sources ex)
        ∧ Forall2 (names_blob (base_dir ex) dir (fs (store s')))
            (sources ex) info.
Proof.
  intros H. unfold save_sources in H.
  destruct (save_sources_loop_refs _ _ _ _ _ _ _ H) as (added & Hadd & Hup & Hinfo).
  exists added. split; [done|]. split; [done|].
  intros info Hr. destruct (Hinfo info Hr) as (new & -> & Hall).
  rewrite app_nil_l. split; [|done].
  clear -Hall. induction Hall as [|src ref srcs new [Hn _] _ IH]; [done|].
  simpl. by rewrite Hn, IH.
Qed.

End References.

Section Again.

Variable md5sum : string → string.

(** With a blob in the store for every entry, on an idle schedule, the
    loop returns the references of these blobs, opens no file and stores
    nothing. *)
Lemma save_sources_loop_reuses (base : string) (dir : snapshot)
    (srcs : list (string * string)) (acc new : list (string * N)) (s : sys) :
  sched (store s) = [] →
  Forall2 (λ src ref,
             fst ref = fst src
             ∧ blob_ref (path_join base (fst src)) (snd src) (fs (store s))
               = Some (snd ref)) srcs new →
  ∃ s', save_sources_loop md5sum base dir srcs acc s = (Ok (acc ++ new), s')
        ∧ fs (store s') = fs (store s)
        ∧ sched (store s') = []
        ∧ emits (λ o, ∃ p h, o = FsFindOne p h) s s'.
Proof.
  intros Hq Hall. revert new acc s Hq Hall.
  induction srcs as [|[n h] srcs IH]; intros new acc s Hq Hall.
  - inversion Hall; subst. exists s. rewrite app_nil_r.
    repeat split; try done. apply emits_refl.
  - inversion Hall as [|src [n' o] srcs' new' [Hn Href] Hrest]; subst.
    simpl in Hn, Href. subst n'. simpl.
    pose proof (on_store_ok _ s _ _
                  (fs_find_one_idle (path_join base n) h (store s) Hq)) as E1.
    rewrite (bind_ok _ _ _ _ _ E1).
    unfold blob_ref in Href.
    destruct (List.find _ _) as [b|] eqn:Efind; [|done].
    injection Href as <-.
    set (s1 := Sys (self s) (record_op (FsFindOne (path_join base n) h) (store s))).
    rewrite (bind_ok (ret (b_id b)) _ s1 s1 (b_id b) eq_refl).
    destruct (IH new' (acc ++ [(n, b_id b)]) s1 Hq) as (s' & E & Hfs & Hq' & Hlog).
    { eapply Forall2_impl; [exact Hrest|]. intros src ref [H1 H2]. done. }
    exists s'. rewrite <- app_assoc in E.
    split; [exact E|]. split; [done|]. split; [done|].
    eapply emits_trans; [|exact Hlog].
    exists [FsFindOne (path_join base n) h]. split; [done|].
    constructor; [by eexists _, _|constructor].
Qed.

(** X5. Sources stored once are not stored again.  After a save_sources
    that returned, for a manifest whose hashes are the digests of the
    listed files, a second save_sources of the same manifest on the blob
    store it left (on an idle schedule) returns the same references,
    stores no blob and opens no file: it issues find_one lookups only,
    so it succeeds even from a directory that holds none of the
    files. *)
Theorem X5_sources_stored_once_are_not_stored_again
    (ex : ex_info) (dir dir' : snapshot) (s s1 s2 : sys)
    (info : list (string * N)) :
  honest md5sum dir (sources ex) →
  save_sources md5sum ex dir s = (Ok info, s1) →
  fs (store s2) = fs (store s1) →
  sched (store s2) = [] →
  ∃ s3,
    save_sources md5sum ex dir' s2 = (Ok info, s3)
    ∧ fs (store s3) = fs (store s2)
    ∧ emits (λ o, ∃ p h, o = FsFindOne p h) s2 s3.
Proof.
  intros Hhon H Hfs Hq. unfold save_sources in *.
  destruct (save_sources_loop_resolves md5sum _ _ _ _ _ _ _ Hhon H)
    as (new & -> & _ & Hall).
  rewrite <- Hfs in Hall.
  destruct (save_sources_loop_reuses (base_dir ex) dir' (sources ex) [] new s2
              Hq Hall) as (s3 & E & Hfs3 & _ & Hlog).
  by exists s3.
Qed.

End Again.

(* --------------------------------------------------------------------- *)
(* The runs stored before a finish                                       *)
(* --------------------------------------------------------------------- *)

Ltac leaves_run_op :=
  apply respects_on_store_world; intros s Hd; simpl;
  match goal with
  | |- context [tick ?o (store s)] =>
      let T := fresh "T" in
      destruct (tick o (store s)) as [[?|] ?] eqn:T;
      apply tick_spec in T as (? & _ & Hk & _ & _);
      specialize (Hk _ _ Hd)
  | _ => idtac
  end;
  simpl in *; repeat case_match; simpl; eauto.

Lemma leaves_run_refl (k : Z) (d : doc) (s : sys) : leaves_run k d s s.
Proof. by intros H. Qed.

Lemma leaves_run_trans (k : Z) (d : doc) (s1 s2 s3 : sys) :
  leaves_run k d s1 s2 → leaves_run k d s2 s3 → leaves_run k d s1 s3.
Proof. unfold leaves_run. auto. Qed.

Lemma leaves_run_mutate (k : Z) (d : doc) (f : doc → doc) :
  respects (leaves_run k d) (mutate_entry f).
Proof. intros s r s' [= _ <-] H. exact H. Qed.

Lemma leaves_run_count (k : Z) (d : doc) :
  respects (leaves_run k d) (on_store runs_count_documents).
Proof. unfold runs_count_documents. leaves_run_op. Qed.

Lemma leaves_run_find_max (k : Z) (d : doc) :
  respects (leaves_run k d) (on_store runs_find_max).
Proof. unfold runs_find_max. leaves_run_op. Qed.

(** insert_one writes under a free id only. *)
Lemma leaves_run_insert_one (k : Z) (d e : doc) :
  respects (leaves_run k d) (on_store (runs_insert_one e)).
Proof.
  unfold runs_insert_one. leaves_run_op.
  rewrite lookup_insert_ne; [done|]. congruence.
Qed.

Lemma leaves_run_metrics (k z : Z) (d : doc) (name : string) (b : batch) :
  respects (leaves_run k d) (on_store (metrics_update_one z name b)).
Proof. unfold metrics_update_one. leaves_run_op. Qed.

Lemma leaves_run_fs_find (k : Z) (d : doc) (p h : string) :
  respects (leaves_run k d) (on_store (fs_find_one p h)).
Proof. unfold fs_find_one. leaves_run_op. Qed.

Lemma leaves_run_fs_put (md5sum : string → string) (k : Z) (d : doc)
    (p data : string) :
  respects (leaves_run k d) (on_store (fs_put md5sum p data)).
Proof. unfold fs_put. leaves_run_op. Qed.

Lemma leaves_run_open (k : Z) (d : doc) (dir : snapshot) (n : string) :
  respects (leaves_run k d) (on_store (open_rb dir n)).
Proof. unfold open_rb. leaves_run_op. Qed.

(** update_one changes the run it addresses and no other. *)
Lemma leaves_run_update_one (k z : Z) (d set : doc) :
  k ≠ z → respects (leaves_run k d) (on_store (runs_update_one (VInt z) set)).
Proof.
  intros Hne. unfold runs_update_one. leaves_run_op.
  by rewrite lookup_insert_ne.
Qed.

Lemma leaves_run_insert_loop (k : Z) (d : doc) (fuel : nat) (autoinc_key : bool) :
  respects (leaves_run k d) (insert_loop fuel autoinc_key).
Proof.
  apply respects_insert_loop;
    first [ exact (leaves_run_refl k d) | exact (leaves_run_trans k d)
          | exact (leaves_run_mutate k d) | exact (leaves_run_count k d)
          | exact (leaves_run_find_max k d) | exact (leaves_run_insert_one k d) ].
Qed.

Lemma leaves_run_log_metrics (k : Z) (d : doc) (z : Z)
    (ms : list (string * batch)) (reg : list value) :
  respects (leaves_run k d) (log_metrics z ms reg).
Proof.
  apply respects_log_metrics;
    first [ exact (leaves_run_refl k d) | exact (leaves_run_trans k d)
          | intros; apply leaves_run_metrics ].
Qed.

Lemma keeps_self_log_metrics (z : Z) (ms : list (string * batch))
    (reg : list value) :
  respects keeps_self (log_metrics z ms reg).
Proof.
  apply respects_log_metrics; try (intros; apply keeps_self_store).
  - by intros s.
  - unfold keeps_self. intros s1 s2 s3. congruence.
Qed.

(** insert without an overwrite target is the loop. *)
Lemma insert_fresh_unfold (s : sys) (e : doc) :
  overwrite (self s) = None →
  run_entry (self s) = Some e →
  insert s = insert_loop (S (length (sched (store s)))) (is_none (e !! "_id")) s.
Proof.
  intros Hov He. unfold insert.
  rewrite (bind_ok get_self _ s s (self s) eq_refl), Hov.
  by rewrite (bind_ok _ _ _ _ _ (entry_ok s e He)).
Qed.

(** A save changes the run of the entry's id and no other, and leaves
    the client as it is. *)
Lemma save_touches_own_run (nd e : doc) (z k : Z) (d : doc) (s s' : sys)
    (r : res unit) :
  run_entry (self s) = Some e → e !! "_id" = Some (VInt z) →
  save nd s = (r, s') →
  self s' = self s ∧ (k ≠ z → leaves_run k d s s').
Proof.
  intros He Hid H. split.
  - by apply (keeps_self_save nd s r s').
  - intros Hne. unfold save in H.
    rewrite (bind_ok _ _ _ _ _ (entry_ok s e He)), Hid in H.
    apply bind_inv in H as [(r1 & s1 & H1 & H2)|(err & H1 & _)];
      [|unfold try in H1; by destruct (on_store _ s)].
    unfold try in H1.
    destruct (on_store _ s) as [r0 s0] eqn:E0. injection H1 as <- <-.
    apply (leaves_run_update_one k z d _ Hne) in E0.
    destruct r0 as [u|[[]| | | | | | | | | |]]; by injection H2 as _ <-.
Qed.

(** When the loop of insert returns, the entry carries the id under
    which it was stored, an id no run stored at the call had; these runs
    are as they were. *)
Lemma insert_loop_takes_free_id (fuel : nat) (autoinc_key : bool) (s s' : sys) :
  insert_loop fuel autoinc_key s = (Ok tt, s') →
  ∃ e z, run_entry (self s') = Some e
         ∧ e !! "_id" = Some (VInt z)
         ∧ ∀ k d, runs (store s) !! k = Some d →
             k ≠ z ∧ runs (store s') !! k = Some d.
Proof.
  revert s. induction fuel as [|fuel IH]; intros s H; [done|].
  cbn [insert_loop] in H.
  apply bind_inv_ok in H as ([] & sa & Hpre & H).
  assert (∀ k d, leaves_run k d s sa) as Hsa.
  { intros k d.
    match type of Hpre with
    | ?m s = _ => assert (respects (leaves_run k d) m) as Hr
    end; [|by eapply Hr].
    destruct autoinc_key; [|apply respects_ret; exact (leaves_run_refl k d)].
    apply respects_bind; [exact (leaves_run_trans k d)|apply leaves_run_count|].
    intros n.
    apply respects_bind;
      [exact (leaves_run_trans k d)| |intros cand; apply leaves_run_mutate].
    destruct (n =? 0); [apply respects_ret; exact (leaves_run_refl k d)|].
    apply respects_bind;
      [exact (leaves_run_trans k d)|apply leaves_run_find_max|].
    intros m. apply respects_ret. exact (leaves_run_refl k d). }
  apply bind_inv_ok in H as (e & sb & He & H).
  unfold entry, bind, get_self in He.
  destruct (run_entry (self sa)) as [e'|] eqn:Ee; [|done].
  injection He as <- <-.
  apply bind_inv_ok in H as (r & sc & Htry & H).
  unfold try in Htry. rewrite on_store_run in Htry. injection Htry as <- <-.
  unfold runs_insert_one in H.
  destruct (tick (RunsInsertOne e') (store sa)) as [[f|] w1] eqn:T.
  { simpl in H. by destruct f. }
  apply tick_spec in T as (pre & _ & Hk & _ & _).
  destruct (e' !! "_id") as [[| |z| | | | | |]|] eqn:Eid; simpl in H; try done.
  destruct (runs w1 !! z) as [taken|] eqn:Ez; simpl in H.
  - destruct autoinc_key; [|done].
    destruct (IH _ H) as (e & z' & He & Hid & Hall).
    exists e, z'. split; [done|]. split; [done|].
    intros k d Hkd. apply Hall. simpl. apply Hk. by apply Hsa.
  - injection H as <-. exists e', z. simpl. split; [done|]. split; [done|].
    intros k d Hkd. apply Hsa, Hk in Hkd.
    assert (k ≠ z) by congruence.
    split; [done|]. by rewrite lookup_insert_ne.
Qed.

Section StoredRuns.

Variable strptime : string → option Z.
Variable md5sum : string → string.
Variable re_digit : ascii → bool.

Lemma leaves_run_running_info_saving (k : Z) (d : doc) (run : run_record)
    (config : value) (dir : option snapshot) :
  respects (leaves_run k d) (running_info_saving strptime md5sum run config dir).
Proof.
  apply respects_running_info_saving;
    first [ exact (leaves_run_refl k d) | exact (leaves_run_trans k d)
          | exact (leaves_run_mutate k d) | exact (leaves_run_fs_find k d)
          | exact (leaves_run_open k d) | exact (leaves_run_fs_put md5sum k d) ].
Qed.

(** The steps of finished_event after self.insert() has returned, for an
    entry stored under z: they leave every other run as it is. *)
Lemma after_insert_leaves_other_runs (cout : string)
    (metrics : option (list (string * batch))) (e : doc) (z k : Z) (d : doc)
    (s s' : sys) (r : res Z) :
  run_entry (self s) = Some e → e !! "_id" = Some (VInt z) → k ≠ z →
  (_id <- insert_captured_output re_digit cout;;
   insert_metrics _id metrics;;
   ret _id) s = (r, s') →
  leaves_run k d s s' ∧ ∀ z', r = Ok z' → z' = z.
Proof.
  intros He Hid Hne H.
  apply bind_inv in H as [(z' & s4 & H4 & H)|(err & H4 & ->)].
  - unfold insert_captured_output in H4.
    rewrite (bind_ok _ _ _ _ _ (entry_id_ok s e z He Hid)) in H4.
    apply bind_inv_ok in H4 as ([] & s4' & Hsv & Hret).
    injection Hret as <- ->.
    destruct (save_touches_own_run _ e z k d s s4 _ He Hid Hsv) as [Hself H34].
    specialize (H34 Hne).
    assert (leaves_run k d s4 s' ∧ ∀ z', r = Ok z' → z' = z) as [H45 Hz];
      [|split; [by eapply leaves_run_trans|done]].
    apply bind_inv in H as [([] & s5 & H5 & H)|(err & H5 & ->)].
    + injection H as <- <-. split; [|by intros ? [= <-]].
      unfold insert_metrics in H5. destruct metrics as [[|m ms]|].
      * injection H5 as <-. apply leaves_run_refl.
      * apply bind_inv_ok in H5 as (reg & sm & Hlog & Hsave).
        pose proof (keeps_self_log_metrics _ _ _ _ _ _ Hlog) as Hsm.
        unfold keeps_self in Hsm.
        apply leaves_run_log_metrics with (k := k) (d := d) in Hlog.
        eapply leaves_run_trans; [exact Hlog|].
        eapply (save_touches_own_run _ e z k d sm s5); [congruence|done|done|done].
      * injection H5 as <-. apply leaves_run_refl.
    + split; [|done].
      unfold insert_metrics in H5. destruct metrics as [[|m ms]|]; try done.
      apply bind_inv in H5 as [(reg & sm & Hlog & Hsave)|(err' & Hlog & _)].
      * pose proof (keeps_self_log_metrics _ _ _ _ _ _ Hlog) as Hsm.
        unfold keeps_self in Hsm.
        apply leaves_run_log_metrics with (k := k) (d := d) in Hlog.
        eapply leaves_run_trans; [exact Hlog|].
        eapply (save_touches_own_run _ e z k d sm s'); [congruence|done|done|done].
      * by apply leaves_run_log_metrics with (k := k) (d := d) in Hlog.
  - split; [|done].
    unfold insert_captured_output in H4.
    rewrite (bind_ok _ _ _ _ _ (entry_id_ok s e z He Hid)) in H4.
    apply bind_inv in H4 as [([] & s4' & Hsv & Hret)|(err' & Hsv & _)]; [done|].
    by eapply (save_touches_own_run _ e z k d s s').
Qed.

(** A finish without an overwrite target leaves every run stored before
    the call as it was, and returns the id of none of them. *)
Lemma fresh_finish_leaves_stored_runs (run : run_record) (cout : string)
    (config : value) (metrics : option (list (string * batch)))
    (dir : option snapshot) (_id : option Z) (s s' : sys) (r : res Z)
    (k : Z) (d : doc) :
  overwrite (self s) = None →
  finished_event strptime md5sum re_digit run cout config metrics dir _id s
    = (r, s') →
  runs (store s) !! k = Some d →
  runs (store s') !! k = Some d ∧ ∀ z, r = Ok z → z ≠ k.
Proof.
  intros Hov H Hkd. unfold finished_event in H.
  destruct (bind_run_entry _id s) as [r1 s1] eqn:E1.
  pose proof (bind_run_entry_store _ _ _ _ E1) as Hst1.
  assert (r1 = Ok tt) as ->.
  { unfold bind_run_entry, bind, get_self in E1. rewrite Hov in E1.
    by injection E1 as <- _. }
  rewrite (bind_ok _ _ _ _ _ E1) in H.
  destruct (running_info_saving strptime md5sum run config dir s1)
    as [r2 s2] eqn:E2.
  pose proof (leaves_run_running_info_saving k d run config dir _ _ _ E2) as H12.
  unfold leaves_run in H12. rewrite Hst1 in H12. specialize (H12 Hkd).
  destruct r2 as [[]|err]; [|by rewrite (bind_raise _ _ _ _ _ E2) in H;
                               injection H as <- <-].
  rewrite (bind_ok _ _ _ _ _ E2) in H.
  destruct (finished_event_reaches_insert strptime md5sum run config dir _id s s2 Hov)
    as (Hov2 & e2 & He2 & Hid2).
  { by rewrite (bind_ok _ _ _ _ _ E1). }
  destruct (insert s2) as [r3 s3] eqn:E3.
  pose proof E3 as E3'. rewrite (insert_fresh_unfold s2 e2 Hov2 He2) in E3'.
  destruct r3 as [[]|err].
  - destruct (insert_loop_takes_free_id _ _ _ _ E3') as (e3 & z & He3 & Hid3 & Hall).
    destruct (Hall k d H12) as [Hne H13].
    rewrite (bind_ok _ _ _ _ _ E3) in H.
    destruct (after_insert_leaves_other_runs cout metrics e3 z k d s3 s' r
                He3 Hid3 Hne H) as [Hleaves Hz].
    split; [by apply Hleaves|]. intros z' Hr. by rewrite (Hz z' Hr).
  - rewrite (bind_raise _ _ _ _ _ E3) in H. injection H as <- <-.
    split; [|done]. by apply (leaves_run_insert_loop k d _ _ _ _ _ E3').
Qed.

(** X6. A finish on a client without an overwrite target never changes
    a run that was stored before the call: whatever the other writers
    and the failures of the schedule, and whether the call returns or
    raises, every such run is stored afterwards under its id exactly as
    it was, and the id the call returns is the id of none of them. *)
Theorem X6_fresh_finish_never_touches_a_stored_run
    (run : run_record) (cout : string) (config : value)
    (metrics : option (list (string * batch))) (dir : option snapshot)
    (_id : option Z) (s s' : sys) (r : res Z) :
  overwrite (self s) = None →
  finished_event strptime md5sum re_digit run cout config metrics dir _id s
    = (r, s') →
  (∀ k d, runs (store s) !! k = Some d → runs (store s') !! k = Some d)
  ∧ ∀ z, r = Ok z → runs (store s) !! z = None.
Proof.
  intros Hov H. split.
  - intros k d Hkd.
    by apply (fresh_finish_leaves_stored_runs run cout config metrics dir _id
                s s' r k d).
  - intros z Hr. destruct (runs (store s) !! z) as [d|] eqn:E; [|done].
    by destruct (fresh_finish_leaves_stored_runs run cout config metrics dir
                   _id s s' r z d Hov H E) as [_ Hne]; destruct (Hne z Hr).
Qed.

End StoredRuns.

(* --------------------------------------------------------------------- *)
(* A finish without an overwrite target, on an idle schedule             *)
(* --------------------------------------------------------------------- *)

Lemma runs_insert_one_idle (e : doc) (z : Z) (w : world) :
  sched w = [] → e !! "_id" = Some (VInt z) →
  runs_insert_one e w
  = match runs w !! z with
    | Some _ => (Raise DuplicateKeyError, record_op (RunsInsertOne e) w)
    | None =>
        (Ok tt, set_runs (<[z := delete "_id" e]> (runs w))
                         (record_op (RunsInsertOne e) w))
    end.
Proof.
  intros Hq Hid. unfold runs_insert_one. rewrite (tick_idle _ _ Hq), Hid.
  done.
Qed.

(** On an idle schedule insert allocates the successor of the largest
    id, and stores the entry under it at its first turn. *)
Lemma insert_idle_allocates (s : sys) (e : doc) :
  overwrite (self s) = None →
  run_entry (self s) = Some e →
  is_none (e !! "_id") = true →
  sched (store s) = [] →
  ∃ z s',
    insert s = (Ok tt, s')
    ∧ next_after (runs (store s)) z
    ∧ runs (store s) !! z = None
    ∧ sched (store s') = []
    ∧ runs (store s') = <[z := delete "_id" e]> (runs (store s))
    ∧ overwrite (self s') = None
    ∧ run_entry (self s') = Some (<["_id" := VInt z]> e).
Proof.
  intros Hov He Hid Hq.
  rewrite (insert_autoinc_unfold s e Hov He Hid), Hq.
  cbn [length]. rewrite (insert_loop_autoinc_unfold 0 s e He).
  unfold runs_count_documents. rewrite (tick_idle _ _ Hq).
  cbn [runs record_op]. rewrite Hov. cbn [fmap option_fmap option_map].
  assert (∀ cand w2,
            sched w2 = [] → runs w2 = runs (store s) →
            next_after (runs (store s)) cand →
            runs (store s) !! cand = None →
            ∃ z s',
              match runs_insert_one (<["_id" := VInt cand]> e) w2 with
              | (Ok _, w3) =>
                  (Ok tt, Sys (Client None (Some (<["_id" := VInt cand]> e))
                                      (priority (self s)) (failure_dir (self s))) w3)
              | (Raise (PyMongo InvalidDocument), w3) =>
                  (Raise (NameError "ObserverError"),
                   Sys (Client None (Some (<["_id" := VInt cand]> e))
                               (priority (self s)) (failure_dir (self s))) w3)
              | (Raise DuplicateKeyError, w3) =>
                  insert_loop 0 true
                    (Sys (Client None (Some (<["_id" := VInt cand]> e))
                                 (priority (self s)) (failure_dir (self s))) w3)
              | (Raise err, w3) =>
                  (Raise err,
                   Sys (Client None (Some (<["_id" := VInt cand]> e))
                               (priority (self s)) (failure_dir (self s))) w3)
              end = (Ok tt, s')
              ∧ next_after (runs (store s)) z
              ∧ runs (store s) !! z = None
              ∧ sched (store s') = []
              ∧ runs (store s') = <[z := delete "_id" e]> (runs (store s))
              ∧ overwrite (self s') = None
              ∧ run_entry (self s') = Some (<["_id" := VInt z]> e)) as Hstep.
  { intros cand w2 Hq2 Hr2 Hnext Hfree.
    rewrite (runs_insert_one_idle _ cand w2 Hq2 (lookup_insert_eq _ _ _)).
    rewrite Hr2, Hfree. exists cand. eexists. split; [reflexivity|].
    simpl_state. rewrite delete_insert_eq. by repeat split. }
  destruct (decide (runs (store s) = ∅)) as [Hemp|Hne]; cbn [Z.eqb].
  - apply Hstep; try done.
    + by left.
    + by rewrite Hemp, lookup_empty.
  - unfold runs_find_max.
    rewrite (tick_idle RunsFindMax (record_op RunsCountDocuments (store s)) Hq).
    cbn [runs record_op].
    destruct (max_id_spec (runs (store s))) as [Hnone Hsome].
    destruct (max_id (runs (store s))) as [m|] eqn:Emax.
    + destruct (Hsome m eq_refl) as [Hm Hmax].
      apply Hstep; try done.
      * right. by exists m.
      * destruct (runs (store s) !! (m + 1)) eqn:E; [|done].
        specialize (Hmax (m + 1) ltac:(by rewrite E)). lia.
    + destruct Hnone as [Hnone _]. by destruct (Hne (Hnone eq_refl)).
Qed.

Section FreshFinish.

Variable strptime : string → option Z.
Variable md5sum : string → string.
Variable re_digit : ascii → bool.

(** The entry finished_event hands to insert, and the state it reaches
    insert in, on an idle schedule. *)
Lemma fresh_finish_reaches_insert (run : run_record) (config : value)
    (dir : option snapshot) (_id : option Z) (s : sys) (a b h : Z) :
  overwrite (self s) = None →
  sched (store s) = [] →
  strptime (start_time run) = Some a →
  strptime (stop_time run) = Some b →
  strptime (heartbeat run) = Some h →
  code_present dir (sources (experiment run)) →
  ∃ srcs s2,
    (bind_run_entry _id;; running_info_saving strptime md5sum run config dir) s
      = (Ok tt, s2)
    ∧ (dir = None → srcs = VList [] ∧ store s2 = store s)
    ∧ sched (store s2) = []
    ∧ runs (store s2) = runs (store s)
    ∧ metrics (store s2) = metrics (store s)
    ∧ overwrite (self s2) = None
    ∧ run_entry (self s2)
      = Some (<["experiment" := ex_value (experiment run) srcs]>
                (running_info run config a b h ∪ {["_id" := id_value _id]})).
Proof.
  intros Hov Hq Ha Hb Hh Hdir.
  assert (bind_run_entry _id s
          = (Ok tt, Sys (Client None (Some {["_id" := id_value _id]})
                                (priority (self s)) (failure_dir (self s)))
                        (store s))) as E1.
  { unfold bind_run_entry, bind, get_self. by rewrite Hov. }
  rewrite (bind_ok _ _ _ _ _ E1).
  match type of E1 with _ = (_, ?st) => set (s1 := st) in * end.
  destruct dir as [d|].
  - destruct (running_info_saving_idle strptime md5sum run config (Some d) s1
                a b h Hq Ha Hb Hh Hdir) as (srcs & s2 & E2 & Hq2 & Hr2 & Hov2 & He2).
    exists srcs, s2. split; [done|]. split; [done|]. split; [done|].
    split; [done|]. split; [|by split].
    eapply (respects_running_info_saving keeps_metrics) in E2;
      first [ exact E2 | exact keeps_metrics_refl | exact keeps_metrics_trans
            | exact keeps_metrics_mutate | exact keeps_metrics_fs_find
            | exact keeps_metrics_open | exact (keeps_metrics_fs_put md5sum) ].
  - exists (VList []). eexists.
    split; [apply (running_info_saving_no_code strptime md5sum run config s1
                     a b h Ha Hb Hh)|].
    by repeat split.
Qed.

(** X7. An id that is taken is refused.  A finish without an overwrite
    target, asked to store under an id a stored run already has, raises
    DuplicateKeyError (here on an idle schedule, with well-formed times
    and no source file missing); the runs collection and the metrics
    collection are left exactly as they were. *)
Theorem X7_taken_id_is_refused
    (run : run_record) (cout : string) (config : value)
    (mets : option (list (string * batch))) (dir : option snapshot)
    (z : Z) (old : doc) (s : sys) (a b h : Z) :
  overwrite (self s) = None →
  sched (store s) = [] →
  runs (store s) !! z = Some old →
  strptime (start_time run) = Some a →
  strptime (stop_time run) = Some b →
  strptime (heartbeat run) = Some h →
  code_present dir (sources (experiment run)) →
  ∃ s',
    finished_event strptime md5sum re_digit run cout config mets dir
      (Some z) s = (Raise DuplicateKeyError, s')
    ∧ runs (store s') = runs (store s)
    ∧ metrics (store s') = metrics (store s).
Proof.
  intros Hov Hq Hold Ha Hb Hh Hdir.
  destruct (fresh_finish_reaches_insert run config dir (Some z) s a b h
              Hov Hq Ha Hb Hh Hdir)
    as (srcs & s2 & E2 & _ & Hq2 & Hr2 & Hm2 & Hov2 & He2).
  unfold finished_event.
  apply bind_inv_ok in E2 as ([] & s1 & E1 & E2).
  rewrite (bind_ok _ _ _ _ _ E1), (bind_ok _ _ _ _ _ E2).
  set (e2 := <["experiment" := ex_value (experiment run) srcs]>
               (running_info run config a b h ∪ {["_id" := id_value (Some z)]}))
    in *.
  assert (e2 !! "_id" = Some (VInt z)) as Hid.
  { unfold e2. rewrite lookup_insert_ne by done.
    rewrite lookup_union_r by apply running_info_no_id.
    by rewrite lookup_singleton_eq. }
  pose proof (insert_explicit_unfold s2 e2 Hov2 He2 ltac:(by rewrite Hid)) as E3.
  rewrite (runs_insert_one_idle e2 z (store s2) Hq2 Hid), Hr2, Hold in E3.
  rewrite (bind_raise _ _ _ _ _ E3). eexists. split; [reflexivity|].
  simpl_state. by split.
Qed.

(** The whole of a finish without an overwrite target, on an idle
    schedule and for an id that is free or to be allocated. *)
Lemma fresh_finish_stores (run : run_record) (cout : string)
    (config : value) (mets : option (list (string * batch)))
    (dir : option snapshot) (_id : option Z) (s : sys) (a b h : Z) :
  overwrite (self s) = None →
  sched (store s) = [] →
  (∀ z0, _id = Some z0 → runs (store s) !! z0 = None) →
  strptime (start_time run) = Some a →
  strptime (stop_time run) = Some b →
  strptime (heartbeat run) = Some h →
  code_present dir (sources (experiment run)) →
  ∃ z srcs new s',
    finished_event strptime md5sum re_digit run cout config mets dir _id s
      = (Ok z, s')
    ∧ match _id with
      | Some z0 => z = z0
      | None => next_after (runs (store s)) z
      end
    ∧ runs (store s) !! z = None
    ∧ sched (store s') = []
    ∧ runs (store s') = <[z := new]> (runs (store s))
    ∧ new !! "captured_out" = Some (VStr (sub_first re_digit (marker z) cout))
    ∧ new !! "experiment" = Some (ex_value (experiment run) srcs)
    ∧ (dir = None → srcs = VList [])
    ∧ ∀ k, k ∉ ["experiment"; "captured_out"; "info"] →
        new !! k = running_info run config a b h !! k.
Proof.
  intros Hov Hq Hfree Ha Hb Hh Hdir.
  destruct (fresh_finish_reaches_insert run config dir _id s a b h
              Hov Hq Ha Hb Hh Hdir)
    as (srcs & s2 & E2 & Hnone & Hq2 & Hr2 & _ & Hov2 & He2).
  unfold finished_event.
  apply bind_inv_ok in E2 as ([] & s1 & E1 & E2).
  rewrite (bind_ok _ _ _ _ _ E1), (bind_ok _ _ _ _ _ E2).
  set (e2 := <["experiment" := ex_value (experiment run) srcs]>
               (running_info run config a b h ∪ {["_id" := id_value _id]}))
    in *.
  assert (e2 !! "_id" = Some (id_value _id)) as Hid2.
  { unfold e2. rewrite lookup_insert_ne by done.
    rewrite lookup_union_r by apply running_info_no_id.
    by rewrite lookup_singleton_eq. }
  assert (∃ z e3 s3,
            insert s2 = (Ok tt, s3)
            ∧ match _id with
              | Some z0 => z = z0
              | None => next_after (runs (store s)) z
              end
            ∧ runs (store s) !! z = None
            ∧ sched (store s3) = []
            ∧ runs (store s3) = <[z := delete "_id" e2]> (runs (store s))
            ∧ run_entry (self s3) = Some e3
            ∧ e3 !! "_id" = Some (VInt z))
    as (z & e3 & s3 & E3 & Hz & Hfz & Hq3 & Hr3 & He3 & Hid3).
  { destruct _id as [z0|].
    - pose proof (insert_explicit_unfold s2 e2 Hov2 He2 ltac:(by rewrite Hid2))
        as E3.
      rewrite (runs_insert_one_idle e2 z0 (store s2) Hq2 Hid2), Hr2 in E3.
      rewrite (Hfree z0 eq_refl) in E3.
      exists z0, e2. eexists. split; [exact E3|]. simpl_state.
      repeat split; try done; by apply Hfree.
    - destruct (insert_idle_allocates s2 e2 Hov2 He2 ltac:(by rewrite Hid2) Hq2)
        as (z & s3 & E3 & Hnext & Hfz & Hq3 & Hr3 & _ & He3).
      exists z, (<["_id" := VInt z]> e2), s3. rewrite Hr2 in *.
      repeat split; try done; apply lookup_insert_eq. }
  rewrite (bind_ok _ _ _ _ _ E3).
  assert (runs (store s3) !! z = Some (delete "_id" e2)) as Hold3
    by (rewrite Hr3; apply lookup_insert_eq).
  pose proof (save_idle {["captured_out" := VStr (sub_first re_digit (marker z) cout)]}
                e3 _ z s3 Hq3 He3 Hid3 Hold3) as E4.
  rewrite (dict_truthy_lookup _ "captured_out" _ (lookup_singleton_eq _ _)) in E4.
  specialize (E4 (changes_id_without z _
                    (lookup_singleton_ne "captured_out" "_id" _ ltac:(done)))).
  match type of E4 with _ = (_, ?st) => set (s4 := st) in * end.
  assert (insert_captured_output re_digit cout s3 = (Ok z, s4)) as E4'.
  { unfold insert_captured_output.
    rewrite (bind_ok _ _ _ _ _ (entry_id_ok s3 e3 z He3 Hid3)).
    by rewrite (bind_ok _ _ _ _ _ E4). }
  rewrite (bind_ok _ _ _ _ _ E4').
  destruct (insert_metrics_idle z mets e3
              (delete "_id" {["captured_out" := VStr (sub_first re_digit (marker z) cout)]}
                 ∪ delete "_id" e2) s4)
    as (new & s5 & E5 & Hr5 & Hk5); try done.
  { unfold s4. simpl_state. apply lookup_insert_eq. }
  assert (sched (store s5) = []) as Hq5.
  { eapply (respects_insert_metrics stays_idle); [..|exact E5|exact Hq3];
      first [ exact stays_idle_refl | exact stays_idle_trans
            | exact stays_idle_update_one | exact stays_idle_metrics ]. }
  rewrite (bind_ok _ _ _ _ _ E5).
  exists z, srcs, new, s5. split; [reflexivity|].
  split; [done|]. split; [done|]. split; [done|]. split; [|split; [|split; [|split]]].
  - rewrite Hr5. unfold s4. simpl_state. rewrite Hr3.
    by rewrite !insert_insert_eq.
  - rewrite Hk5 by done. apply lookup_union_Some_l.
    rewrite lookup_delete_ne by done. apply lookup_singleton_eq.
  - rewrite Hk5 by done.
    rewrite lookup_union_r
      by (by rewrite lookup_delete_ne, lookup_singleton_ne).
    rewrite lookup_delete_ne by done. unfold e2. apply lookup_insert_eq.
  - intros ->. by destruct (Hnone eq_refl).
  - intros k Hk.
    assert (k ≠ "experiment" ∧ k ≠ "captured_out" ∧ k ≠ "info")
      as (K1 & K2 & K3).
    { rewrite !not_elem_of_cons in Hk. tauto. }
    rewrite Hk5 by done.
    destruct (decide (k = "_id")) as [->|K4].
    + rewrite lookup_union_None_2; [by rewrite running_info_no_id| |];
        apply lookup_delete_eq.
    + rewrite lookup_union_r
        by (by rewrite lookup_delete_ne, lookup_singleton_ne).
      rewrite lookup_delete_ne by done.
      unfold e2. rewrite lookup_insert_ne by done.
      rewrite lookup_union, lookup_singleton_ne by done.
      by destruct (running_info run config a b h !! k).
Qed.


End FreshFinish.

(* --------------------------------------------------------------------- *)
(* Updates that are lost                                                 *)
(* --------------------------------------------------------------------- *)

(** save passes over a lost connection: it returns, and nothing was
    written. *)
Lemma save_lost_connection (nd e : doc) (idv : value) (s : sys)
    (rest : list event) :
  run_entry (self s) = Some e →
  e !! "_id" = Some idv →
  sched (store s) = Fails AutoReconnect :: rest →
  save nd s
  = (Ok tt,
     Sys (self s)
         (World (runs (store s)) (metrics (store s)) (fs (store s))
                (next_oid (store s)) rest
                (log (store s)
                   ++ [RunsUpdateOne idv (if dict_truthy nd then nd else e)]))).
Proof.
  intros He Hid Hs. rewrite (save_unfold nd e idv s He Hid).
  unfold runs_update_one, tick, record_op. cbn [sched]. by rewrite Hs.
Qed.

Section LostUpdate.

Variable strptime : string → option Z.
Variable md5sum : string → string.
Variable re_digit : ascii → bool.

(** X9. A lost update is passed over in silence.  When the connection
    is lost (AutoReconnect) at the update that carries the captured
    output, after the insert went through, finished_event still returns
    the id as if the run were complete: the update was issued, but the
    stored run keeps the empty captured_out it was inserted with. *)
Theorem X9_lost_update_is_passed_over
    (run : run_record) (cout : string) (config : value)
    (mets : option (list (string * batch))) (z : Z) (s : sys) (a b h : Z) :
  overwrite (self s) = None →
  runs (store s) !! z = None →
  sched (store s) = [Quiet; Fails AutoReconnect] →
  strptime (start_time run) = Some a →
  strptime (stop_time run) = Some b →
  strptime (heartbeat run) = Some h →
  ∃ new s',
    finished_event strptime md5sum re_digit run cout config mets None
      (Some z) s = (Ok z, s')
    ∧ RunsUpdateOne (VInt z)
        {["captured_out" := VStr (sub_first re_digit (marker z) cout)]}
      ∈ log (store s')
    ∧ runs (store s') !! z = Some new
    ∧ new !! "captured_out" = Some (VStr "").
Proof.
  intros Hov Hfree Hs Ha Hb Hh.
  assert (∃ new s',
            finished_event strptime md5sum re_digit run cout config mets None
              (Some z) s = (Ok z, s')
            ∧ runs (store s') !! z = Some new
            ∧ new !! "captured_out" = Some (VStr "")) as (new & s' & E & Hst & Hc).
  2:{ exists new, s'. split; [done|]. split; [|done].
      by apply (captured_output_is_saved_rewritten strptime md5sum re_digit
                  run cout config mets None (Some z) s s' z). }
  unfold finished_event.
  erewrite (bind_ok (bind_run_entry _));
    [|unfold bind_run_entry, bind, get_self; by rewrite Hov].
  rewrite (bind_ok _ _ _ _ _
             (running_info_saving_no_code strptime md5sum run config _ a b h
                Ha Hb Hh)).
  cbn [self store overwrite run_entry priority failure_dir fmap option_fmap option_map].
  set (e := <["experiment" := ex_value (experiment run) (VList [])]>
              (running_info run config a b h ∪ {["_id" := id_value (Some z)]})).
  assert (e !! "_id" = Some (VInt z)) as Hid.
  { unfold e. rewrite lookup_insert_ne by done.
    rewrite lookup_union_r by apply running_info_no_id.
    by rewrite lookup_singleton_eq. }
  assert (e !! "captured_out" = Some (VStr "")) as Hcap by reflexivity.
  set (c := Client None (Some e) (priority (self s)) (failure_dir (self s))).
  pose proof (insert_explicit_unfold (Sys c (store s)) e eq_refl eq_refl
                ltac:(by rewrite Hid)) as E3.
  cbn [self store] in E3. unfold runs_insert_one, tick, record_op in E3.
  cbn [sched runs fs next_oid log metrics] in E3.
  rewrite Hs, Hid in E3. cbn [runs] in E3. rewrite Hfree in E3.
  rewrite (bind_ok _ _ _ _ _ E3).
  match type of E3 with _ = (_, ?st) => set (s3 := st) end.
  pose proof (save_lost_connection
                {["captured_out" := VStr (sub_first re_digit (marker z) cout)]}
                e (VInt z) s3 [] eq_refl Hid eq_refl) as E4.
  match type of E4 with _ = (_, ?st) => set (s4 := st) in * end.
  assert (insert_captured_output re_digit cout s3 = (Ok z, s4)) as E4'.
  { unfold insert_captured_output.
    rewrite (bind_ok _ _ _ _ _ (entry_id_ok s3 e z eq_refl Hid)).
    by rewrite (bind_ok _ _ _ _ _ E4). }
  rewrite (bind_ok _ _ _ _ _ E4').
  destruct (insert_metrics_idle z mets e (delete "_id" e) s4)
    as (new & s5 & E5 & Hr5 & Hk5);
    [reflexivity|reflexivity|exact Hid| |].
  { unfold s4, s3. simpl_state. apply lookup_insert_eq. }
  rewrite (bind_ok _ _ _ _ _ E5).
  exists new, s5. split; [reflexivity|]. split.
  - rewrite Hr5. apply lookup_insert_eq.
  - rewrite Hk5 by done. by rewrite lookup_delete_ne.
Qed.

End LostUpdate.

Section Vanished.

Variable strptime : string → option Z.
Variable md5sum : string → string.
Variable re_digit : ascii → bool.

(** X10. An overwrite of a run that is no longer stored writes nothing
    and does not say so.  When the target z, found by initialize, has
    gone from the runs collection by the time of the finish, every
    update_one of finished_event matches no document: on an idle
    schedule, with well-formed times and no source file missing, the
    call returns z as after a successful overwrite, and the runs
    collection is exactly as it was, without a run z. *)
Theorem X10_overwrite_of_a_vanished_run_stores_nothing
    (z prio : Z) (fdir : option string) (w0 w1 w : world) (c : client)
    (run : run_record) (cout : string) (config : value)
    (mets : option (list (string * batch))) (dir : option snapshot)
    (_id : option Z) (a b h : Z) :
  initialize (Some z) prio fdir w0 = (Ok c, w1) →
  sched w = [] →
  runs w !! z = None →
  strptime (start_time run) = Some a →
  strptime (stop_time run) = Some b →
  strptime (heartbeat run) = Some h →
  code_present dir (sources (experiment run)) →
  ∃ s',
    finished_event strptime md5sum re_digit run cout config mets dir _id
      (Sys c w) = (Ok z, s')
    ∧ runs (store s') = runs w.
Proof.
  intros Hinit Hq Hgone Ha Hb Hh Hdir.
  destruct (initialize_found _ _ _ _ _ _ Hinit) as (d & _ & Hov & He).
  assert (c = Client (Some (<["_id" := VInt z]> d)) None
                     (priority c) (failure_dir c)) as ->.
  { destruct c; simpl in *. by subst. }
  unfold finished_event.
  erewrite (bind_ok (bind_run_entry _)); [|reflexivity].
  destruct (running_info_saving_idle strptime md5sum run config dir
              (Sys (Client (Some (<["_id" := VInt z]> d))
                           (Some (<["_id" := VInt z]> d))
                           (priority c) (failure_dir c)) w)
              a b h Hq Ha Hb Hh Hdir)
    as (srcs & s2 & E2 & Hq2 & Hr2 & Hov2 & He2).
  simpl_state in Hov2. simpl_state in He2. simpl_state in Hr2.
  rewrite (bind_ok _ _ _ _ _ E2).
  set (e2 := <["experiment" := ex_value (experiment run) srcs]>
               (running_info run config a b h ∪ <["_id" := VInt z]> d)) in *.
  assert (e2 !! "_id" = Some (VInt z)) as Hid.
  { unfold e2. rewrite lookup_insert_ne by done.
    rewrite lookup_union_r by apply running_info_no_id.
    apply lookup_insert_eq. }
  assert (dict_truthy e2 = true) as Ht by (by eapply dict_truthy_lookup).
  assert (runs (store s2) !! z = None) as Hgone2 by (by rewrite Hr2).
  pose proof (save_idle_missing ∅ e2 z s2 Hq2 He2 Hid Hgone2) as E3.
  rewrite <- (insert_overwriting s2 e2 Hov2 Ht) in E3.
  rewrite (bind_ok _ _ _ _ _ E3).
  match type of E3 with _ = (_, ?st) => set (s3 := st) end.
  pose proof (save_idle_missing
                {["captured_out" := VStr (sub_first re_digit (marker z) cout)]}
                e2 z s3 Hq2 He2 Hid Hgone2) as E4.
  match type of E4 with _ = (_, ?st) => set (s4 := st) in * end.
  assert (insert_captured_output re_digit cout s3 = (Ok z, s4)) as E4'.
  { unfold insert_captured_output.
    rewrite (bind_ok _ _ _ _ _ (entry_id_ok s3 e2 z He2 Hid)).
    by rewrite (bind_ok _ _ _ _ _ E4). }
  rewrite (bind_ok _ _ _ _ _ E4').
  assert (∃ s5, insert_metrics z mets s4 = (Ok tt, s5)
                ∧ runs (store s5) = runs (store s4)) as (s5 & E5 & Hr5).
  { unfold insert_metrics. destruct mets as [[|m ms]|]; try by exists s4.
    destruct (log_metrics_idle z (m :: ms) [] s4 Hq2) as (reg & sm & Elog).
    destruct (calm_log_metrics _ _ _ _ _ _ Elog Hq2) as (Hqm & Hrm & Hsm).
    rewrite (bind_ok _ _ _ _ _ Elog).
    rewrite (save_idle_missing _ e2 z sm Hqm);
      [|by rewrite Hsm|done|by rewrite Hrm].
    eexists. split; [reflexivity|]. simpl_state. exact Hrm. }
  rewrite (bind_ok _ _ _ _ _ E5).
  exists s5. split; [reflexivity|]. by rewrite Hr5.
Qed.

End Vanished.

(* --------------------------------------------------------------------- *)
(* A finish on a client with an overwrite target                        *)
(* --------------------------------------------------------------------- *)

(** What save issues, and to whom. *)
Lemma save_emits (P : op → Prop) (nd e : doc) (idv : value) (s s' : sys)
    (r : res unit) :
  run_entry (self s) = Some e →
  e !! "_id" = Some idv →
  P (RunsUpdateOne idv (if dict_truthy nd then nd else e)) →
  save nd s = (r, s') →
  emits P s s' ∧ self s' = self s.
Proof.
  intros He Hid HP H. split; [|by apply (keeps_self_save nd s r s')].
  pose proof (save_log nd e idv s He Hid) as Hlog. rewrite H in Hlog.
  exists [RunsUpdateOne idv (if dict_truthy nd then nd else e)].
  split; [done|]. by constructor.
Qed.

Section Target.

Variable strptime : string → option Z.
Variable md5sum : string → string.
Variable re_digit : ascii → bool.

(** With an overwrite target the id passed to finished_event is not
    looked at. *)
Lemma bind_run_entry_target (_id _id' : option Z) (s : sys) :
  is_Some (overwrite (self s)) →
  bind_run_entry _id s = bind_run_entry _id' s.
Proof.
  intros [ov Hov]. unfold bind_run_entry, bind, get_self. by rewrite Hov.
Qed.

(** finished_event on a client built for the target z reaches
    self.insert() with the target as entry, under its id. *)
Lemma overwrite_finish_reaches_save (run : run_record) (config : value)
    (dir : option snapshot) (_id : option Z) (ov : doc) (z : Z) (s s2 : sys) :
  overwrite (self s) = Some ov →
  ov !! "_id" = Some (VInt z) →
  (bind_run_entry _id;; running_info_saving strptime md5sum run config dir) s
    = (Ok tt, s2) →
  ∃ e, overwrite (self s2) = Some e
       ∧ run_entry (self s2) = Some e
       ∧ e !! "_id" = Some (VInt z).
Proof.
  intros Hov Hid H.
  apply bind_inv_ok in H as (u & s0 & H0 & H).
  unfold bind_run_entry, bind, get_self in H0. rewrite Hov in H0.
  destruct (run_entry (self s)); [done|]. injection H0 as _ <-.
  unfold running_info_saving in H.
  do 3 (apply bind_inv_ok in H as (? & ? & E & H);
        unfold py_strptime in E; destruct (strptime _); [|done];
        injection E as <- <-).
  apply bind_inv_ok in H as (? & s1 & E & H). injection E as _ <-.
  destruct dir as [d|].
  - apply bind_inv_ok in H as (info & s3 & E & H).
    apply keeps_self_save_sources_loop in E. unfold keeps_self in E.
    apply (f_equal snd) in H. cbn [snd mutate_entry] in H. subst s2.
    simpl_state. rewrite E. simpl_state.
    eexists. split; [done|]. split; [done|].
    rewrite lookup_insert_ne by done.
    by rewrite lookup_union_r by apply running_info_no_id.
  - apply (f_equal snd) in H. cbn [snd mutate_entry] in H. subst s2.
    simpl_state.
    eexists. split; [done|]. split; [done|].
    rewrite lookup_insert_ne by done.
    by rewrite lookup_union_r by apply running_info_no_id.
Qed.

(** X11. With an overwrite target, the id passed to finished_event is
    ignored: for a client built by initialize for the target z, the
    outcome of finished_event is the same whatever _id is given, and an
    id it returns is z. *)
Theorem X11_overwrite_returns_the_target_id
    (z prio : Z) (fdir : option string) (w0 w1 w : world) (c : client)
    (run : run_record) (cout : string) (config : value)
    (mets : option (list (string * batch))) (dir : option snapshot) :
  initialize (Some z) prio fdir w0 = (Ok c, w1) →
  (∀ _id _id',
     finished_event strptime md5sum re_digit run cout config mets dir _id
       (Sys c w)
     = finished_event strptime md5sum re_digit run cout config mets dir _id'
         (Sys c w))
  ∧ ∀ _id z' s',
      finished_event strptime md5sum re_digit run cout config mets dir _id
        (Sys c w) = (Ok z', s') →
      z' = z.
Proof.
  intros Hinit.
  destruct (initialize_found _ _ _ _ _ _ Hinit) as (d & _ & Hov & He).
  split.
  - intros _id _id'. unfold finished_event, bind at 1 3.
    by rewrite (bind_run_entry_target _id _id' (Sys c w))
      by (simpl; by rewrite Hov).
  - intros _id z' s' H. unfold finished_event in H.
    apply bind_inv_ok in H as ([] & s1 & H1 & H).
    apply bind_inv_ok in H as ([] & s2 & H2 & H).
    destruct (overwrite_finish_reaches_save run config dir _id
                (<["_id" := VInt z]> d) z (Sys c w) s2 Hov
                (lookup_insert_eq _ _ _)) as (e & Hov2 & He2 & Hid2).
    { by rewrite (bind_ok _ _ _ _ _ H1). }
    apply bind_inv_ok in H as ([] & s3 & H3 & H).
    rewrite (insert_overwriting s2 e Hov2 (dict_truthy_lookup _ _ _ Hid2)) in H3.
    apply keeps_self_save in H3. unfold keeps_self in H3.
    apply bind_inv_ok in H as (z0 & s4 & H4 & H).
    apply bind_inv_ok in H as ([] & s5 & _ & H).
    assert (z' = z0) as -> by (by injection H). clear H.
    unfold insert_captured_output in H4.
    apply bind_inv_ok in H4 as (z1 & s3' & E & H4).
    apply entry_id_inv in E as (-> & e' & He' & Hid').
    apply bind_inv_ok in H4 as ([] & s4' & _ & Hret). injection Hret as <- _.
    rewrite H3, He2 in He'. injection He' as <-. congruence.
Qed.

(** X12. A finish on a client built for the overwrite target z never
    inserts a run and never allocates an id: whatever the schedule and
    however the call ends, it has issued no insert_one, no
    count_documents and no find on the runs collection, and every
    update_one it has issued addresses the run z. *)
Theorem X12_overwrite_updates_the_target_and_inserts_nothing
    (z prio : Z) (fdir : option string) (w0 w1 w : world) (c : client)
    (run : run_record) (cout : string) (config : value)
    (mets : option (list (string * batch))) (dir : option snapshot)
    (_id : option Z) (r : res Z) (s' : sys) :
  initialize (Some z) prio fdir w0 = (Ok c, w1) →
  finished_event strptime md5sum re_digit run cout config mets dir _id
    (Sys c w) = (r, s') →
  emits (overwrites_only z) (Sys c w) s'.
Proof.
  intros Hinit H.
  destruct (initialize_found _ _ _ _ _ _ Hinit) as (d & _ & Hov & He).
  unfold finished_event in H.
  destruct (bind_run_entry _id (Sys c w)) as [r1 s1] eqn:E1.
  pose proof (emits_bind_run_entry (overwrites_only z) _id _ _ _ E1) as L1.
  destruct r1 as [[]|err];
    [|by rewrite (bind_raise _ _ _ _ _ E1) in H; injection H as _ <-].
  rewrite (bind_ok _ _ _ _ _ E1) in H.
  destruct (running_info_saving strptime md5sum run config dir s1)
    as [r2 s2] eqn:E2.
  assert (emits (overwrites_only z) s1 s2) as L2.
  { eapply (respects_running_info_saving (emits (overwrites_only z)));
      [..|exact E2];
      first [ exact (emits_refl _) | exact (emits_trans _) | exact (emits_mutate _)
            | intros; by apply (emits_store _ _ _ (fs_find_one_log _ _))
            | intros; by apply (emits_store _ _ _ (open_rb_log _ _))
            | intros; by apply (emits_store _ _ _ (fs_put_log _ _ _)) ]. }
  pose proof (emits_trans _ _ _ _ L1 L2) as L12.
  destruct r2 as [[]|err];
    [|by rewrite (bind_raise _ _ _ _ _ E2) in H; injection H as _ <-].
  rewrite (bind_ok _ _ _ _ _ E2) in H.
  destruct (overwrite_finish_reaches_save run config dir _id
              (<["_id" := VInt z]> d) z (Sys c w) s2 Hov
              (lookup_insert_eq _ _ _)) as (e & Hov2 & He2 & Hid2).
  { by rewrite (bind_ok _ _ _ _ _ E1). }
  destruct (insert s2) as [r3 s3] eqn:E3.
  pose proof E3 as E3'.
  rewrite (insert_overwriting s2 e Hov2 (dict_truthy_lookup _ _ _ Hid2)) in E3'.
  destruct (save_emits (overwrites_only z) ∅ e (VInt z) s2 s3 r3 He2 Hid2
              eq_refl E3') as [L3 Hs3].
  pose proof (emits_trans _ _ _ _ L12 L3) as L13.
  destruct r3 as [[]|err];
    [|by rewrite (bind_raise _ _ _ _ _ E3) in H; injection H as _ <-].
  rewrite (bind_ok _ _ _ _ _ E3) in H.
  assert (run_entry (self s3) = Some e) as He3 by congruence.
  apply bind_inv in H as [(z' & s4 & H4 & H)|(err & H4 & _)].
  - unfold insert_captured_output in H4.
    rewrite (bind_ok _ _ _ _ _ (entry_id_ok s3 e z He3 Hid2)) in H4.
    apply bind_inv_ok in H4 as ([] & s4' & Hsv & Hret).
    injection Hret as <- ->.
    destruct (save_emits (overwrites_only z) _ e (VInt z) s3 s4 _ He3 Hid2
                ltac:(by destruct (dict_truthy _)) Hsv) as [L4 Hs4].
    pose proof (emits_trans _ _ _ _ L13 L4) as L14.
    assert (run_entry (self s4) = Some e) as He4 by congruence.
    assert (∀ r5 s5, insert_metrics z mets s4 = (r5, s5) →
                     emits (overwrites_only z) s4 s5) as L5.
    { intros r5 s5 H5. unfold insert_metrics in H5.
      destruct mets as [[|m ms]|]; try (injection H5 as _ <-; apply emits_refl).
      apply bind_inv in H5 as [(reg & sm & Hlog & Hsave)|(err & Hlog & _)].
      - pose proof (keeps_self_log_metrics _ _ _ _ _ _ Hlog) as Hsm.
        unfold keeps_self in Hsm.
        eapply emits_trans.
        + eapply (respects_log_metrics (emits (overwrites_only z))); [..|exact Hlog];
            first [ exact (emits_refl _) | exact (emits_trans _)
                  | intros; by apply (emits_store _ _ _
                                        (metrics_update_one_log _ _ _)) ].
        + eapply (save_emits (overwrites_only z) _ e (VInt z) sm s5);
            [congruence|done|by destruct (dict_truthy _)|exact Hsave].
      - eapply (respects_log_metrics (emits (overwrites_only z))); [..|exact Hlog];
          first [ exact (emits_refl _) | exact (emits_trans _)
                | intros; by apply (emits_store _ _ _
                                      (metrics_update_one_log _ _ _)) ]. }
    apply bind_inv in H as [([] & s5 & H5 & H)|(err & H5 & _)].
    + injection H as _ <-. eapply emits_trans; [exact L14|]. by eapply L5.
    + eapply emits_trans; [exact L14|]. by eapply L5.
  - unfold insert_captured_output in H4.
    rewrite (bind_ok _ _ _ _ _ (entry_id_ok s3 e z He3 Hid2)) in H4.
    apply bind_inv in H4 as [([] & s4' & Hsv & Hret)|(err' & Hsv & _)]; [done|].
    eapply emits_trans; [exact L13|].
    by eapply (save_emits (overwrites_only z) _ e (VInt z) s3 s');
      [..|by destruct (dict_truthy _)|].
Qed.

End Target.

(* --------------------------------------------------------------------- *)
(* What a finish never removes                                           *)
(* --------------------------------------------------------------------- *)

Section StoreRelation.

(** A relation between the state before and the state after that looks
    at the store alone and that every operation on the store respects is
    respected by finished_event. *)
Variable R : sys → sys → Prop.
Hypothesis R_refl : ∀ s, R s s.
Hypothesis R_trans : ∀ s1 s2 s3, R s1 s2 → R s2 s3 → R s1 s3.
Hypothesis R_store : ∀ s s', store s' = store s → R s s'.
Hypothesis R_count : respects R (on_store runs_count_documents).
Hypothesis R_find_max : respects R (on_store runs_find_max).
Hypothesis R_insert_one : ∀ d, respects R (on_store (runs_insert_one d)).
Hypothesis R_update_one : ∀ idv set, respects R (on_store (runs_update_one idv set)).
Hypothesis R_metrics :
  ∀ z name b, respects R (on_store (metrics_update_one z name b)).
Hypothesis R_fs_find : ∀ p h, respects R (on_store (fs_find_one p h)).
Hypothesis R_open : ∀ dir n, respects R (on_store (open_rb dir n)).

Variable strptime : string → option Z.
Variable md5sum : string → string.
Variable re_digit : ascii → bool.

Hypothesis R_fs_put : ∀ p data, respects R (on_store (fs_put md5sum p data)).

Lemma respects_finished_event (run : run_record) (cout : string)
    (config : value) (mets : option (list (string * batch)))
    (dir : option snapshot) (_id : option Z) :
  respects R
    (finished_event strptime md5sum re_digit run cout config mets dir _id).
Proof.
  unfold finished_event. apply respects_bind; [exact R_trans| |].
  - intros s r s' H. apply R_store. by eapply bind_run_entry_store.
  - intros _. apply respects_after_binding; try done.
    intros f s r s' [= _ <-]. by apply R_store.
Qed.

End StoreRelation.

Lemma fs_grows_refl (s : sys) : fs_grows s s.
Proof. exists []. by rewrite app_nil_r. Qed.

Lemma fs_grows_trans (s1 s2 s3 : sys) :
  fs_grows s1 s2 → fs_grows s2 s3 → fs_grows s1 s3.
Proof.
  intros [a1 H1] [a2 H2]. exists (a1 ++ a2). by rewrite H2, H1, app_assoc.
Qed.

Lemma fs_grows_same (s s' : sys) :
  fs (store s') = fs (store s) → fs_grows s s'.
Proof. intros H. exists []. by rewrite app_nil_r. Qed.

Ltac fs_op :=
  apply respects_on_store_world; intros s; apply fs_grows_same; simpl;
  match goal with
  | |- context [tick ?o (store s)] =>
      destruct (tick_metrics o (store s)) as (_ & _ & ?);
      destruct (tick o (store s)) as [[?|] ?]
  | _ => idtac
  end;
  simpl in *; repeat case_match; simpl; done.

Lemma fs_grows_count : respects fs_grows (on_store runs_count_documents).
Proof. unfold runs_count_documents. fs_op. Qed.

Lemma fs_grows_find_max : respects fs_grows (on_store runs_find_max).
Proof. unfold runs_find_max. fs_op. Qed.

Lemma fs_grows_insert_one (d : doc) :
  respects fs_grows (on_store (runs_insert_one d)).
Proof. unfold runs_insert_one. fs_op. Qed.

Lemma fs_grows_update_one (idv : value) (set : doc) :
  respects fs_grows (on_store (runs_update_one idv set)).
Proof. unfold runs_update_one. fs_op. Qed.

Lemma fs_grows_metrics (z : Z) (k : string) (b : batch) :
  respects fs_grows (on_store (metrics_update_one z k b)).
Proof. unfold metrics_update_one. fs_op. Qed.

Lemma fs_grows_fs_find (p h : string) :
  respects fs_grows (on_store (fs_find_one p h)).
Proof. unfold fs_find_one. fs_op. Qed.

Lemma fs_grows_open (dir : snapshot) (n : string) :
  respects fs_grows (on_store (open_rb dir n)).
Proof. unfold open_rb. fs_op. Qed.

Lemma fs_grows_fs_put (md5sum : string → string) (p data : string) :
  respects fs_grows (on_store (fs_put md5sum p data)).
Proof.
  apply respects_on_store_world. intros s. simpl.
  destruct (fs_put_run md5sum p data (store s)) as [(f & _ & H)|(o & _ & H)].
  - by apply fs_grows_same.
  - by eexists.
Qed.

Lemma extends_refl (m : metric_doc) : extends m m.
Proof. repeat split; exists []; by rewrite app_nil_r. Qed.

Lemma extends_trans (m1 m2 m3 : metric_doc) :
  extends m1 m2 → extends m2 m3 → extends m1 m3.
Proof.
  intros (A1 & A2 & A3 & [a Ha] & [b Hb] & [c Hc])
         (B1 & B2 & B3 & [a' Ha'] & [b' Hb'] & [c' Hc']).
  repeat split; try congruence.
  - exists (a ++ a'). by rewrite Ha', Ha, app_assoc.
  - exists (b ++ b'). by rewrite Hb', Hb, app_assoc.
  - exists (c ++ c'). by rewrite Hc', Hc, app_assoc.
Qed.

Lemma Forall2_extends_refl (ms : list metric_doc) : Forall2 extends ms ms.
Proof. induction ms; constructor; [apply extends_refl|done]. Qed.

Lemma metrics_grow_refl (s : sys) : metrics_grow s s.
Proof.
  exists (metrics (store s)), []. rewrite app_nil_r.
  split; [done|apply Forall2_extends_refl].
Qed.

Lemma metrics_grow_same (s s' : sys) :
  metrics (store s') = metrics (store s) → metrics_grow s s'.
Proof.
  intros H. exists (metrics (store s)), []. rewrite app_nil_r.
  split; [done|apply Forall2_extends_refl].
Qed.

Lemma metrics_grow_trans (s1 s2 s3 : sys) :
  metrics_grow s1 s2 → metrics_grow s2 s3 → metrics_grow s1 s3.
Proof.
  intros (k1 & a1 & E1 & H1) (k2 & a2 & E2 & H2). rewrite E1 in H2.
  apply Forall2_app_inv_l in H2 as (k2a & k2b & Ha & Hb & ->).
  exists k2a, (k2b ++ a2). split; [by rewrite E2, app_assoc|].
  clear -H1 Ha. revert k2a Ha.
  induction H1 as [|m m' ms ms' Hm _ IH]; intros k2a Ha.
  - by inversion Ha.
  - inversion Ha; subst. constructor; [by eapply extends_trans|by apply IH].
Qed.

Lemma push_first_extends (z : Z) (k : string) (b : batch)
    (ms ms' : list metric_doc) :
  push_first z k b ms = Some ms' → Forall2 extends ms ms'.
Proof.
  revert ms'. induction ms as [|m ms IH]; intros ms'; simpl; [done|].
  destruct (metric_matches z k m).
  - intros [= <-]. constructor; [|apply Forall2_extends_refl].
    repeat split; by eexists.
  - destruct (push_first z k b ms) as [l|]; [|done]. simpl.
    intros [= <-]. constructor; [apply extends_refl|by apply IH].
Qed.

Lemma metrics_grow_metrics (z : Z) (k : string) (b : batch) :
  respects metrics_grow (on_store (metrics_update_one z k b)).
Proof.
  apply respects_on_store_world. intros s. unfold metrics_update_one.
  destruct (tick_metrics (MetricsUpdateOne z k b) (store s)) as (Hm & _ & _).
  destruct (tick _ (store s)) as [[f|] w1]; simpl in *.
  - by apply metrics_grow_same.
  - destruct (push_first z k b (metrics w1)) as [ms'|] eqn:E; simpl.
    + exists ms', []. rewrite app_nil_r. split; [done|].
      rewrite <- Hm. by eapply push_first_extends.
    + exists (metrics w1), [MetricDoc (next_oid w1) z k (steps b) (values b)
                              (timestamps b)].
      split; [done|]. rewrite Hm. apply Forall2_extends_refl.
Qed.

Lemma metrics_grow_keeps {A} (m : M A) :
  respects keeps_metrics m → respects metrics_grow m.
Proof. intros H s r s' E. apply metrics_grow_same. exact (H s r s' E). Qed.

Section Grows.

Variable strptime : string → option Z.
Variable md5sum : string → string.
Variable re_digit : ascii → bool.

(** X13. A finish removes nothing.  Whatever the client, the schedule
    and the outcome of finished_event: every id of the runs collection
    still has its run, the blob store holds the blobs it held, in place
    and unchanged, followed by the ones added, and the metrics
    collection holds the documents it held, in place, under their ids,
    run ids and names, with arrays that were extended at most. *)
Theorem X13_a_finish_removes_nothing
    (run : run_record) (cout : string) (config : value)
    (mets : option (list (string * batch))) (dir : option snapshot)
    (_id : option Z) (s s' : sys) (r : res Z) :
  finished_event strptime md5sum re_digit run cout config mets dir _id s
    = (r, s') →
  (∀ z, is_Some (runs (store s) !! z) → is_Some (runs (store s') !! z))
  ∧ fs_grows s s'
  ∧ metrics_grow s s'.
Proof.
  intros H. split; [intros z|split].
  - eapply (respects_finished_event (keeps_run z)); [..|exact H];
      try first [ exact (keeps_run_refl z) | exact (keeps_run_trans z)
            | exact (keeps_run_count z) | exact (keeps_run_find_max z)
            | exact (keeps_run_insert_one z) | exact (keeps_run_update_one z)
            | exact (keeps_run_metrics z) | exact (keeps_run_fs_find z)
            | exact (keeps_run_open z) | exact (keeps_run_fs_put md5sum z)
            | intros ? ? Hst; unfold keeps_run; by rewrite Hst ].
  - eapply (respects_finished_event fs_grows); [..|exact H];
      try first [ exact fs_grows_refl | exact fs_grows_trans
            | exact fs_grows_count | exact fs_grows_find_max
            | exact fs_grows_insert_one | exact fs_grows_update_one
            | exact fs_grows_metrics | exact fs_grows_fs_find
            | exact fs_grows_open | exact (fs_grows_fs_put md5sum)
            | intros ? ? Hst; apply fs_grows_same; by rewrite Hst ].
  - eapply (respects_finished_event metrics_grow); [..|exact H];
      try first [ exact metrics_grow_refl | exact metrics_grow_trans
                | exact metrics_grow_metrics
                | intros ? ? Hst; apply metrics_grow_same; by rewrite Hst
                | intros; apply metrics_grow_keeps;
                  first [ apply keeps_metrics_count
                        | apply keeps_metrics_find_max
                        | apply keeps_metrics_insert_one
                        | apply keeps_metrics_update_one
                        | apply keeps_metrics_fs_find
                        | apply keeps_metrics_fs_put
                        | apply keeps_metrics_open ] ].
Qed.

End Grows.

(* --------------------------------------------------------------------- *)
(* A finish without metrics                                              *)
(* --------------------------------------------------------------------- *)

(** save issues one update, of the mapping given or, for an empty one,
    of the entry, which carries its _id. *)
Lemma save_emits_any (P : op → Prop) (nd : doc) :
  (∀ idv e, e !! "_id" = Some idv →
            P (RunsUpdateOne idv (if dict_truthy nd then nd else e))) →
  respects (emits P) (save nd).
Proof.
  intros HP s r s' H.
  destruct (run_entry (self s)) as [e|] eqn:He.
  - destruct (e !! "_id") as [idv|] eqn:Hid.
    + by apply (save_emits P nd e idv s s' r He Hid (HP idv e Hid) H).
    + unfold save in H. rewrite (bind_ok _ _ _ _ _ (entry_ok s e He)), Hid in H.
      injection H as _ <-. apply emits_refl.
  - unfold save, entry, bind, get_self in H. rewrite He in H.
    injection H as _ <-. apply emits_refl.
Qed.

Lemma no_registry_entry (idv : value) (e : doc) :
  e !! "_id" = Some idv → no_registry (RunsUpdateOne idv e).
Proof.
  intros Hid idv' v [= _ ->]. by rewrite lookup_singleton_ne in Hid.
Qed.

Section NoMetrics.

Variable strptime : string → option Z.
Variable md5sum : string → string.
Variable re_digit : ascii → bool.

(** X14. An empty metrics mapping is no metrics.  finished_event does
    for the empty mapping exactly what it does for None; and then,
    whatever the client, the schedule and the outcome, the metrics
    collection is left as it was and no update that sets the field info
    is issued: the registry is written only when there are metrics. *)
Theorem X14_an_empty_mapping_is_no_metrics
    (run : run_record) (cout : string) (config : value)
    (dir : option snapshot) (_id : option Z) (s s' : sys) (r : res Z) :
  finished_event strptime md5sum re_digit run cout config None dir _id s
    = (r, s') →
  finished_event strptime md5sum re_digit run cout config (Some []) dir _id s
    = (r, s')
  ∧ metrics (store s') = metrics (store s)
  ∧ emits no_registry s s'.
Proof.
  intros H. split; [exact H|]. unfold finished_event in H.
  assert (∀ R : sys → sys → Prop,
            (∀ s, R s s) → (∀ s1 s2 s3, R s1 s2 → R s2 s3 → R s1 s3) →
            (∀ s s', store s' = store s → R s s') →
            respects R (running_info_saving strptime md5sum run config dir) →
            respects R insert →
            (∀ nd : doc, dict_truthy nd = true →
                         (∀ v, nd ≠ {["info" := v]}) → respects R (save nd)) →
            R s s') as Hall.
  { intros R R_refl R_trans R_store R2 R3 R4.
    revert H. apply respects_bind; [exact R_trans| |].
    - intros s0 r0 s0' H0. apply R_store. by eapply bind_run_entry_store.
    - intros _. apply respects_bind; [exact R_trans|exact R2|]. intros _.
      apply respects_bind; [exact R_trans|exact R3|]. intros _.
      apply respects_bind; [exact R_trans| |].
      + apply respects_bind; [exact R_trans|by apply respects_entry_id|].
        intros z. apply respects_bind; [exact R_trans| |intros; by apply respects_ret].
        apply R4; [by eapply dict_truthy_lookup, lookup_singleton_eq|].
        intros v Heq. apply (f_equal (lookup "info")) in Heq.
        by rewrite lookup_singleton_ne, lookup_singleton_eq in Heq.
      + intros z. apply respects_bind; [exact R_trans| |intros; by apply respects_ret].
        by apply respects_ret. }
  split.
  - apply (Hall keeps_metrics keeps_metrics_refl keeps_metrics_trans).
    + intros s0 s0' Hst. unfold keeps_metrics. by rewrite Hst.
    + apply respects_running_info_saving;
        first [ exact keeps_metrics_refl | exact keeps_metrics_trans
              | exact keeps_metrics_mutate | exact keeps_metrics_fs_find
              | exact keeps_metrics_open | exact (keeps_metrics_fs_put md5sum) ].
    + apply respects_insert;
        first [ exact keeps_metrics_refl | exact keeps_metrics_trans
              | exact keeps_metrics_mutate | exact keeps_metrics_count
              | exact keeps_metrics_find_max | exact keeps_metrics_insert_one
              | exact keeps_metrics_update_one ].
    + intros nd _ _. apply respects_save;
        first [ exact keeps_metrics_refl | exact keeps_metrics_trans
              | exact keeps_metrics_update_one ].
  - apply (Hall (emits no_registry) (emits_refl _) (emits_trans _)).
    + intros s0 s0' Hst. exists []. by rewrite Hst, app_nil_r.
    + apply respects_running_info_saving;
        first [ exact (emits_refl _) | exact (emits_trans _) | exact (emits_mutate _)
              | intros; by apply (emits_store _ _ _ (fs_find_one_log _ _))
              | intros; by apply (emits_store _ _ _ (open_rb_log _ _))
              | intros; by apply (emits_store _ _ _ (fs_put_log _ _ _)) ].
    + apply respects_bind;
        [exact (emits_trans _)|exact (respects_get_self _ (emits_refl _))|].
      intros c. destruct (match overwrite c with
                          | Some d => dict_truthy d
                          | None => false
                          end).
      * apply save_emits_any. intros idv e Hid.
        rewrite dict_truthy_empty. by apply no_registry_entry.
      * apply respects_bind;
          [exact (emits_trans _)|exact (respects_entry _ (emits_refl _) (emits_trans _))|].
        intros e s0 r0 s0' H0. revert H0. apply respects_insert_loop;
          first [ exact (emits_refl _) | exact (emits_trans _)
                | exact (emits_mutate _)
                | by apply (emits_store _ _ _ runs_count_documents_log)
                | by apply (emits_store _ _ _ runs_find_max_log)
                | intros; by apply (emits_store _ _ _ (runs_insert_one_log _)) ].
    + intros nd Hnd Hne. apply save_emits_any. intros idv e Hid.
      rewrite Hnd. intros idv' v [= _ ->]. by apply (Hne v).
Qed.

End NoMetrics.

(* --------------------------------------------------------------------- *)
(* The script                                                            *)
(* --------------------------------------------------------------------- *)

Section Conversion.

Variable strptime : string → option Z.
Variable md5sum : string → string.
Variable re_digit : ascii → bool.
Variable MongoClient : option string → option error.
Variable Database : string → option error.
Variable Collection : string → option error.
Variable GridFS : string → option error.
Variable Path : string → string.

(** Without an overwrite target the constructor leaves the store alone,
    and the client it gives has no target. *)
Lemma constructor_without_target (url : option string)
    (db_name collection_prefix : string) (prio : Z) (cl : option py_object)
    (fdir : option string) (w w' : world) (r : res (string * string * client)) :
  __init__ MongoClient Database Collection GridFS url db_name
    collection_prefix None prio cl fdir w = (r, w') →
  w' = w ∧ ∀ rn mn c, r = Ok (rn, mn, c) → c = Client None None prio fdir.
Proof.
  unfold __init__. cbn [initialize].
  assert (∀ e, (Raise e, w) = (r, w') →
            w' = w ∧ ∀ rn mn c, r = Ok (rn, mn, c) → c = Client None None prio fdir)
    as Hraise.
  { intros e [= <- <-]. split; [done|]. intros; discriminate. }
  destruct (connect _ _ _); [apply Hraise|].
  destruct (Database _); [apply Hraise|].
  destruct (bool_decide _); [apply Hraise|].
  destruct (bool_decide _); [apply Hraise|].
  destruct (Collection (runs_collection_name _)); [apply Hraise|].
  destruct (Collection (metrics_collection_name _)); [apply Hraise|].
  destruct (GridFS _); [apply Hraise|].
  intros [= <- <-]. split; [done|]. by intros rn mn c [= <- <- <-].
Qed.

(** A run of the script that reaches the store is a finished_event, on a
    client without an overwrite target, of what the four files hold. *)
Lemma storage2mongo_run (disk : gmap string storage) (opt : options)
    (w w' : world) (r : res report) :
  storage2mongo strptime md5sum re_digit MongoClient Database Collection GridFS Path
    disk opt w = (r, w') →
  (∃ e, r = Raise e ∧ w' = w
        ∧ (disk !! Path (opt_src_dir opt) = None → e = NoDirectory (Path (opt_src_dir opt))))
  ∨ (∃ d cout config mets run out s,
       disk !! Path (opt_src_dir opt) = Some d
       ∧ cout_txt d = Some cout ∧ config_json d = Some config
       ∧ metrics_json d = Some mets ∧ run_json d = Some run
       ∧ finished_event strptime md5sum re_digit run cout config (Some mets)
           (source d) (opt_id opt)
           (Sys (Client None None DEFAULT_MONGO_PRIORITY None) w) = (out, s)
       ∧ w' = store s
       ∧ r = match out with
             | Ok _id =>
                 Ok (Report ("Convert finished! Experiment id: " +:+ pretty _id)
                            (pretty _id))
             | Raise e => Raise e
             end).
Proof.
  unfold storage2mongo.
  destruct (disk !! Path (opt_src_dir opt)) as [d|] eqn:Ed.
  2:{ intros [= <- <-]. left. by eexists. }
  destruct (__init__ _ _ _ _ _ _ _ _ _ _ _ w) as [r0 w0] eqn:E0.
  apply constructor_without_target in E0 as [-> Hc].
  destruct r0 as [[[rn mn] mgo]|e].
  2:{ intros [= <- <-]. left. by eexists. }
  rewrite (Hc rn mn mgo eq_refl). unfold read.
  destruct (cout_txt d) as [cout|] eqn:E1; [|intros [= <- <-]; left; by eexists].
  destruct (config_json d) as [config|] eqn:E2; [|intros [= <- <-]; left; by eexists].
  destruct (metrics_json d) as [mets|] eqn:E3; [|intros [= <- <-]; left; by eexists].
  destruct (run_json d) as [run|] eqn:E4; [|intros [= <- <-]; left; by eexists].
  destruct (finished_event _ _ _ _ _ _ _ _ _ _) as [out s] eqn:E.
  intros Hr. right. exists d, cout, config, mets, run, out, s.
  do 6 (split; [done|]).
  destruct out; injection Hr as <- <-; by split.
Qed.

(** X15. Nothing is stored from an incomplete directory.  When src_dir
    is not there, or one of cout.txt, config.json, metrics.json and
    run.json is missing in it, storage2mongo raises before its first
    round trip: the store is exactly as it was.  For a missing directory
    the error is the FileNotFoundError that names it as pathlib writes
    its path. *)
Theorem X15_nothing_is_stored_from_an_incomplete_directory
    (disk : gmap string storage) (opt : options) (w : world) :
  (∀ d, disk !! Path (opt_src_dir opt) = Some d →
        cout_txt d = None ∨ config_json d = None
        ∨ metrics_json d = None ∨ run_json d = None) →
  ∃ e,
    storage2mongo strptime md5sum re_digit MongoClient Database Collection
      GridFS Path disk opt w = (Raise e, w)
    ∧ (disk !! Path (opt_src_dir opt) = None → e = NoDirectory (Path (opt_src_dir opt))).
Proof.
  intros Hmiss.
  destruct (storage2mongo _ _ _ _ _ _ _ _ disk opt w) as [r w'] eqn:E.
  apply storage2mongo_run in E
    as [(e & -> & -> & He)
       |(d & cout & config & mets & run & out & s & Hd & H1 & H2 & H3 & H4 & _)].
  - by exists e.
  - destruct (Hmiss d Hd) as [?|[?|[?|?]]]; congruence.
Qed.


(** finished_event without a directory of sources. *)
Lemma finished_event_without_code_emits (P : op → Prop) (run : run_record)
    (cout : string) (config : value) (mets : option (list (string * batch)))
    (_id : option Z) :
  P RunsCountDocuments → P RunsFindMax →
  (∀ d, P (RunsInsertOne d)) →
  (∀ idv set, P (RunsUpdateOne idv set)) →
  (∀ z k b, P (MetricsUpdateOne z k b)) →
  respects (emits P)
    (finished_event strptime md5sum re_digit run cout config mets None _id).
Proof.
  intros P1 P2 P3 P4 P5. unfold finished_event.
  apply respects_bind; [exact (emits_trans _)|apply emits_bind_run_entry|].
  intros _. apply respects_bind; [exact (emits_trans _)| |].
  - unfold running_info_saving.
    do 3 (apply respects_bind;
          [exact (emits_trans _)
          |apply respects_strptime; exact (emits_refl _)|intros ?]).
    apply respects_bind;
      [exact (emits_trans _)|apply emits_mutate|intros _; apply emits_mutate].
  - intros _. apply respects_bind; [exact (emits_trans _)| |].
    + apply respects_insert;
        first [ exact (emits_refl _) | exact (emits_trans _) | exact (emits_mutate _)
              | by apply (emits_store _ _ _ runs_count_documents_log)
              | by apply (emits_store _ _ _ runs_find_max_log)
              | intros; by apply (emits_store _ _ _ (runs_insert_one_log _))
              | intros; by apply (emits_store _ _ _ (runs_update_one_log _ _)) ].
    + intros _. apply respects_bind; [exact (emits_trans _)| |].
      * apply respects_insert_captured_output;
          first [ exact (emits_refl _) | exact (emits_trans _)
                | intros; by apply (emits_store _ _ _ (runs_update_one_log _ _)) ].
      * intros z. apply respects_bind;
          [exact (emits_trans _)| |intros; apply respects_ret; exact (emits_refl _)].
        apply respects_insert_metrics;
          first [ exact (emits_refl _) | exact (emits_trans _)
                | intros; by apply (emits_store _ _ _ (runs_update_one_log _ _))
                | intros; by apply (emits_store _ _ _
                                      (metrics_update_one_log _ _ _)) ].
Qed.


(** X17. Without a source directory GridFS is not used.  When src_dir
    has no subdirectory source, storage2mongo passes no code directory:
    whatever the schedule and however the run of the script ends, it has
    issued no operation on GridFS and opened no source file. *)
Theorem X17_without_a_source_directory_gridfs_is_not_used
    (disk : gmap string storage) (opt : options) (w w' : world)
    (r : res report) (d : storage) :
  disk !! Path (opt_src_dir opt) = Some d →
  source d = None →
  storage2mongo strptime md5sum re_digit MongoClient Database Collection GridFS Path
    disk opt w = (r, w') →
  ∃ l, log w' = log w ++ l ∧ Forall (λ o, fs_op o = false) l.
Proof.
  intros Hd Hsrc E.
  apply storage2mongo_run in E
    as [(e & _ & -> & _)
       |(d' & cout & config & mets & run & out & s & Hd' & _ & _ & _ & _ & E & -> & _)].
  - exists []. by rewrite app_nil_r.
  - assert (d' = d) as -> by congruence. rewrite Hsrc in E.
    by apply (finished_event_without_code_emits (λ o, fs_op o = false)) in E.
Qed.

(** X18. The script never changes a stored run.  storage2mongo builds
    its client without an overwrite target, so whatever the directory
    holds, whatever id is configured and however the run of the script
    ends, every run stored before is stored afterwards exactly as it
    was. *)
Theorem X18_the_script_never_changes_a_stored_run
    (disk : gmap string storage) (opt : options) (w w' : world)
    (r : res report) :
  storage2mongo strptime md5sum re_digit MongoClient Database Collection GridFS Path
    disk opt w = (r, w') →
  ∀ k d, runs w !! k = Some d → runs w' !! k = Some d.
Proof.
  intros E k doc0 Hk.
  apply storage2mongo_run in E
    as [(e & _ & -> & _)
       |(d & cout & config & mets & run & out & s & _ & _ & _ & _ & _ & E & -> & _)];
    [done|].
  by destruct (fresh_finish_leaves_stored_runs strptime md5sum re_digit
                 run cout config (Some mets) (source d) (opt_id opt)
                 (Sys (Client None None DEFAULT_MONGO_PRIORITY None) w) s out
                 k doc0 eq_refl E Hk).
Qed.

End Conversion.

(* --------------------------------------------------------------------- *)
(* Ids given and ids allocated                                           *)
(* --------------------------------------------------------------------- *)

(** X19. An id that was given is not tried again.  When the entry
    carries an id z and another writer stores a run under z just before
    the insert_one of self.insert() is applied, insert raises
    DuplicateKeyError at once: there is no second turn of the loop, the
    entry is not stored, and the runs collection holds what it held and
    the run of the other writer. *)
Theorem X19_a_given_id_is_not_tried_again
    (s : sys) (e : doc) (z : Z) (rest : list event) :
  overwrite (self s) = None →
  run_entry (self s) = Some e →
  e !! "_id" = Some (VInt z) →
  sched (store s) = Rival z :: rest →
  ∃ s',
    insert s = (Raise DuplicateKeyError, s')
    ∧ runs (store s') = rival_insert z (runs (store s))
    ∧ is_Some (runs (store s') !! z)
    ∧ sched (store s') = rest
    ∧ self s' = self s
    ∧ log (store s') = log (store s) ++ [RunsInsertOne e].
Proof.
  intros Hov He Hid Hs.
  rewrite (insert_explicit_unfold s e Hov He) by (by rewrite Hid).
  unfold runs_insert_one, tick, record_op. cbn [sched]. rewrite Hs, Hid.
  cbn [runs]. unfold rival_insert.
  destruct (runs (store s) !! z) as [d|] eqn:Ez.
  - rewrite Ez. eexists. split; [reflexivity|]. simpl_state.
    by rewrite Ez.
  - rewrite lookup_insert_eq. eexists. split; [reflexivity|]. simpl_state.
    by rewrite lookup_insert_eq.
Qed.

Lemma next_after_insert (r : gmap Z doc) (z z' : Z) (d : doc) :
  next_after r z → next_after (<[z := d]> r) z' → z' = z + 1.
Proof.
  intros Hz [[Hemp _]|(m & Hm & Hmax & ->)].
  { by destruct (insert_non_empty r z d). }
  f_equal.
  assert (z ≤ m) by (apply Hmax; by rewrite lookup_insert_eq).
  destruct (decide (m = z)) as [->|Hne]; [done|].
  rewrite lookup_insert_ne in Hm by done.
  destruct Hz as [[-> _]|(m0 & Hm0 & Hmax0 & ->)].
  - rewrite lookup_empty in Hm. by destruct Hm.
  - assert (m ≤ m0) by (apply Hmax0; done). lia.
Qed.

Section Consecutive.

Variable strptime : string → option Z.
Variable md5sum : string → string.
Variable re_digit : ascii → bool.

Lemma stays_free_store {A} (f : world → res A * world) :
  respects stays_free (on_store f).
Proof. apply respects_on_store_world. by intros s H. Qed.

(** However finished_event ends, a client without an overwrite target is
    left without one. *)
Lemma finished_event_stays_free (run : run_record) (cout : string)
    (config : value) (mets : option (list (string * batch)))
    (dir : option snapshot) (_id : option Z) :
  respects stays_free
    (finished_event strptime md5sum re_digit run cout config mets dir _id).
Proof.
  assert (∀ s1 s2 s3, stays_free s1 s2 → stays_free s2 s3 → stays_free s1 s3)
    as Htrans by (unfold stays_free; auto).
  unfold finished_event. apply respects_bind; [exact Htrans| |].
  - intros s r s' H Hov. unfold bind_run_entry, bind, get_self in H.
    rewrite Hov in H. by injection H as _ <-.
  - intros _. apply respects_after_binding;
      first [ exact Htrans | by intros s H
            | intros; apply stays_free_store
            | intros f s r s' [= _ <-] Hov; simpl; by rewrite Hov ].
Qed.

(** X20. Ids are allocated in sequence.  A finish on a client without
    an overwrite target and without an id given, on a store that meets
    no other writer and no failure, returns an id z and leaves the
    client without a target; and a second such finish on the store it
    left, by the same client or by any other client without a target,
    returns z plus one.  Both runs are stored: a client without a target
    is never used up. *)
Theorem X20_ids_are_allocated_in_sequence
    (run run' : run_record) (cout cout' : string) (config config' : value)
    (mets mets' : option (list (string * batch))) (dir dir' : option snapshot)
    (s : sys) (a b h a' b' h' : Z) :
  overwrite (self s) = None →
  sched (store s) = [] →
  strptime (start_time run) = Some a →
  strptime (stop_time run) = Some b →
  strptime (heartbeat run) = Some h →
  code_present dir (sources (experiment run)) →
  strptime (start_time run') = Some a' →
  strptime (stop_time run') = Some b' →
  strptime (heartbeat run') = Some h' →
  code_present dir' (sources (experiment run')) →
  ∃ z s1,
    finished_event strptime md5sum re_digit run cout config mets dir None s
      = (Ok z, s1)
    ∧ next_after (runs (store s)) z
    ∧ overwrite (self s1) = None
    ∧ ∀ c', overwrite c' = None →
        ∃ s2,
          finished_event strptime md5sum re_digit run' cout' config' mets'
            dir' None (Sys c' (store s1))
          = (Ok (z + 1), s2)
          ∧ is_Some (runs (store s2) !! z)
          ∧ is_Some (runs (store s2) !! (z + 1)).
Proof.
  intros Hov Hq Ha Hb Hh Hdir Ha' Hb' Hh' Hdir'.
  destruct (fresh_finish_stores strptime md5sum re_digit run cout config mets
              dir None s a b h Hov Hq ltac:(done) Ha Hb Hh Hdir)
    as (z & srcs & new & s1 & E1 & Hz & _ & Hq1 & Hr1 & _).
  exists z, s1. split; [done|]. split; [done|].
  split; [exact (finished_event_stays_free _ _ _ _ _ _ _ _ _ E1 Hov)|].
  intros c' Hov'.
  destruct (fresh_finish_stores strptime md5sum re_digit run' cout' config'
              mets' dir' None (Sys c' (store s1)) a' b' h' Hov' Hq1
              ltac:(done) Ha' Hb' Hh' Hdir')
    as (z' & srcs' & new' & s2 & E2 & Hz' & _ & _ & Hr2 & _).
  cbn [store] in Hz', Hr2. rewrite Hr1 in Hz'.
  pose proof (next_after_insert _ _ _ _ Hz Hz') as ->.
  exists s2. split; [done|].
  rewrite Hr2, Hr1. split.
  - rewrite lookup_insert_ne by lia. by rewrite lookup_insert_eq.
  - by rewrite lookup_insert_eq.
Qed.

End Consecutive.

(* --------------------------------------------------------------------- *)
(* A failure in the loop over the metrics                                *)
(* --------------------------------------------------------------------- *)

Lemma metrics_update_one_quiet (z : Z) (k : string) (b : batch) (w : world)
    (rest : list event) :
  sched w = Quiet :: rest →
  ∃ up w',
    metrics_update_one z k b w = (Ok up, w')
    ∧ sched w' = rest
    ∧ runs w' = runs w
    ∧ log w' = log w ++ [MetricsUpdateOne z k b]
    ∧ is_Some (metric_ref z k (metrics w')).
Proof.
  intros Hs.
  destruct (metrics_update_one z k b w) as [r w'] eqn:E.
  pose proof (metrics_update_one_log z k b w) as Hlog. rewrite E in Hlog.
  assert (∃ up, r = Ok up ∧ sched w' = rest ∧ runs w' = runs w) as (up & -> & Hq & Hr).
  { unfold metrics_update_one, tick, record_op in E. cbn [sched] in E.
    rewrite Hs in E. cbn [metrics] in E.
    destruct (push_first z k b (metrics w)); injection E as <- <-; by eexists. }
  exists up, w'. repeat split; try done.
  destruct (metrics_update_one_refs _ _ _ _ _ _ E) as (_ & _ & Hup).
  destruct up as [o|]; [destruct Hup as [_ ->]; by eexists|].
  destruct Hup as [o Ho].
  destruct (metrics_update_one_refs _ _ _ _ _ _ E) as (Hkeep & _ & _).
  rewrite (Hkeep z k o Ho). by eexists.
Qed.

Lemma log_metrics_fails (z : Z) (done rest : list (string * batch))
    (key : string) (b : batch) (reg : list value) (f : fault)
    (tail : list event) (s : sys) :
  sched (store s) = replicate (length done) Quiet ++ Fails f :: tail →
  ∃ s',
    log_metrics z (done ++ (key, b) :: rest) reg s = (Raise (PyMongo f), s')
    ∧ sched (store s') = tail
    ∧ runs (store s') = runs (store s)
    ∧ self s' = self s
    ∧ log (store s')
      = log (store s)
        ++ map (λ kb, MetricsUpdateOne z (fst kb) (snd kb)) (done ++ [(key, b)])
    ∧ ∀ k, k ∈ map fst done → is_Some (metric_ref z k (metrics (store s'))).
Proof.
  revert reg s. induction done as [|[k0 b0] done IH]; intros reg s Hs.
  - cbn [app length replicate] in *.
    eexists. split.
    + cbn [log_metrics]. apply bind_raise. rewrite on_store_run.
      unfold metrics_update_one, tick, record_op. cbn [sched]. rewrite Hs.
      reflexivity.
    + simpl_state. repeat split; try done.
      intros k Hk. by apply elem_of_nil in Hk.
  - cbn [app length replicate] in Hs.
    destruct (metrics_update_one_quiet z k0 b0 (store s) _ Hs)
      as (up & w1 & E1 & Hq1 & Hr1 & Hl1 & Href1).
    destruct (IH match up with
                 | Some o => reg ++ [entry_of k0 o]
                 | None => reg
                 end (Sys (self s) w1) Hq1)
      as (s' & E & Hq' & Hr' & Hself' & Hl' & Hrefs').
    exists s'. split.
    { cbn [app log_metrics].
      rewrite (bind_ok _ _ _ _ _ (on_store_ok _ s _ _ E1)). exact E. }
    simpl_state in Hr'. simpl_state in Hself'. simpl_state in Hl'.
    split; [done|]. split; [congruence|]. split; [done|].
    split; [by rewrite Hl', Hl1, <- app_assoc|].
    intros k Hk. cbn [map fst] in Hk.
    apply elem_of_cons in Hk as [->|Hk]; [|by apply Hrefs'].
    destruct Href1 as [o Ho].
    exists o.
    by apply (ref_stable_log_metrics z z k0 o _ _ _ _ _ E).
Qed.

(** X21. Metrics written before a failure are not registered.  When the
    upsert of one metric fails in the loop of finished_event over the
    metrics (here after upserts of the metrics before it that met
    nothing special), the failure is raised as it is and the loop is
    left at once: the metrics after it are not written, and the update
    that would record the registry in info is never issued, although
    the documents of the metrics before it are in the metrics
    collection. *)
Theorem X21_metrics_written_before_a_failure_are_not_registered
    (z : Z) (done rest : list (string * batch)) (key : string) (b : batch)
    (f : fault) (tail : list event) (s : sys) :
  sched (store s) = replicate (length done) Quiet ++ Fails f :: tail →
  ∃ s',
    insert_metrics z (Some (done ++ (key, b) :: rest)) s
      = (Raise (PyMongo f), s')
    ∧ runs (store s') = runs (store s)
    ∧ log (store s')
      = log (store s)
        ++ map (λ kb, MetricsUpdateOne z (fst kb) (snd kb)) (done ++ [(key, b)])
    ∧ ∀ k, k ∈ map fst done → is_Some (metric_ref z k (metrics (store s'))).
Proof.
  intros Hs.
  destruct (log_metrics_fails z done rest key b [] f tail s Hs)
    as (s' & E & _ & Hr & _ & Hl & Hrefs).
  exists s'. split; [|done].
  unfold insert_metrics.
  destruct (done ++ (key, b) :: rest) as [|m ms] eqn:El.
  - by destruct done.
  - by rewrite (bind_raise _ _ _ _ _ E).
Qed.

(* --------------------------------------------------------------------- *)
(* The upserts of a finish                                               *)
(* --------------------------------------------------------------------- *)

Lemma filter_none {A} (P : A → bool) (l : list A) :
  Forall (λ x, P x = false) l → List.filter P l = [].
Proof.
  induction 1 as [|x l Hx _ IH]; [done|]. simpl. by rewrite Hx.
Qed.

Lemma filter_upserts (z : Z) (ms : list (string * batch)) :
  List.filter is_upsert (upserts z ms) = upserts z ms.
Proof.
  induction ms as [|kb ms IH]; [done|]. simpl. by rewrite IH.
Qed.

(** The loop over the metrics issues the upserts of the mapping, and
    nothing else. *)
Lemma log_metrics_upserts (z : Z) (ms : list (string * batch))
    (reg reg' : list value) (s s' : sys) :
  log_metrics z ms reg s = (Ok reg', s') →
  log (store s') = log (store s) ++ upserts z ms.
Proof.
  revert reg s. induction ms as [|[k b] ms IH]; intros reg s H.
  - injection H as _ <-. by rewrite app_nil_r.
  - cbn [log_metrics] in H.
    apply bind_inv_ok in H as (up & s1 & H1 & H).
    rewrite on_store_run in H1. injection H1 as _ <-.
    rewrite (IH _ _ H). simpl_state.
    rewrite (metrics_update_one_log z k b (store s)).
    by rewrite <- app_assoc.
Qed.

Section Upserts.

Variable strptime : string → option Z.
Variable md5sum : string → string.
Variable re_digit : ascii → bool.

(** X22. One upsert per metric, under the id returned.  A finish that
    returns z has issued on the metrics collection exactly the upserts
    of its metrics mapping, one per metric, in the order of the mapping
    and each under the run id z; with no metrics it has issued none. *)
Theorem X22_one_upsert_per_metric_under_the_id_returned
    (run : run_record) (cout : string) (config : value)
    (mets : option (list (string * batch))) (dir : option snapshot)
    (_id : option Z) (s s' : sys) (z : Z) :
  finished_event strptime md5sum re_digit run cout config mets dir _id s
    = (Ok z, s') →
  ∃ l,
    log (store s') = log (store s) ++ l
    ∧ List.filter is_upsert l = upserts z (default [] mets).
Proof.
  intros H. unfold finished_event in H.
  apply bind_inv_ok in H as ([] & s1 & H1 & H).
  apply bind_inv_ok in H as ([] & s2 & H2 & H).
  apply bind_inv_ok in H as ([] & s3 & H3 & H).
  apply bind_inv_ok in H as (z' & s4 & H4 & H).
  apply bind_inv_ok in H as ([] & s5 & H5 & H).
  injection H as -> <-.
  set (P := λ o, is_upsert o = false).
  assert (emits P s s4) as (l4 & Hl4 & HP4).
  { eapply emits_trans; [by eapply emits_bind_run_entry|].
    eapply emits_trans; [|eapply emits_trans].
    - eapply (respects_running_info_saving (emits P)); [..|exact H2];
        first [ exact (emits_refl _) | exact (emits_trans _) | exact (emits_mutate _)
              | intros; by apply (emits_store _ _ _ (fs_find_one_log _ _))
              | intros; by apply (emits_store _ _ _ (open_rb_log _ _))
              | intros; by apply (emits_store _ _ _ (fs_put_log _ _ _)) ].
    - eapply (respects_insert (emits P)); [..|exact H3];
        first [ exact (emits_refl _) | exact (emits_trans _) | exact (emits_mutate _)
              | by apply (emits_store _ _ _ runs_count_documents_log)
              | by apply (emits_store _ _ _ runs_find_max_log)
              | intros; by apply (emits_store _ _ _ (runs_insert_one_log _))
              | intros; by apply (emits_store _ _ _ (runs_update_one_log _ _)) ].
    - eapply (respects_insert_captured_output (emits P)); [..|exact H4];
        first [ exact (emits_refl _) | exact (emits_trans _)
              | intros; by apply (emits_store _ _ _ (runs_update_one_log _ _)) ]. }
  assert (∃ l5, log (store s5) = log (store s4) ++ l5
                ∧ List.filter is_upsert l5 = upserts z (default [] mets))
    as (l5 & Hl5 & Hf5).
  { unfold insert_metrics in H5. destruct mets as [[|m ms]|].
    - injection H5 as <-. exists []. by rewrite app_nil_r.
    - apply bind_inv_ok in H5 as (reg & sm & Hlog & Hsave).
      apply log_metrics_upserts in Hlog.
      assert (emits P sm s5) as (l & Hl & HP).
      { eapply (respects_save (emits P)); [..|exact Hsave];
          first [ exact (emits_refl _) | exact (emits_trans _)
                | intros; by apply (emits_store _ _ _ (runs_update_one_log _ _)) ]. }
      exists (upserts z (m :: ms) ++ l). split.
      + by rewrite Hl, Hlog, <- app_assoc.
      + rewrite List.filter_app, filter_upserts, (filter_none _ _ HP).
        by rewrite app_nil_r.
    - injection H5 as <-. exists []. by rewrite app_nil_r. }
  exists (l4 ++ l5). split.
  - by rewrite Hl5, Hl4, <- app_assoc.
  - by rewrite List.filter_app, (filter_none _ _ HP4).
Qed.

End Upserts.

(* ===================================================================== *)
(* The statements at sample inputs                                       *)
(* ===================================================================== *)

(** The example of the specification: only the first marker takes the
    final id 7. *)
Example sub_first_sample :
  sub_first ascii_digit (marker 7) sample_cout
  = "Started run with ID " +:+ String dquote "7" +:+ String dquote
      (String "010"%char "Started run with ID ") +:+ String dquote "999"
      +:+ String dquote " again".
Proof. vm_compute. reflexivity. Qed.

(** The lost race: the candidate 3 is taken, the next turn reads the
    maximum 3 and stores the entry under 4. *)
Example insert_retries_after_lost_race :
  fst (insert (Sys waiting_client raced_world)) = Ok tt
  ∧ run_entry (self (snd (insert (Sys waiting_client raced_world))))
    = Some (<["_id" := VInt 4]> waiting_entry)
  ∧ runs (store (snd (insert (Sys waiting_client raced_world)))) !! 3
    = Some ∅
  ∧ runs (store (snd (insert (Sys waiting_client raced_world)))) !! 4
    = Some {["status" := VStr "COMPLETED"]}.
Proof. repeat split; vm_compute; reflexivity. Qed.

(** The overwrite of run 1: the stored run takes the status of the new
    record and the captured output rewritten for its id, and the registry
    it had is gone with the reset of info. *)
Example first_finish_overwrites_run_1 :
  (fst (finished_event sample_strptime sample_md5 ascii_digit sample_run
          sample_cout sample_config None None None
          (Sys overwrite_client stored_world)),
   runs (store (snd (finished_event sample_strptime sample_md5 ascii_digit
                       sample_run sample_cout sample_config None None None
                       (Sys overwrite_client stored_world)))) !! 1
     ≫= λ d : doc, d !! "status",
   runs (store (snd (finished_event sample_strptime sample_md5 ascii_digit
                       sample_run sample_cout sample_config None None None
                       (Sys overwrite_client stored_world)))) !! 1
     ≫= λ d : doc, d !! "captured_out",
   stored_info
     (store (snd (finished_event sample_strptime sample_md5 ascii_digit
                    sample_run sample_cout sample_config None None None
                    (Sys overwrite_client stored_world)))) 1)
  = (Ok 1, Some (VStr "COMPLETED"),
     Some (VStr ("Started run with ID " +:+ String dquote "1" +:+ String dquote
                   (String "010"%char "Started run with ID ")
                   +:+ String dquote "999" +:+ String dquote " again")),
     Some (VDict [])).
Proof. vm_compute. reflexivity. Qed.

(** A fresh run with its sources and a first batch of loss: id 1, two
    blobs, one metric document and one registry entry. *)
Example fresh_finish_registers_loss :
  (fst (finished_event sample_strptime sample_md5 ascii_digit sample_run
          sample_cout sample_config (Some [("loss", loss_batch)])
          (Some sample_dir) None (Sys fresh_client empty_world)),
   stored_info
     (store (snd (finished_event sample_strptime sample_md5 ascii_digit
                    sample_run sample_cout sample_config
                    (Some [("loss", loss_batch)]) (Some sample_dir) None
                    (Sys fresh_client empty_world)))) 1,
   map b_filename
     (fs (store (snd (finished_event sample_strptime sample_md5 ascii_digit
                        sample_run sample_cout sample_config
                        (Some [("loss", loss_batch)]) (Some sample_dir) None
                        (Sys fresh_client empty_world))))))
  = (Ok 1, Some (info_value [entry_of "loss" 2]),
     ["/home/u/exp/main.py"; "/home/u/exp/util.py"]).
Proof. vm_compute. reflexivity. Qed.

(** A lost race and a newcomer: the candidate 3 is taken, run 10
    arrives while the client counts again, and the next turn reads the
    maximum 10 and stores the entry under 11. *)
Example insert_reads_the_maximum_again :
  fst (insert (Sys waiting_client twice_raced_world)) = Ok tt
  ∧ run_entry (self (snd (insert (Sys waiting_client twice_raced_world))))
    = Some (<["_id" := VInt 11]> waiting_entry)
  ∧ log (store (snd (insert (Sys waiting_client twice_raced_world))))
    = [RunsCountDocuments; RunsFindMax;
       RunsInsertOne (<["_id" := VInt 3]> waiting_entry);
       RunsCountDocuments; RunsFindMax;
       RunsInsertOne (<["_id" := VInt 11]> waiting_entry)]
  ∧ runs (store (snd (insert (Sys waiting_client twice_raced_world)))) !! 4
    = None
  ∧ runs (store (snd (insert (Sys waiting_client twice_raced_world)))) !! 11
    = Some {["status" := VStr "COMPLETED"]}.
Proof. repeat split; vm_compute; reflexivity. Qed.

(** The document the store cannot encode: the caller of insert gets the
    NameError, and nothing is stored. *)
Example insert_of_an_unencodable_entry :
  fst (insert (Sys waiting_client unencodable_world))
  = Raise (NameError "ObserverError")
  ∧ runs (store (snd (insert (Sys waiting_client unencodable_world))))
    = runs unencodable_world.
Proof. split; vm_compute; reflexivity. Qed.

(** C1 at the entry the store cannot encode. *)
Lemma C1_witness :
  overwrite (self (Sys waiting_client unencodable_world)) = None
  ∧ run_entry (self (Sys waiting_client unencodable_world)) = Some waiting_entry
  ∧ is_none (waiting_entry !! "_id") = true
  ∧ ∃ r s' ops,
      insert (Sys waiting_client unencodable_world) = (r, s')
      ∧ log (store s') = log (store (Sys waiting_client unencodable_world)) ++ ops
      ∧ sched (store s')
        = drop (length ops) (sched (store (Sys waiting_client unencodable_world)))
      ∧ (∀ i d, ops !! i = Some (RunsInsertOne d) →
           ∃ c j o,
             d = <["_id" := VInt c]> waiting_entry
             ∧ next_after
                 (seen_after (store (Sys waiting_client unencodable_world)) i) c
             ∧ i = S j ∧ ops !! j = Some o ∧ is_read o = true)
      ∧ (∀ i d, ops !! i = Some (RunsInsertOne d) → (S i < length ops)%nat →
           ∃ c, sched (store (Sys waiting_client unencodable_world)) !! i
                = Some (Rival c)
                ∧ d = <["_id" := VInt c]> waiting_entry)
      ∧ match r with
        | Ok _ =>
            faultless
              (take (length ops)
                 (sched (store (Sys waiting_client unencodable_world))))
            ∧ ∃ z earlier,
                ops = earlier
                      ++ [RunsInsertOne (<["_id" := VInt z]> waiting_entry)]
                ∧ seen_after (store (Sys waiting_client unencodable_world))
                    (length ops) !! z = None
                ∧ runs (store s')
                  = <[z := delete "_id" waiting_entry]>
                      (seen_after (store (Sys waiting_client unencodable_world))
                         (length ops))
                ∧ run_entry (self s')
                  = Some (<["_id" := VInt z]> waiting_entry)
        | Raise err =>
            ∃ n f o,
              length ops = S n
              ∧ ops !! n = Some o
              ∧ sched (store (Sys waiting_client unencodable_world)) !! n
                = Some (Fails f)
              ∧ faultless
                  (take n (sched (store (Sys waiting_client unencodable_world))))
              ∧ runs (store s')
                = seen_after (store (Sys waiting_client unencodable_world)) n
              ∧ err = reaches_caller o f
        end.
Proof.
  split; [reflexivity|]. split; [reflexivity|]. split; [reflexivity|].
  apply (C1_insert_takes_maximum_plus_one (Sys waiting_client unencodable_world)
           waiting_entry); reflexivity.
Defined.

(** C10 at an entry waiting for its id. *)
Lemma C10_witness :
  run_entry (self (Sys waiting_client empty_world)) = Some waiting_entry
  ∧ waiting_entry !! "_id" = Some VNone
  ∧ save ∅ (Sys waiting_client empty_world)
    = save waiting_entry (Sys waiting_client empty_world)
  ∧ log (store (snd (save ∅ (Sys waiting_client empty_world))))
    = [RunsUpdateOne VNone waiting_entry].
Proof.
  split; [reflexivity|]. split; [reflexivity|].
  destruct (C10_save_empty_mapping_sets_whole_entry
              (Sys waiting_client empty_world) waiting_entry VNone
              eq_refl eq_refl) as (H1 & H2 & _).
  split; [exact H1|exact H2].
Defined.

(** C8 at the empty store: no run 7 to overwrite. *)
Lemma C8_witness :
  answers empty_world
  ∧ head (sched empty_world) ≠ Some (Rival 7)
  ∧ runs empty_world !! 7 = None
  ∧ initialize (Some 7) 30 None empty_world
    = (Raise (NotFound 7), snd (tick (RunsFindOne 7) empty_world)).
Proof.
  assert (answers empty_world) as Ha by (intros f; simpl; discriminate).
  assert (head (sched empty_world) ≠ Some (Rival 7)) as Hr
    by (simpl; discriminate).
  split; [exact Ha|]. split; [exact Hr|]. split; [reflexivity|].
  exact (proj1 (C8_initialize_rejects_missing_target sample_strptime sample_md5
                  ascii_digit 7 30 None empty_world Ha Hr eq_refl)).
Defined.

(** C3 at a store that rejects the document of run 7. *)
Lemma C3_witness :
  overwrite (self (Sys fresh_client rejecting_world)) = None
  ∧ sample_strptime (start_time sample_run) = Some 26
  ∧ sample_strptime (stop_time sample_run) = Some 26
  ∧ sample_strptime (heartbeat sample_run) = Some 26
  ∧ sched (store (Sys fresh_client rejecting_world))
    = [Fails InvalidDocument]
  ∧ fst (finished_event sample_strptime sample_md5 ascii_digit sample_run
           sample_cout sample_config None None (Some 7)
           (Sys fresh_client rejecting_world))
    = Raise (NameError "ObserverError").
Proof.
  split; [reflexivity|]. split; [reflexivity|]. split; [reflexivity|].
  split; [reflexivity|]. split; [reflexivity|].
  apply (C3_unencodable_document_raises_NameError sample_strptime sample_md5
           ascii_digit sample_run sample_cout sample_config None 7
           (Sys fresh_client rejecting_world) 26 26 26 []);
    first [reflexivity | left; reflexivity].
Defined.

(** The client of stored_world bound to run 1. *)
Lemma overwrite_client_is_built :
  initialize (Some 1) 30 None stored_world
  = (Ok overwrite_client, record_op (RunsFindOne 1) stored_world).
Proof. vm_compute. reflexivity. Qed.

(** C2 fails as stated: the upsert of loss appends to the document of
    run 1, no metric document is created, and yet the registry of the
    stored run, which held the entry of loss, is replaced by an empty
    info. *)
Lemma C2_counterexample :
  fst (finished_event sample_strptime sample_md5 ascii_digit sample_run
         sample_cout sample_config (Some [("loss", loss_batch_2)]) None None
         (Sys overwrite_client stored_world))
  = Ok 1
  ∧ metric_ref 1 "loss" (metrics stored_world) = Some 5%N
  ∧ metrics
      (store
         (snd (finished_event sample_strptime sample_md5 ascii_digit sample_run
                 sample_cout sample_config (Some [("loss", loss_batch_2)])
                 None None (Sys overwrite_client stored_world))))
    = [MetricDoc 5 1 "loss" [VInt 0; VInt 1; VInt 2]
         [VFloat "0.10"; VFloat "0.20"; VFloat "0.30"]
         [VStr "t0"; VStr "t1"; VStr "t2"]]
  ∧ stored_info stored_world 1 = Some (info_value [entry_of "loss" 5])
  ∧ stored_info
      (store
         (snd (finished_event sample_strptime sample_md5 ascii_digit sample_run
                 sample_cout sample_config (Some [("loss", loss_batch_2)])
                 None None (Sys overwrite_client stored_world)))) 1
    = Some (VDict [])
  ∧ stored_info
      (store
         (snd (finished_event sample_strptime sample_md5 ascii_digit sample_run
                 sample_cout sample_config (Some [("loss", loss_batch_2)])
                 None None (Sys overwrite_client stored_world)))) 1
    ≠ stored_info stored_world 1.
Proof.
  do 5 (split; [vm_compute; reflexivity|]).
  intros H. vm_compute in H. discriminate.
Qed.

(** The update of info is issued although no metric document was
    created: the last round trip of the overwrite of run 1 sets info to
    the empty dict. *)
Example info_is_saved_when_nothing_was_created :
  last
    (log
       (store
          (snd (finished_event sample_strptime sample_md5 ascii_digit sample_run
                  sample_cout sample_config (Some [("loss", loss_batch_2)])
                  None None (Sys overwrite_client stored_world)))))
  = Some (RunsUpdateOne (VInt 1) {["info" := VDict []]}).
Proof. vm_compute. reflexivity. Qed.

(** C2, as the code has it, at a fresh run with two new metrics. *)
Lemma C2_witness :
  sched (store (Sys fresh_client empty_world)) = []
  ∧ NoDup (map fst [("loss", loss_batch); ("acc", loss_batch_2)])
  ∧ ∃ registry,
      registers 1
        (metrics
           (store
              (snd (finished_event sample_strptime sample_md5 ascii_digit
                      sample_run sample_cout sample_config
                      (Some [("loss", loss_batch); ("acc", loss_batch_2)])
                      (Some sample_dir) None (Sys fresh_client empty_world)))))
        (created 1 (metrics (store (Sys fresh_client empty_world)))
           (map fst [("loss", loss_batch); ("acc", loss_batch_2)]))
        registry
      ∧ (∀ d,
           runs
             (store
                (snd (finished_event sample_strptime sample_md5 ascii_digit
                        sample_run sample_cout sample_config
                        (Some [("loss", loss_batch); ("acc", loss_batch_2)])
                        (Some sample_dir) None (Sys fresh_client empty_world))))
             !! 1 = Some d →
           d !! "info" = Some (info_value registry))
      ∧ (overwrite (self (Sys fresh_client empty_world)) = None
         ∨ is_Some (runs (store (Sys fresh_client empty_world)) !! 1) →
         is_Some
           (runs
              (store
                 (snd (finished_event sample_strptime sample_md5 ascii_digit
                         sample_run sample_cout sample_config
                         (Some [("loss", loss_batch); ("acc", loss_batch_2)])
                         (Some sample_dir) None (Sys fresh_client empty_world))))
              !! 1))
      ∧ ∃ earlier,
          log
            (store
               (snd (finished_event sample_strptime sample_md5 ascii_digit
                       sample_run sample_cout sample_config
                       (Some [("loss", loss_batch); ("acc", loss_batch_2)])
                       (Some sample_dir) None (Sys fresh_client empty_world))))
          = log (store (Sys fresh_client empty_world)) ++ earlier
              ++ [RunsUpdateOne (VInt 1) {["info" := info_value registry]}].
Proof.
  assert (NoDup (map fst [("loss", loss_batch); ("acc", loss_batch_2)])) as Hnd.
  { apply (bool_decide_unpack _). vm_compute. exact I. }
  split; [reflexivity|]. split; [exact Hnd|].
  apply (C2_registry_lists_the_metrics_created_by_this_call sample_strptime
           sample_md5 ascii_digit sample_run sample_cout sample_config
           ("loss", loss_batch) [("acc", loss_batch_2)] (Some sample_dir) None
           (Sys fresh_client empty_world) _ 1 eq_refl Hnd).
  vm_compute. reflexivity.
Defined.

(** C5 at the second batch of loss for run 1: the document of run 1
    takes the element of the batch at the end of its three arrays. *)
Lemma C5_witness :
  finished_event sample_strptime sample_md5 ascii_digit sample_run
    sample_cout sample_config (Some [("loss", loss_batch_2)]) None None
    (Sys overwrite_client stored_world)
  = (Ok 1,
     snd (finished_event sample_strptime sample_md5 ascii_digit sample_run
            sample_cout sample_config (Some [("loss", loss_batch_2)]) None
            None (Sys overwrite_client stored_world)))
  ∧ NoDup (map fst (default [] (Some [("loss", loss_batch_2)])))
  ∧ Forall (λ kb, aligned (snd kb)) (default [] (Some [("loss", loss_batch_2)]))
  ∧ (∀ z, Ok 1 = Ok z →
       ∀ key b, (key, b) ∈ default [] (Some [("loss", loss_batch_2)]) →
         merged z key b (metrics (store (Sys overwrite_client stored_world)))
           (metrics
              (store
                 (snd (finished_event sample_strptime sample_md5 ascii_digit
                         sample_run sample_cout sample_config
                         (Some [("loss", loss_batch_2)]) None None
                         (Sys overwrite_client stored_world))))))
  ∧ (∃ ops,
       log (store
              (snd (finished_event sample_strptime sample_md5 ascii_digit
                      sample_run sample_cout sample_config
                      (Some [("loss", loss_batch_2)]) None None
                      (Sys overwrite_client stored_world))))
       = log (store (Sys overwrite_client stored_world)) ++ ops
       ∧ ∀ i z key b,
           ops !! i = Some (MetricsUpdateOne z key b) →
           (S i < length ops)%nat →
           merged z key b (metrics (store (Sys overwrite_client stored_world)))
             (metrics
                (store
                   (snd (finished_event sample_strptime sample_md5 ascii_digit
                           sample_run sample_cout sample_config
                           (Some [("loss", loss_batch_2)]) None None
                           (Sys overwrite_client stored_world))))))
  ∧ (Forall balanced (metrics (store (Sys overwrite_client stored_world))) →
     Forall balanced
       (metrics
          (store
             (snd (finished_event sample_strptime sample_md5 ascii_digit
                     sample_run sample_cout sample_config
                     (Some [("loss", loss_batch_2)]) None None
                     (Sys overwrite_client stored_world)))))).
Proof.
  assert (finished_event sample_strptime sample_md5 ascii_digit sample_run
            sample_cout sample_config (Some [("loss", loss_batch_2)]) None None
            (Sys overwrite_client stored_world)
          = (Ok 1,
             snd (finished_event sample_strptime sample_md5 ascii_digit
                    sample_run sample_cout sample_config
                    (Some [("loss", loss_batch_2)]) None None
                    (Sys overwrite_client stored_world)))) as H.
  { vm_compute. reflexivity. }
  assert (NoDup (map fst (default [] (Some [("loss", loss_batch_2)])))) as Hnd.
  { apply (bool_decide_unpack _). vm_compute. exact I. }
  assert (Forall (λ kb, aligned (snd kb))
            (default [] (Some [("loss", loss_batch_2)]))) as Hal.
  { repeat constructor. }
  split; [exact H|]. split; [exact Hnd|]. split; [exact Hal|].
  exact (C5_merge_extends_the_three_arrays sample_strptime sample_md5
           ascii_digit sample_run sample_cout sample_config
           (Some [("loss", loss_batch_2)]) None None
           (Sys overwrite_client stored_world) _ (Ok 1) H Hnd Hal).
Defined.


Lemma sample_manifest_is_honest :
  honest sample_md5 sample_dir (sources (experiment sample_run)).
Proof.
  intros n h c Hin Hc. simpl in Hin.
  apply elem_of_cons in Hin as [[= -> ->]|Hin];
    [vm_compute in Hc; by injection Hc as <-|].
  apply elem_of_cons in Hin as [[= -> ->]|Hin];
    [vm_compute in Hc; by injection Hc as <-|].
  by apply elem_of_nil in Hin.
Qed.

(** C6 at two runs of save_sources over the same manifest. *)
Lemma C6_witness :
  honest sample_md5 sample_dir (sources (experiment sample_run))
  ∧ save_sources sample_md5 (experiment sample_run) sample_dir
      (Sys fresh_client empty_world)
    = (Ok [("main.py", 0%N); ("util.py", 1%N)],
       snd (save_sources sample_md5 (experiment sample_run) sample_dir
              (Sys fresh_client empty_world)))
  ∧ save_sources sample_md5 (experiment sample_run) sample_dir
      (snd (save_sources sample_md5 (experiment sample_run) sample_dir
              (Sys fresh_client empty_world)))
    = (Ok [("main.py", 0%N); ("util.py", 1%N)],
       snd (save_sources sample_md5 (experiment sample_run) sample_dir
              (snd (save_sources sample_md5 (experiment sample_run) sample_dir
                      (Sys fresh_client empty_world)))))
  ∧ (∀ p h o1 o2,
       (p, h, o1) ∈ resolved (experiment sample_run)
                      [("main.py", 0%N); ("util.py", 1%N)]
                    ++ resolved (experiment sample_run)
                         [("main.py", 0%N); ("util.py", 1%N)] →
       (p, h, o2) ∈ resolved (experiment sample_run)
                      [("main.py", 0%N); ("util.py", 1%N)]
                    ++ resolved (experiment sample_run)
                         [("main.py", 0%N); ("util.py", 1%N)] →
       o1 = o2)
  ∧ length
      (fs (store
             (snd (save_sources sample_md5 (experiment sample_run) sample_dir
                     (snd (save_sources sample_md5 (experiment sample_run)
                             sample_dir (Sys fresh_client empty_world)))))))
    = 2%nat.
Proof.
  assert (save_sources sample_md5 (experiment sample_run) sample_dir
            (Sys fresh_client empty_world)
          = (Ok [("main.py", 0%N); ("util.py", 1%N)],
             snd (save_sources sample_md5 (experiment sample_run) sample_dir
                    (Sys fresh_client empty_world)))) as HA
    by (vm_compute; reflexivity).
  assert (save_sources sample_md5 (experiment sample_run) sample_dir
            (snd (save_sources sample_md5 (experiment sample_run) sample_dir
                    (Sys fresh_client empty_world)))
          = (Ok [("main.py", 0%N); ("util.py", 1%N)],
             snd (save_sources sample_md5 (experiment sample_run) sample_dir
                    (snd (save_sources sample_md5 (experiment sample_run)
                            sample_dir (Sys fresh_client empty_world)))))) as HB
    by (vm_compute; reflexivity).
  split; [exact sample_manifest_is_honest|]. split; [exact HA|].
  split; [exact HB|]. split; [|vm_compute; reflexivity].
  exact (proj1 (C6_same_path_and_hash_share_one_blob sample_md5
                  (experiment sample_run) (experiment sample_run)
                  sample_dir sample_dir _ _ _ _ _ _
                  sample_manifest_is_honest sample_manifest_is_honest
                  HA eq_refl HB)).
Defined.

(** C9 at the directory that lacks util.py. *)
Lemma C9_witness :
  ("util.py", "md5:pass") ∈ sources (experiment sample_run)
  ∧ partial_dir !! "util.py" = None
  ∧ List.find
      (blob_matches (path_join (base_dir (experiment sample_run)) "util.py")
                    "md5:pass")
      (fs (store (Sys fresh_client empty_world))) = None
  ∧ ∃ e s',
      finished_event sample_strptime sample_md5 ascii_digit sample_run
        sample_cout sample_config None (Some partial_dir) None
        (Sys fresh_client empty_world) = (Raise e, s')
      ∧ no_runs_write (Sys fresh_client empty_world) s'.
Proof.
  assert (("util.py", "md5:pass") ∈ sources (experiment sample_run)) as Hin
    by (simpl; set_solver).
  split; [exact Hin|]. split; [reflexivity|]. split; [reflexivity|].
  apply (C9_missing_source_fails_before_insert sample_strptime sample_md5
           ascii_digit sample_run sample_cout sample_config None partial_dir
           None "util.py" "md5:pass" (Sys fresh_client empty_world) Hin);
    [reflexivity|reflexivity|].
  intros n' c Hc [_ Hh].
  unfold partial_dir in Hc.
  apply lookup_singleton_Some in Hc as [_ <-]. vm_compute in Hh. discriminate.
Defined.

(* --------------------------------------------------------------------- *)
(* The further properties at sample inputs                              *)
(* --------------------------------------------------------------------- *)

(** X1 at the prefix search, which begins two reserved names. *)
Lemma X1_witness :
  (∀ (u : option string) k, accepts u ≠ Some (KeyError k))
  ∧ (∀ (n : string) k, accepts n ≠ Some (KeyError k))
  ∧ (runs_collection_name "search" ∉ COLLECTION_NAME_BLACKLIST)
  ∧ (metrics_collection_name "search" ∉ COLLECTION_NAME_BLACKLIST)
  ∧ runs_collection_name "search" ≠ metrics_collection_name "search"
  ∧ ∀ url db_name ov prio cl fdir w k,
      fst (__init__ accepts accepts accepts accepts url db_name "search"
             ov prio cl fdir w)
      ≠ Raise (KeyError k).
Proof.
  split; [intros u k; discriminate|]. split; [intros n k; discriminate|].
  apply (X1_no_prefix_gives_a_reserved_name accepts accepts accepts accepts
           "search"); intros ? k; discriminate.
Defined.

(** X2 at the construction of a client for the target 1 of
    stored_world. *)
Lemma X2_witness :
  __init__ accepts accepts accepts accepts (Some "localhost:27017") "sacred"
    "exp" (Some 1) 30 None None stored_world
  = (Ok ("exp_runs", "exp_metrics", overwrite_client),
     record_op (RunsFindOne 1) stored_world)
  ∧ (record_op (RunsFindOne 1) stored_world = stored_world
     ∨ record_op (RunsFindOne 1) stored_world
       = snd (tick (RunsFindOne 1) stored_world))
  ∧ ∀ rn mn c,
      Ok ("exp_runs", "exp_metrics", overwrite_client) = Ok (rn, mn, c) →
      rn = runs_collection_name "exp"
      ∧ mn = metrics_collection_name "exp"
      ∧ run_entry c = None ∧ priority c = 30 ∧ failure_dir c = None
      ∧ ∃ d, runs (record_op (RunsFindOne 1) stored_world) !! 1 = Some d
             ∧ overwrite c = Some (<["_id" := VInt 1]> d).
Proof.
  assert (__init__ accepts accepts accepts accepts (Some "localhost:27017")
            "sacred" "exp" (Some 1) 30 None None stored_world
          = (Ok ("exp_runs", "exp_metrics", overwrite_client),
             record_op (RunsFindOne 1) stored_world)) as Hinit.
  { vm_compute. reflexivity. }
  split; [exact Hinit|].
  exact (X2_constructor_looks_up_only_the_target accepts accepts accepts accepts
           (Some "localhost:27017") "sacred" "exp" (Some 1) 30 None None
           stored_world _ _ Hinit).
Defined.

(** X3 at the run record without a stop_time. *)
Lemma X3_witness :
  ¬ bound (self (Sys fresh_client empty_world))
  ∧ (sample_strptime (start_time undated_run) = None
     ∨ sample_strptime (stop_time undated_run) = None
     ∨ sample_strptime (heartbeat undated_run) = None)
  ∧ ∃ t s',
      finished_event sample_strptime sample_md5 ascii_digit undated_run
        sample_cout sample_config None None None
        (Sys fresh_client empty_world)
      = (Raise (ValueError t), s')
      ∧ store s' = store (Sys fresh_client empty_world)
      ∧ is_Some (run_entry (self s'))
      ∧ sample_strptime t = None
      ∧ (t = start_time undated_run
         ∨ (is_Some (sample_strptime (start_time undated_run))
            ∧ (t = stop_time undated_run
               ∨ (is_Some (sample_strptime (stop_time undated_run))
                  ∧ t = heartbeat undated_run)))).
Proof.
  assert (¬ bound (self (Sys fresh_client empty_world))) as Hb.
  { intros [[ov Hov] _]. discriminate. }
  assert (sample_strptime (start_time undated_run) = None
          ∨ sample_strptime (stop_time undated_run) = None
          ∨ sample_strptime (heartbeat undated_run) = None) as Hbad.
  { right. left. reflexivity. }
  split; [exact Hb|]. split; [exact Hbad|].
  exact (X3_timestamps_are_parsed_before_any_round_trip sample_strptime
           sample_md5 ascii_digit undated_run sample_cout sample_config None
           None None (Sys fresh_client empty_world) Hb Hbad).
Defined.

(** X4 at the two sources of the sample run and an empty blob store. *)
Lemma X4_witness :
  save_sources sample_md5 (experiment sample_run) sample_dir
    (Sys fresh_client empty_world)
  = (Ok [("main.py", 0%N); ("util.py", 1%N)],
     snd (save_sources sample_md5 (experiment sample_run) sample_dir
            (Sys fresh_client empty_world)))
  ∧ ∃ added,
      fs (store (snd (save_sources sample_md5 (experiment sample_run)
                        sample_dir (Sys fresh_client empty_world))))
      = fs (store (Sys fresh_client empty_world)) ++ added
      ∧ Forall (uploaded_from sample_md5 (base_dir (experiment sample_run))
                  sample_dir (sources (experiment sample_run))) added
      ∧ ∀ info, Ok [("main.py", 0%N); ("util.py", 1%N)] = Ok info →
          map fst info = map fst (sources (experiment sample_run))
          ∧ Forall2
              (names_blob (base_dir (experiment sample_run)) sample_dir
                 (fs (store (snd (save_sources sample_md5
                                    (experiment sample_run) sample_dir
                                    (Sys fresh_client empty_world))))))
              (sources (experiment sample_run)) info.
Proof.
  assert (save_sources sample_md5 (experiment sample_run) sample_dir
            (Sys fresh_client empty_world)
          = (Ok [("main.py", 0%N); ("util.py", 1%N)],
             snd (save_sources sample_md5 (experiment sample_run) sample_dir
                    (Sys fresh_client empty_world)))) as H.
  { vm_compute. reflexivity. }
  split; [exact H|].
  exact (X4_save_sources_answers_entry_by_entry sample_md5
           (experiment sample_run) sample_dir (Sys fresh_client empty_world)
           _ _ H).
Defined.

(** X5 at a second save_sources of the sample manifest, from an empty
    directory. *)
Lemma X5_witness :
  honest sample_md5 sample_dir (sources (experiment sample_run))
  ∧ save_sources sample_md5 (experiment sample_run) sample_dir
      (Sys fresh_client empty_world)
    = (Ok [("main.py", 0%N); ("util.py", 1%N)],
       snd (save_sources sample_md5 (experiment sample_run) sample_dir
              (Sys fresh_client empty_world)))
  ∧ sched (store (snd (save_sources sample_md5 (experiment sample_run)
                         sample_dir (Sys fresh_client empty_world)))) = []
  ∧ ∃ s3,
      save_sources sample_md5 (experiment sample_run) ∅
        (snd (save_sources sample_md5 (experiment sample_run) sample_dir
                (Sys fresh_client empty_world)))
      = (Ok [("main.py", 0%N); ("util.py", 1%N)], s3)
      ∧ fs (store s3)
        = fs (store (snd (save_sources sample_md5 (experiment sample_run)
                            sample_dir (Sys fresh_client empty_world))))
      ∧ emits (λ o, ∃ p h, o = FsFindOne p h)
          (snd (save_sources sample_md5 (experiment sample_run) sample_dir
                  (Sys fresh_client empty_world))) s3.
Proof.
  assert (save_sources sample_md5 (experiment sample_run) sample_dir
            (Sys fresh_client empty_world)
          = (Ok [("main.py", 0%N); ("util.py", 1%N)],
             snd (save_sources sample_md5 (experiment sample_run) sample_dir
                    (Sys fresh_client empty_world)))) as H.
  { vm_compute. reflexivity. }
  assert (sched (store (snd (save_sources sample_md5 (experiment sample_run)
                               sample_dir (Sys fresh_client empty_world)))) = [])
    as Hq.
  { vm_compute. reflexivity. }
  split; [exact sample_manifest_is_honest|]. split; [exact H|].
  split; [exact Hq|].
  exact (X5_sources_stored_once_are_not_stored_again sample_md5
           (experiment sample_run) sample_dir ∅ (Sys fresh_client empty_world)
           _ _ _ sample_manifest_is_honest H eq_refl Hq).
Defined.

(** X6 at a fresh finish on the store that holds run 1. *)
Lemma X6_witness :
  overwrite (self (Sys fresh_client stored_world)) = None
  ∧ finished_event sample_strptime sample_md5 ascii_digit sample_run
      sample_cout sample_config (Some [("loss", loss_batch_2)]) None None
      (Sys fresh_client stored_world)
    = (Ok 2,
       snd (finished_event sample_strptime sample_md5 ascii_digit sample_run
              sample_cout sample_config (Some [("loss", loss_batch_2)]) None
              None (Sys fresh_client stored_world)))
  ∧ (∀ k d,
       runs (store (Sys fresh_client stored_world)) !! k = Some d →
       runs (store (snd (finished_event sample_strptime sample_md5 ascii_digit
                           sample_run sample_cout sample_config
                           (Some [("loss", loss_batch_2)]) None None
                           (Sys fresh_client stored_world)))) !! k = Some d)
  ∧ ∀ z, Ok 2 = Ok z →
         runs (store (Sys fresh_client stored_world)) !! z = None.
Proof.
  assert (finished_event sample_strptime sample_md5 ascii_digit sample_run
            sample_cout sample_config (Some [("loss", loss_batch_2)]) None
            None (Sys fresh_client stored_world)
          = (Ok 2,
             snd (finished_event sample_strptime sample_md5 ascii_digit
                    sample_run sample_cout sample_config
                    (Some [("loss", loss_batch_2)]) None None
                    (Sys fresh_client stored_world)))) as H.
  { vm_compute. reflexivity. }
  split; [reflexivity|]. split; [exact H|].
  exact (X6_fresh_finish_never_touches_a_stored_run sample_strptime sample_md5
           ascii_digit sample_run sample_cout sample_config
           (Some [("loss", loss_batch_2)]) None None
           (Sys fresh_client stored_world) _ _ eq_refl H).
Defined.

(** X7 at a finish asked to store under the id of run 1. *)
Lemma X7_witness :
  overwrite (self (Sys fresh_client stored_world)) = None
  ∧ sched (store (Sys fresh_client stored_world)) = []
  ∧ runs (store (Sys fresh_client stored_world)) !! 1
    = Some {["status" := VStr "RUNNING";
             "info" := info_value [entry_of "loss" 5]]}
  ∧ sample_strptime (start_time sample_run) = Some 26
  ∧ sample_strptime (stop_time sample_run) = Some 26
  ∧ sample_strptime (heartbeat sample_run) = Some 26
  ∧ code_present None (sources (experiment sample_run))
  ∧ ∃ s',
      finished_event sample_strptime sample_md5 ascii_digit sample_run
        sample_cout sample_config None None (Some 1)
        (Sys fresh_client stored_world)
      = (Raise DuplicateKeyError, s')
      ∧ runs (store s') = runs (store (Sys fresh_client stored_world))
      ∧ metrics (store s') = metrics (store (Sys fresh_client stored_world)).
Proof.
  split; [reflexivity|]. split; [reflexivity|]. split; [reflexivity|].
  split; [reflexivity|]. split; [reflexivity|]. split; [reflexivity|].
  split; [exact I|].
  exact (X7_taken_id_is_refused sample_strptime sample_md5 ascii_digit
           sample_run sample_cout sample_config None None 1 _
           (Sys fresh_client stored_world) 26 26 26
           eq_refl eq_refl eq_refl eq_refl eq_refl eq_refl I).
Defined.


(** X9 at run 7 on the store that loses the connection after the
    insert. *)
Lemma X9_witness :
  overwrite (self (Sys fresh_client dropping_world)) = None
  ∧ runs (store (Sys fresh_client dropping_world)) !! 7 = None
  ∧ sched (store (Sys fresh_client dropping_world))
    = [Quiet; Fails AutoReconnect]
  ∧ sample_strptime (start_time sample_run) = Some 26
  ∧ sample_strptime (stop_time sample_run) = Some 26
  ∧ sample_strptime (heartbeat sample_run) = Some 26
  ∧ ∃ new s',
      finished_event sample_strptime sample_md5 ascii_digit sample_run
        sample_cout sample_config None None (Some 7)
        (Sys fresh_client dropping_world)
      = (Ok 7, s')
      ∧ RunsUpdateOne (VInt 7)
          {["captured_out" := VStr (sub_first ascii_digit (marker 7) sample_cout)]}
        ∈ log (store s')
      ∧ runs (store s') !! 7 = Some new
      ∧ new !! "captured_out" = Some (VStr "").
Proof.
  split; [reflexivity|]. split; [reflexivity|]. split; [reflexivity|].
  split; [reflexivity|]. split; [reflexivity|]. split; [reflexivity|].
  exact (X9_lost_update_is_passed_over sample_strptime sample_md5 ascii_digit
           sample_run sample_cout sample_config None 7
           (Sys fresh_client dropping_world) 26 26 26
           eq_refl eq_refl eq_refl eq_refl eq_refl eq_refl).
Defined.

(** X10 at the client built for run 1, finishing on a store where the
    run is gone. *)
Lemma X10_witness :
  initialize (Some 1) 30 None stored_world
  = (Ok overwrite_client, record_op (RunsFindOne 1) stored_world)
  ∧ sched empty_world = []
  ∧ runs empty_world !! 1 = None
  ∧ sample_strptime (start_time sample_run) = Some 26
  ∧ sample_strptime (stop_time sample_run) = Some 26
  ∧ sample_strptime (heartbeat sample_run) = Some 26
  ∧ code_present None (sources (experiment sample_run))
  ∧ ∃ s',
      finished_event sample_strptime sample_md5 ascii_digit sample_run
        sample_cout sample_config (Some [("loss", loss_batch)]) None None
        (Sys overwrite_client empty_world)
      = (Ok 1, s')
      ∧ runs (store s') = runs empty_world.
Proof.
  split; [exact overwrite_client_is_built|].
  split; [reflexivity|]. split; [reflexivity|].
  split; [reflexivity|]. split; [reflexivity|]. split; [reflexivity|].
  split; [exact I|].
  exact (X10_overwrite_of_a_vanished_run_stores_nothing sample_strptime
           sample_md5 ascii_digit 1 30 None stored_world _ empty_world
           overwrite_client sample_run sample_cout sample_config
           (Some [("loss", loss_batch)]) None None 26 26 26
           overwrite_client_is_built eq_refl eq_refl eq_refl eq_refl eq_refl I).
Defined.

(** X11 at the client built for run 1, asked to store under id 9. *)
Lemma X11_witness :
  initialize (Some 1) 30 None stored_world
  = (Ok overwrite_client, record_op (RunsFindOne 1) stored_world)
  ∧ finished_event sample_strptime sample_md5 ascii_digit sample_run
      sample_cout sample_config None None (Some 9)
      (Sys overwrite_client stored_world)
    = finished_event sample_strptime sample_md5 ascii_digit sample_run
        sample_cout sample_config None None None
        (Sys overwrite_client stored_world)
  ∧ ∀ z' s',
      finished_event sample_strptime sample_md5 ascii_digit sample_run
        sample_cout sample_config None None (Some 9)
        (Sys overwrite_client stored_world) = (Ok z', s') →
      z' = 1.
Proof.
  split; [exact overwrite_client_is_built|].
  destruct (X11_overwrite_returns_the_target_id sample_strptime sample_md5
              ascii_digit 1 30 None stored_world _ stored_world
              overwrite_client sample_run sample_cout sample_config None None
              overwrite_client_is_built) as [Hsame Hid].
  split; [exact (Hsame (Some 9) None)|exact (Hid (Some 9))].
Defined.

(** X12 at the overwrite of run 1 with a further batch of loss. *)
Lemma X12_witness :
  initialize (Some 1) 30 None stored_world
  = (Ok overwrite_client, record_op (RunsFindOne 1) stored_world)
  ∧ finished_event sample_strptime sample_md5 ascii_digit sample_run
      sample_cout sample_config (Some [("loss", loss_batch_2)])
      (Some sample_dir) None (Sys overwrite_client stored_world)
    = (Ok 1,
       snd (finished_event sample_strptime sample_md5 ascii_digit sample_run
              sample_cout sample_config (Some [("loss", loss_batch_2)])
              (Some sample_dir) None (Sys overwrite_client stored_world)))
  ∧ emits (overwrites_only 1) (Sys overwrite_client stored_world)
      (snd (finished_event sample_strptime sample_md5 ascii_digit sample_run
              sample_cout sample_config (Some [("loss", loss_batch_2)])
              (Some sample_dir) None (Sys overwrite_client stored_world))).
Proof.
  assert (finished_event sample_strptime sample_md5 ascii_digit sample_run
            sample_cout sample_config (Some [("loss", loss_batch_2)])
            (Some sample_dir) None (Sys overwrite_client stored_world)
          = (Ok 1,
             snd (finished_event sample_strptime sample_md5 ascii_digit
                    sample_run sample_cout sample_config
                    (Some [("loss", loss_batch_2)]) (Some sample_dir) None
                    (Sys overwrite_client stored_world)))) as H.
  { vm_compute. reflexivity. }
  split; [exact overwrite_client_is_built|]. split; [exact H|].
  exact (X12_overwrite_updates_the_target_and_inserts_nothing sample_strptime
           sample_md5 ascii_digit 1 30 None stored_world _ stored_world
           overwrite_client sample_run sample_cout sample_config
           (Some [("loss", loss_batch_2)]) (Some sample_dir) None _ _
           overwrite_client_is_built H).
Defined.

(** X13 at the overwrite of run 1 with its sources and a further batch
    of loss. *)
Lemma X13_witness :
  finished_event sample_strptime sample_md5 ascii_digit sample_run
    sample_cout sample_config (Some [("loss", loss_batch_2)])
    (Some sample_dir) None (Sys overwrite_client stored_world)
  = (Ok 1,
     snd (finished_event sample_strptime sample_md5 ascii_digit sample_run
            sample_cout sample_config (Some [("loss", loss_batch_2)])
            (Some sample_dir) None (Sys overwrite_client stored_world)))
  ∧ (∀ z, is_Some (runs (store (Sys overwrite_client stored_world)) !! z) →
          is_Some
            (runs
               (store
                  (snd (finished_event sample_strptime sample_md5 ascii_digit
                          sample_run sample_cout sample_config
                          (Some [("loss", loss_batch_2)]) (Some sample_dir)
                          None (Sys overwrite_client stored_world)))) !! z))
  ∧ fs_grows (Sys overwrite_client stored_world)
      (snd (finished_event sample_strptime sample_md5 ascii_digit sample_run
              sample_cout sample_config (Some [("loss", loss_batch_2)])
              (Some sample_dir) None (Sys overwrite_client stored_world)))
  ∧ metrics_grow (Sys overwrite_client stored_world)
      (snd (finished_event sample_strptime sample_md5 ascii_digit sample_run
              sample_cout sample_config (Some [("loss", loss_batch_2)])
              (Some sample_dir) None (Sys overwrite_client stored_world))).
Proof.
  assert (finished_event sample_strptime sample_md5 ascii_digit sample_run
            sample_cout sample_config (Some [("loss", loss_batch_2)])
            (Some sample_dir) None (Sys overwrite_client stored_world)
          = (Ok 1,
             snd (finished_event sample_strptime sample_md5 ascii_digit
                    sample_run sample_cout sample_config
                    (Some [("loss", loss_batch_2)]) (Some sample_dir) None
                    (Sys overwrite_client stored_world)))) as H.
  { vm_compute. reflexivity. }
  split; [exact H|].
  exact (X13_a_finish_removes_nothing sample_strptime sample_md5 ascii_digit
           sample_run sample_cout sample_config
           (Some [("loss", loss_batch_2)]) (Some sample_dir) None
           (Sys overwrite_client stored_world) _ _ H).
Defined.

(** X14 at the overwrite of run 1 without metrics. *)
Lemma X14_witness :
  finished_event sample_strptime sample_md5 ascii_digit sample_run
    sample_cout sample_config None None None
    (Sys overwrite_client stored_world)
  = (Ok 1,
     snd (finished_event sample_strptime sample_md5 ascii_digit sample_run
            sample_cout sample_config None None None
            (Sys overwrite_client stored_world)))
  ∧ finished_event sample_strptime sample_md5 ascii_digit sample_run
      sample_cout sample_config (Some []) None None
      (Sys overwrite_client stored_world)
    = (Ok 1,
       snd (finished_event sample_strptime sample_md5 ascii_digit sample_run
              sample_cout sample_config None None None
              (Sys overwrite_client stored_world)))
  ∧ metrics (store (snd (finished_event sample_strptime sample_md5 ascii_digit
                           sample_run sample_cout sample_config None None None
                           (Sys overwrite_client stored_world))))
    = metrics (store (Sys overwrite_client stored_world))
  ∧ emits no_registry (Sys overwrite_client stored_world)
      (snd (finished_event sample_strptime sample_md5 ascii_digit sample_run
              sample_cout sample_config None None None
              (Sys overwrite_client stored_world))).
Proof.
  assert (finished_event sample_strptime sample_md5 ascii_digit sample_run
            sample_cout sample_config None None None
            (Sys overwrite_client stored_world)
          = (Ok 1,
             snd (finished_event sample_strptime sample_md5 ascii_digit
                    sample_run sample_cout sample_config None None None
                    (Sys overwrite_client stored_world)))) as H.
  { vm_compute. reflexivity. }
  split; [exact H|].
  exact (X14_an_empty_mapping_is_no_metrics sample_strptime sample_md5
           ascii_digit sample_run sample_cout sample_config None None
           (Sys overwrite_client stored_world) _ _ H).
Defined.

(** Every source the sample run lists is in sample_dir. *)
Lemma sample_sources_are_present :
  all_present sample_dir (sources (experiment sample_run)).
Proof.
  intros n h Hin. simpl in Hin.
  apply elem_of_cons in Hin as [[= -> ->]|Hin]; [by eexists|].
  apply elem_of_cons in Hin as [[= -> ->]|Hin]; [by eexists|].
  by apply elem_of_nil in Hin.
Qed.

(** The directory that is not there is named as pathlib writes it,
    without the separator at its end. *)
Example missing_directory_is_named_by_its_path :
  storage2mongo sample_strptime sample_md5 ascii_digit accepts accepts
    accepts accepts posix_path sample_disk (sample_options "out/9/" None)
    stored_world
  = (Raise (FileNotFoundError "Cannot find the directory out/9"), stored_world).
Proof. vm_compute. reflexivity. Qed.

(** X15 at a directory that is not there, given with a separator at its
    end, and at the directory without run.json. *)
Lemma X15_witness :
  ((∀ d, sample_disk !! posix_path (opt_src_dir (sample_options "out/9/" None))
         = Some d →
         cout_txt d = None ∨ config_json d = None
         ∨ metrics_json d = None ∨ run_json d = None)
   ∧ ∃ e,
       storage2mongo sample_strptime sample_md5 ascii_digit accepts accepts
         accepts accepts posix_path sample_disk (sample_options "out/9/" None)
         stored_world
       = (Raise e, stored_world)
       ∧ (sample_disk !! posix_path (opt_src_dir (sample_options "out/9/" None))
          = None →
          e = NoDirectory
                (posix_path (opt_src_dir (sample_options "out/9/" None)))))
  ∧ (∀ d, sample_disk !! posix_path (opt_src_dir (sample_options "out/3" None))
          = Some d →
          cout_txt d = None ∨ config_json d = None
          ∨ metrics_json d = None ∨ run_json d = None)
  ∧ ∃ e,
      storage2mongo sample_strptime sample_md5 ascii_digit accepts accepts
        accepts accepts posix_path sample_disk (sample_options "out/3" None)
        stored_world
      = (Raise e, stored_world)
      ∧ (sample_disk !! posix_path (opt_src_dir (sample_options "out/3" None))
         = None →
         e = NoDirectory
               (posix_path (opt_src_dir (sample_options "out/3" None)))).
Proof.
  assert (∀ d, sample_disk
                 !! posix_path (opt_src_dir (sample_options "out/9/" None))
               = Some d →
               cout_txt d = None ∨ config_json d = None
               ∨ metrics_json d = None ∨ run_json d = None) as Hgone.
  { intros d Hd. vm_compute in Hd. discriminate. }
  assert (∀ d, sample_disk
                 !! posix_path (opt_src_dir (sample_options "out/3" None))
               = Some d →
               cout_txt d = None ∨ config_json d = None
               ∨ metrics_json d = None ∨ run_json d = None) as Hmiss.
  { intros d Hd. vm_compute in Hd. injection Hd as <-.
    right. right. right. reflexivity. }
  split; [split; [exact Hgone|]|split; [exact Hmiss|]].
  - exact (X15_nothing_is_stored_from_an_incomplete_directory sample_strptime
             sample_md5 ascii_digit accepts accepts accepts accepts posix_path
             sample_disk (sample_options "out/9/" None) stored_world Hgone).
  - exact (X15_nothing_is_stored_from_an_incomplete_directory sample_strptime
             sample_md5 ascii_digit accepts accepts accepts accepts posix_path
             sample_disk (sample_options "out/3" None) stored_world Hmiss).
Defined.


(** X17 at the directory without the subdirectory source. *)
Lemma X17_witness :
  sample_disk !! posix_path (opt_src_dir (sample_options "out/2" None))
  = Some bare_storage
  ∧ source bare_storage = None
  ∧ storage2mongo sample_strptime sample_md5 ascii_digit accepts accepts
      accepts accepts posix_path sample_disk (sample_options "out/2" None) stored_world
    = (Ok (Report "Convert finished! Experiment id: 2" "2"),
       snd (storage2mongo sample_strptime sample_md5 ascii_digit accepts
              accepts accepts accepts posix_path sample_disk
              (sample_options "out/2" None) stored_world))
  ∧ ∃ l,
      log (snd (storage2mongo sample_strptime sample_md5 ascii_digit accepts
                  accepts accepts accepts posix_path sample_disk
                  (sample_options "out/2" None) stored_world))
      = log stored_world ++ l
      ∧ Forall (λ o, fs_op o = false) l.
Proof.
  assert (sample_disk !! posix_path (opt_src_dir (sample_options "out/2" None))
          = Some bare_storage) as Hd.
  { vm_compute. reflexivity. }
  assert (storage2mongo sample_strptime sample_md5 ascii_digit accepts accepts
            accepts accepts posix_path sample_disk (sample_options "out/2" None)
            stored_world
          = (Ok (Report "Convert finished! Experiment id: 2" "2"),
             snd (storage2mongo sample_strptime sample_md5 ascii_digit accepts
                    accepts accepts accepts posix_path sample_disk
                    (sample_options "out/2" None) stored_world))) as H.
  { vm_compute. reflexivity. }
  split; [exact Hd|]. split; [reflexivity|]. split; [exact H|].
  exact (X17_without_a_source_directory_gridfs_is_not_used sample_strptime
           sample_md5 ascii_digit accepts accepts accepts accepts posix_path sample_disk
           (sample_options "out/2" None) stored_world _ _ bare_storage
           Hd eq_refl H).
Defined.

(** X18 at the script configured with the id of the stored run 1. *)
Lemma X18_witness :
  storage2mongo sample_strptime sample_md5 ascii_digit accepts accepts
    accepts accepts posix_path sample_disk (sample_options "out/1" (Some 1)) stored_world
  = (Raise DuplicateKeyError,
     snd (storage2mongo sample_strptime sample_md5 ascii_digit accepts
            accepts accepts accepts posix_path sample_disk
            (sample_options "out/1" (Some 1)) stored_world))
  ∧ ∀ k d,
      runs stored_world !! k = Some d →
      runs (snd (storage2mongo sample_strptime sample_md5 ascii_digit accepts
                   accepts accepts accepts posix_path sample_disk
                   (sample_options "out/1" (Some 1)) stored_world)) !! k
      = Some d.
Proof.
  assert (storage2mongo sample_strptime sample_md5 ascii_digit accepts accepts
            accepts accepts posix_path sample_disk (sample_options "out/1" (Some 1))
            stored_world
          = (Raise DuplicateKeyError,
             snd (storage2mongo sample_strptime sample_md5 ascii_digit accepts
                    accepts accepts accepts posix_path sample_disk
                    (sample_options "out/1" (Some 1)) stored_world))) as H.
  { vm_compute. reflexivity. }
  split; [exact H|].
  exact (X18_the_script_never_changes_a_stored_run sample_strptime sample_md5
           ascii_digit accepts accepts accepts accepts posix_path sample_disk
           (sample_options "out/1" (Some 1)) stored_world _ _ H).
Defined.

(** X19 at the entry numbered 7 and a writer that takes 7 first. *)
Lemma X19_witness :
  overwrite (self (Sys numbered_client contended_world)) = None
  ∧ run_entry (self (Sys numbered_client contended_world)) = Some numbered_entry
  ∧ numbered_entry !! "_id" = Some (VInt 7)
  ∧ sched (store (Sys numbered_client contended_world)) = [Rival 7]
  ∧ ∃ s',
      insert (Sys numbered_client contended_world)
      = (Raise DuplicateKeyError, s')
      ∧ runs (store s')
        = rival_insert 7 (runs (store (Sys numbered_client contended_world)))
      ∧ is_Some (runs (store s') !! 7)
      ∧ sched (store s') = []
      ∧ self s' = self (Sys numbered_client contended_world)
      ∧ log (store s')
        = log (store (Sys numbered_client contended_world))
          ++ [RunsInsertOne numbered_entry].
Proof.
  split; [reflexivity|]. split; [reflexivity|]. split; [reflexivity|].
  split; [reflexivity|].
  exact (X19_a_given_id_is_not_tried_again
           (Sys numbered_client contended_world) numbered_entry 7 []
           eq_refl eq_refl eq_refl eq_refl).
Defined.

(** X20 at two finishes of the sample run on an empty store, by one
    client: ids 1 and 2. *)
Lemma X20_witness :
  overwrite (self (Sys fresh_client empty_world)) = None
  ∧ sched (store (Sys fresh_client empty_world)) = []
  ∧ sample_strptime (start_time sample_run) = Some 26
  ∧ sample_strptime (stop_time sample_run) = Some 26
  ∧ sample_strptime (heartbeat sample_run) = Some 26
  ∧ code_present (Some sample_dir) (sources (experiment sample_run))
  ∧ code_present None (sources (experiment sample_run))
  ∧ ∃ z s1,
      finished_event sample_strptime sample_md5 ascii_digit sample_run
        sample_cout sample_config (Some [("loss", loss_batch)])
        (Some sample_dir) None (Sys fresh_client empty_world)
      = (Ok z, s1)
      ∧ next_after (runs (store (Sys fresh_client empty_world))) z
      ∧ overwrite (self s1) = None
      ∧ ∀ c', overwrite c' = None →
          ∃ s2,
            finished_event sample_strptime sample_md5 ascii_digit sample_run
              sample_cout sample_config None None None (Sys c' (store s1))
            = (Ok (z + 1), s2)
            ∧ is_Some (runs (store s2) !! z)
            ∧ is_Some (runs (store s2) !! (z + 1)).
Proof.
  split; [reflexivity|]. split; [reflexivity|].
  split; [reflexivity|]. split; [reflexivity|]. split; [reflexivity|].
  split; [exact sample_sources_are_present|]. split; [exact I|].
  exact (X20_ids_are_allocated_in_sequence sample_strptime sample_md5
           ascii_digit sample_run sample_run sample_cout sample_cout
           sample_config sample_config (Some [("loss", loss_batch)]) None
           (Some sample_dir) None (Sys fresh_client empty_world)
           26 26 26 26 26 26 eq_refl eq_refl eq_refl eq_refl eq_refl
           sample_sources_are_present eq_refl eq_refl eq_refl I).
Defined.

(** X21 at two metrics on the store that loses the connection at the
    second upsert. *)
Lemma X21_witness :
  sched (store (Sys fresh_client dropping_world))
  = replicate (length [("loss", loss_batch)]) Quiet
    ++ Fails AutoReconnect :: []
  ∧ ∃ s',
      insert_metrics 7 (Some ([("loss", loss_batch)] ++ ("acc", loss_batch_2) :: []))
        (Sys fresh_client dropping_world)
      = (Raise (PyMongo AutoReconnect), s')
      ∧ runs (store s') = runs (store (Sys fresh_client dropping_world))
      ∧ log (store s')
        = log (store (Sys fresh_client dropping_world))
          ++ map (λ kb, MetricsUpdateOne 7 (fst kb) (snd kb))
               ([("loss", loss_batch)] ++ [("acc", loss_batch_2)])
      ∧ ∀ k, k ∈ map fst [("loss", loss_batch)] →
             is_Some (metric_ref 7 k (metrics (store s'))).
Proof.
  split; [reflexivity|].
  exact (X21_metrics_written_before_a_failure_are_not_registered 7
           [("loss", loss_batch)] [] "acc" loss_batch_2 AutoReconnect []
           (Sys fresh_client dropping_world) eq_refl).
Defined.

(** X22 at a fresh run with the metrics loss and acc. *)
Lemma X22_witness :
  finished_event sample_strptime sample_md5 ascii_digit sample_run
    sample_cout sample_config
    (Some [("loss", loss_batch); ("acc", loss_batch_2)]) (Some sample_dir)
    None (Sys fresh_client empty_world)
  = (Ok 1,
     snd (finished_event sample_strptime sample_md5 ascii_digit sample_run
            sample_cout sample_config
            (Some [("loss", loss_batch); ("acc", loss_batch_2)])
            (Some sample_dir) None (Sys fresh_client empty_world)))
  ∧ ∃ l,
      log (store (snd (finished_event sample_strptime sample_md5 ascii_digit
                         sample_run sample_cout sample_config
                         (Some [("loss", loss_batch); ("acc", loss_batch_2)])
                         (Some sample_dir) None
                         (Sys fresh_client empty_world))))
      = log (store (Sys fresh_client empty_world)) ++ l
      ∧ List.filter is_upsert l
        = upserts 1
            (default [] (Some [("loss", loss_batch); ("acc", loss_batch_2)])).
Proof.
  assert (finished_event sample_strptime sample_md5 ascii_digit sample_run
            sample_cout sample_config
            (Some [("loss", loss_batch); ("acc", loss_batch_2)])
            (Some sample_dir) None (Sys fresh_client empty_world)
          = (Ok 1,
             snd (finished_event sample_strptime sample_md5 ascii_digit
                    sample_run sample_cout sample_config
                    (Some [("loss", loss_batch); ("acc", loss_batch_2)])
                    (Some sample_dir) None (Sys fresh_client empty_world))))
    as H.
  { vm_compute. reflexivity. }
  split; [exact H|].
  exact (X22_one_upsert_per_metric_under_the_id_returned sample_strptime
           sample_md5 ascii_digit sample_run sample_cout sample_config
           (Some [("loss", loss_batch); ("acc", loss_batch_2)])
           (Some sample_dir) None (Sys fresh_client empty_world) _ 1 H).
Defined.
